(** * Stock reconciliation, receipt totals and login lockout of the shop billing system

    A shallow embedding of
    - [src/utils/stockUtils.js]  ([updateStockItem], [updateStockQuantity],
      [restoreStockQuantity], [getStockItemById]),
    - [src/utils/receiptUtils.js] ([calculateTotal], [saveReceipt],
      [getReceiptById], [deleteReceipt]),
    - [src/pages/NewReceipt.js] ([validateInventory], [handleSubmit]),
    - [src/contexts/AuthContext.js] ([login]) and
      [src/pages/Login.js] ([handleSubmit]),
    followed by the properties of these functions.

    Conventions of the embedding.
    - A Firestore collection is the list of its documents in query order;
      document ids are unique ([wf_stock], [wf_shops]).
    - An [async] function is the state transformer obtained by running its
      awaits in program order.  Writes issued inside [items.map] are applied
      in the order in which they are issued.  Failures of the backend
      (rejected promises of the store itself) are not modelled.
    - A JavaScript number is [NaN], an infinity or the rational value of a
      finite binary64 number: [+], [-], [*] and [parseFloat] round their
      exact result to the nearest binary64 number, ties to even, with
      overflow to an infinity and gradual underflow ([round64]).  The sign
      of zero is not modelled.
    - A time is a number of milliseconds.  All readings of the clock within
      one call ([new Date()], [serverTimestamp()]) give the one instant
      [now] at which the call is made.
    - A JavaScript string is a [string] of 8-bit characters; [trim],
      [toLowerCase] and [parseFloat] know the ASCII white space and
      letters. *)

From Stdlib Require Import List String Ascii Bool ZArith QArith Qround Qabs.
From Stdlib Require Import Qpower.
From Stdlib Require Import Lia Lqa DecimalString.
Import ListNotations.

Local Open Scope string_scope.
Local Open Scope Z_scope.

(* ================================================================== *)
(** ** JavaScript numbers, strings and the built-ins the code calls *)
(* ================================================================== *)

Module JS.

(** Numbers. *)
Inductive num : Type :=
| NaN
| Inf (neg : bool)
| Fin (q : Q).

Definition Qltb (p q : Q) : bool := negb (Qle_bool q p).

(** *** Rounding to binary64 *)

(** [2^e] *)
Definition pow2 (e : Z) : Q :=
  if 0 <=? e then inject_Z (2 ^ e) else 1 # Z.to_pos (2 ^ (- e)).

(** The integer [k] with [2^k <= x < 2^(k+1)], for [x > 0]. *)
Definition ilog2 (x : Q) : Z :=
  let k := Z.log2 (Qnum x) - Z.log2 (Zpos (Qden x)) in
  if Qle_bool (pow2 k) x then k else k - 1.

(** The integer nearest to [y >= 0], the even one on a tie. *)
Definition nearest_even (y : Q) : Z :=
  let m := Qfloor y in
  match (y - inject_Z m ?= 1 # 2)%Q with
  | Lt => m
  | Gt => m + 1
  | Eq => if Z.even m then m else m + 1
  end.

(** The binary64 number nearest to [x > 0]: a significand [m] of at most 53
    bits at an exponent [e] from -1074 (the subnormal numbers) upwards;
    [None] when the rounded value reaches [2^1024]. *)
Definition round_pos (x : Q) : option Q :=
  let e := Z.max (ilog2 x - 52) (-1074) in
  let m := nearest_even (x * pow2 (- e)) in
  let v := Qred (inject_Z m * pow2 e) in
  if Qle_bool (pow2 1024) v then None else Some v.

(** The Number value for the real number [x]. *)
Definition round64 (x : Q) : num :=
  let r := Qred x in
  match (r ?= 0)%Q with
  | Eq => Fin 0
  | Gt => match round_pos r with Some v => Fin v | None => Inf false end
  | Lt => match round_pos (Qred (- r)) with
          | Some v => Fin (Qred (- v))
          | None => Inf true
          end
  end.

(** [x + y] *)
Definition add (x y : num) : num :=
  match x, y with
  | NaN, _ | _, NaN => NaN
  | Inf a, Inf b => if Bool.eqb a b then Inf a else NaN
  | Inf a, Fin _ => Inf a
  | Fin _, Inf b => Inf b
  | Fin p, Fin q => round64 (p + q)
  end.

(** [x - y] *)
Definition sub (x y : num) : num :=
  match x, y with
  | NaN, _ | _, NaN => NaN
  | Inf a, Inf b => if Bool.eqb a b then NaN else Inf a
  | Inf a, Fin _ => Inf a
  | Fin _, Inf b => Inf (negb b)
  | Fin p, Fin q => round64 (p - q)
  end.

(** [x * y] *)
Definition mul (x y : num) : num :=
  match x, y with
  | NaN, _ | _, NaN => NaN
  | Inf a, Inf b => Inf (xorb a b)
  | Inf a, Fin q => if Qeq_bool q 0 then NaN else Inf (xorb a (Qltb q 0))
  | Fin p, Inf b => if Qeq_bool p 0 then NaN else Inf (xorb (Qltb p 0) b)
  | Fin p, Fin q => round64 (p * q)
  end.

(** [x < y] *)
Definition ltb (x y : num) : bool :=
  match x, y with
  | NaN, _ | _, NaN => false
  | Inf a, Inf b => a && negb b
  | Inf a, Fin _ => a
  | Fin _, Inf b => negb b
  | Fin p, Fin q => Qltb p q
  end.

(** [x <= y] *)
Definition leb (x y : num) : bool :=
  match x, y with
  | NaN, _ | _, NaN => false
  | Inf a, Inf b => a || negb b
  | Inf a, Fin _ => a
  | Fin _, Inf b => negb b
  | Fin p, Fin q => Qle_bool p q
  end.

(** [Math.max(x, y)] *)
Definition Math_max (x y : num) : num :=
  match x, y with
  | NaN, _ | _, NaN => NaN
  | _, _ => if ltb x y then y else x
  end.

(** [isNaN(x)] on a number *)
Definition isNaN (x : num) : bool :=
  match x with NaN => true | _ => false end.

(** [Number.isInteger(x)] *)
Definition Number_isInteger (x : num) : bool :=
  match x with
  | Fin q => Pos.eqb (Qden (Qred q)) 1
  | _ => false
  end.

(** Truthiness of a number: [NaN] and zero are falsy. *)
Definition truthy_num (x : num) : bool :=
  match x with
  | NaN => false
  | Inf _ => true
  | Fin q => negb (Qeq_bool q 0)
  end.

(** Truthiness of a string: only the empty string is falsy. *)
Definition truthy_str (s : string) : bool :=
  match s with EmptyString => false | _ => true end.

(** Truthiness of a property that may be absent ([undefined]). *)
Definition truthy_opt_str (o : option string) : bool :=
  match o with Some s => truthy_str s | None => false end.

(** [a === b] on two properties holding a string or [undefined]. *)
Definition strict_eq_opt_str (a b : option string) : bool :=
  match a, b with
  | Some x, Some y => String.eqb x y
  | None, None => true
  | _, _ => false
  end.

(** [a || d] on a string property that may be absent. *)
Definition or_default (o : option string) (d : string) : string :=
  match o with
  | Some s => if truthy_str s then s else d
  | None => d
  end.

(** *** Characters *)

Definition is_white (c : ascii) : bool :=
  let n := nat_of_ascii c in
  ((9 <=? n) && (n <=? 13))%nat || (n =? 32)%nat.

Definition digit_of (c : ascii) : option Z :=
  let n := Z.of_nat (nat_of_ascii c) in
  if (48 <=? n) && (n <=? 57) then Some (n - 48) else None.

Definition lower_char (c : ascii) : ascii :=
  let n := nat_of_ascii c in
  if ((65 <=? n) && (n <=? 90))%nat then ascii_of_nat (n + 32) else c.

(** [s.toLowerCase()] *)
Fixpoint toLowerCase (s : string) : string :=
  match s with
  | EmptyString => EmptyString
  | String c r => String (lower_char c) (toLowerCase r)
  end.

Fixpoint trimStart (s : string) : string :=
  match s with
  | String c r => if is_white c then trimStart r else s
  | EmptyString => EmptyString
  end.

Fixpoint rev_string (s acc : string) : string :=
  match s with
  | EmptyString => acc
  | String c r => rev_string r (String c acc)
  end.

(** [s.trim()] *)
Definition trim (s : string) : string :=
  rev_string (trimStart (rev_string (trimStart s) EmptyString)) EmptyString.

(** *** [parseFloat] *)

(** The longest run of decimal digits at the head of [s]: its value, its
    length, and the rest of the string. *)
Fixpoint digits (s : string) (acc : Z) (len : nat) : Z * nat * string :=
  match s with
  | String c r =>
      match digit_of c with
      | Some d => digits r (10 * acc + d) (S len)
      | None => (acc, len, s)
      end
  | EmptyString => (acc, len, s)
  end.

Definition sign_of (s : string) : bool * string :=
  match s with
  | String "+" r => (false, r)
  | String "-" r => (true, r)
  | _ => (false, s)
  end.

(** The exponent part [e±ddd]; without digits there is no exponent part. *)
Definition exponent (s : string) : Z :=
  match s with
  | String c r =>
      if (Ascii.eqb c "e" || Ascii.eqb c "E")%bool then
        let '(neg, r') := sign_of r in
        let '(v, len, _) := digits r' 0 0%nat in
        match len with
        | O => 0
        | _ => if neg then - v else v
        end
      else 0
  | EmptyString => 0
  end.

(** [m * 10^e] as a reduced rational. *)
Definition scale10 (m e : Z) : Q :=
  if 0 <=? e then Qred (inject_Z (m * 10 ^ e))
  else Qred (Qmake m (Z.to_pos (10 ^ (- e)))).

Definition starts_with (p s : string) : bool :=
  String.eqb p (substring 0 (String.length p) s).

(** [parseFloat(s)]: leading white space is skipped, the longest prefix that
    is a decimal literal is read and rounded to binary64, and [NaN] is
    returned when there is none. *)
Definition parseFloat (s : string) : num :=
  let '(neg, s1) := sign_of (trimStart s) in
  if starts_with "Infinity" s1 then Inf neg
  else
    let '(ip, ilen, s2) := digits s1 0 0%nat in
    let finish (m : Z) (flen : nat) (rest : string) : num :=
      let v := scale10 m (exponent rest - Z.of_nat flen) in
      round64 (if neg then - v else v) in
    match s2 with
    | String "." r =>
        let '(m, len, s3) := digits r ip ilen in
        match len with
        | O => NaN
        | _ => finish m (len - ilen)%nat s3
        end
    | _ =>
        match ilen with
        | O => NaN
        | _ => finish ip 0%nat s2
        end
    end.

(** *** [Number.prototype.toFixed] *)

Definition string_of_Z (n : Z) : string :=
  NilZero.string_of_uint (N.to_uint (Z.to_N n)).

Fixpoint zeros (n : nat) : string :=
  match n with O => EmptyString | S k => String "0" (zeros k) end.

Definition pad_left (width : nat) (s : string) : string :=
  zeros (width - String.length s) ++ s.

(** Fixed notation of a non-negative rational with [f] fraction digits: the
    integer [n] closest to [x * 10^f], the larger one on a tie. *)
Definition fixed_abs (f : nat) (x : Q) : string :=
  let p := 10 ^ Z.of_nat f in
  let n := Qfloor (x * inject_Z p + (1 # 2)) in
  match f with
  | O => string_of_Z n
  | _ => string_of_Z (n / p) ++ "." ++ pad_left f (string_of_Z (n mod p))
  end.

(** *** [String(x)] for [x >= 10^21] *)

Definition same_num (a b : num) : bool :=
  match a, b with
  | Fin p, Fin q => Qeq_bool p q
  | Inf a, Inf b => Bool.eqb a b
  | _, _ => false
  end.

(** Number::toString looks for integers [n], [k], [s] with
    [10^(k-1) <= s < 10^k] such that [s * 10^(n-k)] is read back as [x], with
    [k] as small as possible and, for that [k], [s * 10^(n-k)] closest to
    [x].  For a given [k] only the two multiples of [10^(n-k)] around [x]
    can do. *)
Definition shortest_with (x : Q) (n k : Z) : option (Z * Z) :=
  let scale := 10 ^ (n - k) in
  let lo := Qfloor (x / inject_Z scale) in
  let hi := lo + 1 in
  let ok (s : Z) := same_num (round64 (inject_Z (s * scale))) (round64 x) in
  let dist (s : Z) := Qabs (inject_Z (s * scale) - x) in
  let pick (s : Z) := if s =? 10 ^ k then (10 ^ (k - 1), n + 1) else (s, n) in
  match ok lo, ok hi with
  | true, true =>
      if Qltb (dist hi) (dist lo) then Some (pick hi)
      else if Qltb (dist lo) (dist hi) then Some (pick lo)
      else Some (pick (if Z.even lo then lo else hi))
  | true, false => Some (pick lo)
  | false, true => Some (pick hi)
  | false, false => None
  end.

(** Seventeen digits always suffice for a binary64 number. *)
Fixpoint shortest (x : Q) (n k : Z) (fuel : nat) : Z * Z :=
  match fuel with
  | O => (Qfloor x, n)
  | S fuel' =>
      match shortest_with x n k with
      | Some r => r
      | None => shortest x n (k + 1) fuel'
      end
  end.

(** [String(x)] for [x >= 10^21]: the digits of [s], a point after the
    first one, and the exponent [n - 1]. *)
Definition exponential (x : Q) : string :=
  let n := Z.of_nat (String.length (string_of_Z (Qfloor x))) in
  let '(s, n') := shortest x n 1 17 in
  match string_of_Z s with
  | String c EmptyString => String c ("e+" ++ string_of_Z (n' - 1))
  | String c r => String c ("." ++ r ++ "e+" ++ string_of_Z (n' - 1))
  | EmptyString => EmptyString
  end.

(** Fixed notation below [10^21], [String(x)] from there on. *)
Definition fixed_or_exponential (f : nat) (x : Q) : string :=
  if Qle_bool (inject_Z (10 ^ 21)) x then exponential x else fixed_abs f x.

(** [x.toFixed(f)] *)
Definition toFixed (f : nat) (x : num) : string :=
  match x with
  | NaN => "NaN"
  | Inf neg => if neg then "-Infinity" else "Infinity"
  | Fin q =>
      if Qltb q 0 then "-" ++ fixed_or_exponential f (- q)
      else fixed_or_exponential f q
  end.

(** The value of a property that is a number or a string. *)
Inductive value : Type :=
| VNum (n : num)
| VStr (s : string).

End JS.

(* ================================================================== *)
(** ** The stock collection: [src/utils/stockUtils.js] *)
(* ================================================================== *)

Module Stock.

Import JS.

(** A document of the [stock] collection.  [updatedAt] is the time of the
    last write through [updateStockItem]; [quantityUnit] may be absent. *)
Record StockItem : Type := mkStock {
  id : string;
  shopId : string;
  name : string;
  category : string;
  price : num;
  quantity : num;
  quantityUnit : option string;
  updatedAt : Z
}.

(** A line as [NewReceipt.handleSubmit] hands it to [updateStockQuantity]:
    [{ name, quantity: parseFloat(...), quantityUnit }]. *)
Record SoldItem : Type := mkSold {
  sold_name : string;
  sold_quantity : num;
  sold_quantityUnit : option string
}.

(** An item of a receipt as the form holds it and as the receipt document
    stores it: its price and quantity are the strings of the inputs. *)
Record ReceiptItem : Type := mkItem {
  item_name : string;
  item_price : string;
  item_quantity : string;
  item_quantityUnit : option string
}.

(** Document ids are the keys of the collection. *)
Definition wf_stock (stock : list StockItem) : Prop :=
  NoDup (map id stock).

(** [getStockItemById]: the document with that id, if there is one. *)
Definition getStockItemById (itemId : string) (stock : list StockItem)
  : option StockItem :=
  find (fun d => String.eqb (id d) itemId) stock.

(** [updateStockItem(itemId, { quantity })]: [updateDoc] merges the new
    quantity and the time of the write into the document. *)
Definition updateStockItem (itemId : string) (newQuantity : num) (now : Z)
    (stock : list StockItem) : list StockItem :=
  map (fun d =>
         if String.eqb (id d) itemId
         then mkStock (id d) (shopId d) (name d) (category d) (price d)
                      newQuantity (quantityUnit d) now
         else d)
      stock.

(** [query(stockRef, where('shopId', '==', shopId))] *)
Definition shopStock (shop : string) (stock : list StockItem)
  : list StockItem :=
  filter (fun d => String.eqb (shopId d) shop) stock.

(** A pending write [updateStockItem(id, { quantity })], or
    [Promise.resolve()] when a line writes nothing. *)
Definition update : Type := option (string * num).

(** The writes of [items.map(...)] land in the order they were issued. *)
Definition applyUpdates (now : Z) (updates : list update)
    (stock : list StockItem) : list StockItem :=
  fold_left
    (fun st u =>
       match u with
       | Some (itemId, q) => updateStockItem itemId q now st
       | None => st
       end)
    updates stock.

(** [updateStockQuantity(shopId, items)]: every line is looked up by name in
    one snapshot of the shop's stock, taken before any write. *)
Definition updateStockQuantity (shop : string) (items : list SoldItem)
    (now : Z) (stock : list StockItem) : list StockItem :=
  let stockItems := shopStock shop stock in
  let updates :=
    map (fun soldItem =>
           match find (fun item => String.eqb (name item) (sold_name soldItem))
                      stockItems with
           | Some stockItem =>
               if negb (truthy_opt_str (sold_quantityUnit soldItem))
                  || strict_eq_opt_str (sold_quantityUnit soldItem)
                                       (quantityUnit stockItem)
               then
                 let newQuantity :=
                   Math_max (Fin 0)
                            (sub (quantity stockItem) (sold_quantity soldItem)) in
                 Some (id stockItem, newQuantity)
               else None
           | None => None
           end)
        items in
  applyUpdates now updates stock.

(** [restoreStockQuantity(shopId, items)] *)
Definition restoreStockQuantity (shop : string) (items : list ReceiptItem)
    (now : Z) (stock : list StockItem) : list StockItem :=
  let stockItems := shopStock shop stock in
  let updates :=
    map (fun receiptItem =>
           match find (fun item => String.eqb (name item) (item_name receiptItem))
                      stockItems with
           | Some stockItem =>
               if negb (truthy_opt_str (item_quantityUnit receiptItem))
                  || strict_eq_opt_str (item_quantityUnit receiptItem)
                                       (quantityUnit stockItem)
               then
                 let newQuantity :=
                   add (quantity stockItem)
                       (parseFloat (item_quantity receiptItem)) in
                 Some (id stockItem, newQuantity)
               else None
           | None => None
           end)
        items in
  applyUpdates now updates stock.

End Stock.

(* ================================================================== *)
(** ** Receipts: [src/utils/receiptUtils.js] *)
(* ================================================================== *)

Module Receipts.

Import JS Stock.

(** A document of the [receipts] collection (the fields the modelled
    functions read or write). *)
Record Receipt : Type := mkReceipt {
  receipt_id : string;
  receipt_shopId : string;
  transactionId : string;
  items : list ReceiptItem;
  totalAmount : value;
  discount : num;
  timestamp : Z
}.

(** The two collections the receipt operations touch. *)
Record Db : Type := mkDb {
  receipts : list Receipt;
  stock : list StockItem
}.

(** [calculateTotal(items, discount = 0)].  [items] is [None] when the
    argument is missing; [discount] is [None] when it is omitted, and
    the default [0] then parses to [0]. *)
Definition calculateTotal (its : option (list ReceiptItem))
    (disc : option string) : value :=
  match its with
  | None | Some [] => VNum (Fin 0)
  | Some l =>
      let subtotal :=
        fold_left
          (fun total item =>
             add total (mul (parseFloat (item_price item))
                            (parseFloat (item_quantity item))))
          l (Fin 0) in
      let parsed := match disc with Some s => parseFloat s | None => Fin 0 end in
      let discountAmount := if truthy_num parsed then parsed else Fin 0 in
      VStr (toFixed 2 (sub subtotal discountAmount))
  end.

(** The receipt as the form assembles it, before the store gives it an id
    and a timestamp. *)
Record ReceiptData : Type := mkData {
  data_shopId : string;
  data_transactionId : string;
  data_items : list ReceiptItem;
  data_totalAmount : value;
  data_discount : num
}.

(** [saveReceipt(receiptData)]: [addDoc] stores the data with the time of the
    save under the id the store picks, and that id is returned. *)
Definition saveReceipt (receiptData : ReceiptData) (newId : string) (now : Z)
    (rs : list Receipt) : list Receipt * string :=
  ((rs ++ [mkReceipt newId (data_shopId receiptData)
                     (data_transactionId receiptData)
                     (data_items receiptData)
                     (data_totalAmount receiptData)
                     (data_discount receiptData) now])%list,
   newId).

(** [getReceiptById]: [None] stands for the thrown 'Receipt not found'. *)
Definition getReceiptById (receiptId : string) (rs : list Receipt)
  : option Receipt :=
  find (fun r => String.eqb (receipt_id r) receiptId) rs.

(** [deleteDoc(doc(db, 'receipts', receiptId))] *)
Definition deleteDoc (receiptId : string) (rs : list Receipt) : list Receipt :=
  filter (fun r => negb (String.eqb (receipt_id r) receiptId)) rs.

(** [deleteReceipt(receiptId)]: the receipt is read, deleted, and its items
    are then given back to the stock.  [None] is the error thrown when the
    receipt does not exist; nothing has been written in that case. *)
Definition deleteReceipt (receiptId : string) (now : Z) (db : Db)
  : option Db :=
  match getReceiptById receiptId (receipts db) with
  | None => None
  | Some receipt =>
      let rs := deleteDoc receiptId (receipts db) in
      match items receipt with
      | [] => Some (mkDb rs (stock db))
      | _ :: _ =>
          Some (mkDb rs (restoreStockQuantity (receipt_shopId receipt)
                                              (items receipt) now (stock db)))
      end
  end.

End Receipts.

(* ================================================================== *)
(** ** The receipt form: [src/pages/NewReceipt.js] *)
(* ================================================================== *)

Module NewReceipt.

Import JS Stock Receipts.

(** The state of the form that [handleSubmit] reads.  [stockItems] is the
    stock list the page fetched when it was mounted, [stockLoaded] whether
    that fetch has completed.  The cost price that the form copies from the
    stock into the saved items is read by no modelled function and is left
    out, so [processedItems] is [items]. *)
Record Page : Type := mkPage {
  currentUser : string;
  items : list ReceiptItem;
  cashierName : string;
  transactionId : string;
  discount : string;
  stockItems : list StockItem;
  stockLoaded : bool
}.

Inductive InvalidItem : Type :=
| itemNotInInventory (name : string)
| insufficientQuantity (name : string) (available : num).

(** [validateInventory()]: the list of offending items; the result is
    [{ valid: true }] exactly when the list is empty. *)
Definition validateInventory (page : Page) : list InvalidItem :=
  if negb (stockLoaded page) then []
  else
    flat_map
      (fun item =>
         match find (fun stockItem =>
                       String.eqb (toLowerCase (Stock.name stockItem))
                                  (toLowerCase (item_name item)))
                    (stockItems page) with
         | None => [itemNotInInventory (item_name item)]
         | Some matchingStock =>
             if ltb (quantity matchingStock) (parseFloat (item_quantity item))
             then [insufficientQuantity (item_name item)
                                        (quantity matchingStock)]
             else []
         end)
      (items page).

Inductive SubmitError : Type :=
| cashierRequired
| itemDetailsRequired
| invalidPrices
| invalidQuantities
| inventoryError (invalidItems : list InvalidItem).

(** The checks of one item in the validation loop of [handleSubmit]. *)
Definition checkItem (item : ReceiptItem) : option SubmitError :=
  if negb (truthy_str (trim (item_name item)))
     || negb (truthy_str (item_price item))
     || negb (truthy_str (item_quantity item))
  then Some itemDetailsRequired
  else if isNaN (parseFloat (item_price item))
          || leb (parseFloat (item_price item)) (Fin 0)
  then Some invalidPrices
  else
    let quantityValue := parseFloat (item_quantity item) in
    if isNaN quantityValue || leb quantityValue (Fin 0)
    then Some invalidQuantities
    else if negb (strict_eq_opt_str (item_quantityUnit item) (Some "kg"))
            && (ltb quantityValue (Fin 1)
                || negb (Number_isInteger quantityValue))
    then Some invalidQuantities
    else None.

(** The loop returns at the first item that fails a check. *)
Fixpoint checkItems (l : list ReceiptItem) : option SubmitError :=
  match l with
  | [] => None
  | item :: rest =>
      match checkItem item with
      | Some e => Some e
      | None => checkItems rest
      end
  end.

(** The lines [handleSubmit] passes to [updateStockQuantity]. *)
Definition soldItems (l : list ReceiptItem) : list SoldItem :=
  map (fun item =>
         mkSold (item_name item)
                (parseFloat (item_quantity item))
                (Some (or_default (item_quantityUnit item) "units")))
      l.

(** [parseFloat(discount) || 0] *)
Definition discountValue (d : string) : num :=
  if truthy_num (parseFloat d) then parseFloat d else Fin 0.

(** [handleSubmit]: the form is validated; a valid receipt is saved and the
    stock is then decremented.  The result is the error shown or the id of
    the saved receipt. *)
Definition handleSubmit (page : Page) (newId : string) (now : Z) (db : Db)
  : Db * (SubmitError + string) :=
  if negb (truthy_str (trim (cashierName page)))
  then (db, inl cashierRequired)
  else
    match checkItems (items page) with
    | Some e => (db, inl e)
    | None =>
        match validateInventory page with
        | (_ :: _) as invalidItems => (db, inl (inventoryError invalidItems))
        | [] =>
            let processedItems := items page in
            let receiptData :=
              mkData (currentUser page) (transactionId page) processedItems
                     (calculateTotal (Some processedItems)
                                     (Some (discount page)))
                     (discountValue (discount page)) in
            let '(rs, receiptId) :=
              saveReceipt receiptData newId now (receipts db) in
            (mkDb rs (updateStockQuantity (currentUser page)
                                          (soldItems processedItems)
                                          now (stock db)),
             inr receiptId)
        end
    end.

End NewReceipt.

(* ================================================================== *)
(** ** Sign-in: [src/contexts/AuthContext.js] and [src/pages/Login.js] *)
(* ================================================================== *)

Module Auth.

Import JS.

(** A document of the [shops] collection (the fields the sign-in code reads
    or writes).  A field that the document does not have is [None].  Times
    are milliseconds since the epoch. *)
Record Shop : Type := mkShop {
  uid : string;
  email : option string;
  userEmail : option string;
  failedLoginAttempts : option Z;
  lockedUntil : option Z;
  lockDuration : option Z;
  accountStatus : option string;
  status : option string;
  lockedAt : option Z;
  lastLoginAt : option Z;
  lastFailedLoginAt : option Z
}.

Definition wf_shops (shops : list Shop) : Prop :=
  NoDup (map uid shops).

(** One property of the object literal given to [updateDoc]. *)
Inductive Field : Type :=
| FailedLoginAttempts (n : Z)
| LockedUntil (t : Z)
| LockDuration (m : Z)
| AccountStatus (s : string)
| LockedAt (t : Z)
| LastLoginAt (t : Z)
| LastFailedLoginAt (t : Z).

Definition setField (d : Shop) (f : Field) : Shop :=
  match f with
  | FailedLoginAttempts n =>
      mkShop (uid d) (email d) (userEmail d) (Some n) (lockedUntil d)
             (lockDuration d) (accountStatus d) (status d) (lockedAt d)
             (lastLoginAt d) (lastFailedLoginAt d)
  | LockedUntil t =>
      mkShop (uid d) (email d) (userEmail d) (failedLoginAttempts d) (Some t)
             (lockDuration d) (accountStatus d) (status d) (lockedAt d)
             (lastLoginAt d) (lastFailedLoginAt d)
  | LockDuration m =>
      mkShop (uid d) (email d) (userEmail d) (failedLoginAttempts d)
             (lockedUntil d) (Some m) (accountStatus d) (status d)
             (lockedAt d) (lastLoginAt d) (lastFailedLoginAt d)
  | AccountStatus s =>
      mkShop (uid d) (email d) (userEmail d) (failedLoginAttempts d)
             (lockedUntil d) (lockDuration d) (Some s) (status d)
             (lockedAt d) (lastLoginAt d) (lastFailedLoginAt d)
  | LockedAt t =>
      mkShop (uid d) (email d) (userEmail d) (failedLoginAttempts d)
             (lockedUntil d) (lockDuration d) (accountStatus d) (status d)
             (Some t) (lastLoginAt d) (lastFailedLoginAt d)
  | LastLoginAt t =>
      mkShop (uid d) (email d) (userEmail d) (failedLoginAttempts d)
             (lockedUntil d) (lockDuration d) (accountStatus d) (status d)
             (lockedAt d) (Some t) (lastFailedLoginAt d)
  | LastFailedLoginAt t =>
      mkShop (uid d) (email d) (userEmail d) (failedLoginAttempts d)
             (lockedUntil d) (lockDuration d) (accountStatus d) (status d)
             (lockedAt d) (lastLoginAt d) (Some t)
  end.

(** [updateDoc(doc(db, 'shops', id), { ...fields })] *)
Definition updateDoc (docId : string) (fields : list Field)
    (shops : list Shop) : list Shop :=
  map (fun d => if String.eqb (uid d) docId
                then fold_left setField fields d else d)
      shops.

(** [getDoc(doc(db, 'shops', id))]; [None] when [exists()] is false. *)
Definition getDoc (docId : string) (shops : list Shop) : option Shop :=
  find (fun d => String.eqb (uid d) docId) shops.

(** [docs[0]] of [query(shops, where(field, '==', v))]. *)
Definition firstWhere (field : Shop -> option string) (v : string)
    (shops : list Shop) : option Shop :=
  find (fun d => strict_eq_opt_str (field d) (Some v)) shops.

(** [n || 0] on the attempts counter. *)
Definition orZero (n : option Z) : Z :=
  match n with Some k => k | None => 0 end.

(** The answer of [signInWithEmailAndPassword]. *)
Inductive AuthResult : Type :=
| SignedIn (userId : string)
| AuthFailed (code : string) (message : string).

(** What a rejected [login] promise carries: the error of the
    authentication service, or a plain [Error] without a code. *)
Inductive LoginError : Type :=
| FirebaseError (code : string) (message : string)
| PlainError (message : string).

Definition error_code (e : LoginError) : option string :=
  match e with FirebaseError c _ => Some c | PlainError _ => None end.

Definition error_message (e : LoginError) : string :=
  match e with FirebaseError _ m => m | PlainError m => m end.

Definition accountLockedMessage : string :=
  "Account locked due to too many failed login attempts. Please contact an administrator.".

(** [login(email, password)] of [AuthContext]. *)
Definition login (signIn : string -> string -> AuthResult)
    (mail password : string) (now : Z) (shops : list Shop)
  : list Shop * (LoginError + string) :=
  match signIn mail password with
  | SignedIn user =>
      match getDoc user shops with
      | Some userData =>
          if negb (Z.eqb (orZero (failedLoginAttempts userData)) 0)
          then (updateDoc user [FailedLoginAttempts 0; LastLoginAt now] shops,
                inr user)
          else (updateDoc user [LastLoginAt now] shops, inr user)
      | None => (shops, inr user)
      end
  | AuthFailed code message =>
      if String.eqb code "auth/wrong-password" && truthy_str mail
      then
        match firstWhere userEmail mail shops with
        | Some userDoc =>
            let currentAttempts := orZero (failedLoginAttempts userDoc) in
            let shops1 :=
              updateDoc (uid userDoc)
                        [FailedLoginAttempts (currentAttempts + 1);
                         LastFailedLoginAt now] shops in
            if 5 <=? currentAttempts + 1
            then (updateDoc (uid userDoc)
                            [AccountStatus "locked"; LockedAt now] shops1,
                  inl (PlainError accountLockedMessage))
            else (shops1, inl (FirebaseError code message))
        | None => (shops, inl (FirebaseError code message))
        end
      else (shops, inl (FirebaseError code message))
  end.

(** What the page shows when [handleSubmit] is over. *)
Inductive Shown : Type :=
| NavigatedToDashboard
| TemporarilyLocked (timeLeft : Z)
| PendingApproval
| AccountFrozen
| RegistrationRejected
| TooManyAttempts
| InvalidWithRemaining (remaining : Z)
| InvalidEmailOrPassword
| FailedToSignIn (message : string)
| NoMessage.

Fixpoint includes_from (fuel : nat) (needle hay : string) : bool :=
  starts_with needle hay
  || match fuel, hay with
     | S k, String _ r => includes_from k needle r
     | _, _ => false
     end.

(** [hay.includes(needle)] *)
Definition includes (hay needle : string) : bool :=
  includes_from (String.length hay) needle hay.

(** [Math.ceil(ms / 60000)] *)
Definition ceilMinutes (ms : Z) : Z := - ((- ms) / 60000).

(** The lock check at the head of [handleSubmit]: the minutes left when the
    document carries a lock that has not expired at [now].  The comparison
    and the subtraction each read the clock; both readings are [now]. *)
Definition lockedFor (userData : Shop) (now : Z) : option Z :=
  match lockedUntil userData, lockDuration userData with
  | Some lockTime, Some duration =>
      if Z.eqb duration 0 then None
      else
        let lockExpiryTime := lockTime + duration * 60000 in
        if now <? lockExpiryTime
        then Some (ceilMinutes (lockExpiryTime - now))
        else None
  | _, _ => None
  end.

(** The [catch] branch of [handleSubmit]. *)
Definition handleFailure (e : LoginError) (mail : string) (now : Z)
    (shops : list Shop) : list Shop * Shown :=
  if strict_eq_opt_str (error_code e) (Some "auth/wrong-password")
     || strict_eq_opt_str (error_code e) (Some "auth/user-not-found")
  then
    match firstWhere email (toLowerCase mail) shops with
    | Some userDoc =>
        let failedAttempts := orZero (failedLoginAttempts userDoc) + 1 in
        if 5 <=? failedAttempts
        then (updateDoc (uid userDoc)
                        [FailedLoginAttempts failedAttempts; LockedUntil now;
                         LockDuration 15; LastFailedLoginAt now] shops,
              TooManyAttempts)
        else (updateDoc (uid userDoc)
                        [FailedLoginAttempts failedAttempts;
                         LastFailedLoginAt now] shops,
              InvalidWithRemaining (5 - failedAttempts))
    | None => (shops, InvalidEmailOrPassword)
    end
  else if negb (includes (error_message e) "pending")
          && negb (includes (error_message e) "frozen")
          && negb (includes (error_message e) "rejected")
  then (shops, FailedToSignIn (error_message e))
  else (shops, NoMessage).

(** [handleSubmit] of the login page. *)
Definition handleSubmit (signIn : string -> string -> AuthResult)
    (mail password : string) (now : Z) (shops : list Shop)
  : list Shop * Shown :=
  let locked :=
    match firstWhere email (toLowerCase mail) shops with
    | Some userData => lockedFor userData now
    | None => None
    end in
  match locked with
  | Some timeLeft => (shops, TemporarilyLocked timeLeft)
  | None =>
      match login signIn mail password now shops with
      | (shops1, inr user) =>
          match getDoc user shops1 with
          | Some userData =>
              let shops2 :=
                updateDoc user [FailedLoginAttempts 0; LastLoginAt now]
                          shops1 in
              if strict_eq_opt_str (status userData) (Some "pending")
              then (shops2, PendingApproval)
              else if strict_eq_opt_str (status userData) (Some "frozen")
              then (shops2, AccountFrozen)
              else if strict_eq_opt_str (status userData) (Some "rejected")
              then (shops2, RegistrationRejected)
              else (shops2, NavigatedToDashboard)
          | None =>
              handleFailure (PlainError "User data not found") mail now shops1
          end
      | (shops1, inl e) => handleFailure e mail now shops1
      end
  end.

End Auth.

(* ================================================================== *)
(** ** Notions used in the statements *)
(* ================================================================== *)

Module Notions.

Import JS Stock.

(** Two numbers are the same value: equal rationals, or the same special
    value. *)
Definition num_eq (x y : num) : Prop :=
  match x, y with
  | Fin p, Fin q => (p == q)%Q
  | _, _ => x = y
  end.

(** The unit test of both reconcilers:
    [!line.quantityUnit || line.quantityUnit === stockItem.quantityUnit]. *)
Definition compatible (lineUnit stockUnit : option string) : bool :=
  negb (truthy_opt_str lineUnit) || strict_eq_opt_str lineUnit stockUnit.

(** [stockItems.find(item => item.name === name)] *)
Definition findByName (nm : string) (stockItems : list StockItem)
  : option StockItem :=
  find (fun item => String.eqb (name item) nm) stockItems.

(** The write that one sold line contributes in [updateStockQuantity]. *)
Definition saveUpdate (stockItems : list StockItem) (soldItem : SoldItem)
  : update :=
  match findByName (sold_name soldItem) stockItems with
  | Some stockItem =>
      if compatible (sold_quantityUnit soldItem) (quantityUnit stockItem)
      then Some (id stockItem,
                 Math_max (Fin 0)
                          (sub (quantity stockItem) (sold_quantity soldItem)))
      else None
  | None => None
  end.

(** The write that one receipt item contributes in [restoreStockQuantity]. *)
Definition restoreUpdate (stockItems : list StockItem)
    (receiptItem : ReceiptItem) : update :=
  match findByName (item_name receiptItem) stockItems with
  | Some stockItem =>
      if compatible (item_quantityUnit receiptItem) (quantityUnit stockItem)
      then Some (id stockItem,
                 add (quantity stockItem)
                     (parseFloat (item_quantity receiptItem)))
      else None
  | None => None
  end.

(** The effect of one pending write on one document. *)
Definition written (now : Z) (d : StockItem) (u : update) : StockItem :=
  match u with
  | Some (itemId, q) =>
      if String.eqb (id d) itemId
      then mkStock (id d) (shopId d) (name d) (category d) (price d)
                   q (quantityUnit d) now
      else d
  | None => d
  end.

(** The quantity a document with id [i] ends with: that of the last write
    addressed to it, or the one it had. *)
Definition lastWrite (i : string) (updates : list update) (q0 : num) : num :=
  fold_left
    (fun q u =>
       match u with
       | Some (itemId, v) => if String.eqb i itemId then v else q
       | None => q
       end)
    updates q0.

(** A write addressed to the document with id [i]. *)
Definition addressed (i : string) (u : update) : bool :=
  match u with
  | Some (itemId, _) => String.eqb i itemId
  | None => false
  end.

(** Every field but the quantity and the time of the last write agrees. *)
Definition same_item (a b : StockItem) : Prop :=
  id a = id b /\ shopId a = shopId b /\ name a = name b /\
  category a = category b /\ price a = price b /\
  quantityUnit a = quantityUnit b.



(** A receipt item finds a stock item of the shop under its name, and the
    unit that [handleSubmit] passes for it is compatible with the unit of
    that stock item. *)
Definition matched (shop : string) (stock : list StockItem)
    (item : ReceiptItem) : Prop :=
  exists s,
    findByName (item_name item) (shopStock shop stock) = Some s /\
    compatible (Some (or_default (item_quantityUnit item) "units"))
               (quantityUnit s) = true.

(** The matched stock item holds at least the quantity of the item:
    [item.quantity <= stockItem.quantity]. *)
Definition in_stock (shop : string) (stock : list StockItem)
    (item : ReceiptItem) : Prop :=
  forall s,
    findByName (item_name item) (shopStock shop stock) = Some s ->
    leb (parseFloat (item_quantity item)) (quantity s) = true.

(** The rational [q] is a binary64 number: rounding leaves it as it is. *)
Definition binary64 (q : Q) : Prop := num_eq (round64 q) (Fin q).

(** The matched stock item holds at least the quantity of the item, so the
    decrement is not clamped; its quantity is a binary64 number, and so is
    the difference of the two, so the subtraction is exact. *)
Definition covered (shop : string) (stock : list StockItem)
    (item : ReceiptItem) : Prop :=
  forall s,
    findByName (item_name item) (shopStock shop stock) = Some s ->
    exists q dq,
      quantity s = Fin q /\
      parseFloat (item_quantity item) = Fin dq /\
      (dq <= q)%Q /\ binary64 q /\ binary64 (q - dq).

(** Both quantities are whole numbers, the one sold at most the one in
    stock, and that one at most 2^53. *)
Definition whole_quantities (shop : string) (stock : list StockItem)
    (item : ReceiptItem) : Prop :=
  forall s,
    findByName (item_name item) (shopStock shop stock) = Some s ->
    exists a b : Z,
      quantity s = Fin (inject_Z a) /\
      parseFloat (item_quantity item) = Fin (inject_Z b) /\
      0 <= b <= a /\ a <= 2 ^ 53.

(** The stock reads back with the quantities of [before]. *)
Definition quantities_restored (before after : list StockItem) : Prop :=
  forall itemId d,
    getStockItemById itemId before = Some d ->
    exists d',
      getStockItemById itemId after = Some d' /\
      same_item d' d /\
      num_eq (quantity d') (quantity d).



(** [stockItems.find(stockItem =>
      stockItem.name.toLowerCase() === name.toLowerCase())] *)
Definition findIgnoringCase (nm : string) (stockItems : list StockItem)
  : option StockItem :=
  find (fun stockItem =>
          String.eqb (toLowerCase (name stockItem)) (toLowerCase nm))
       stockItems.







(** The [discountAmount] of [calculateTotal]: [parseFloat(discount) || 0]. *)
Definition discountAmount (disc : option string) : num :=
  let parsed := match disc with Some s => parseFloat s | None => Fin 0 end in
  if truthy_num parsed then parsed else Fin 0.

(** The sum of price times quantity over a list of (price, quantity) pairs,
    in exact arithmetic. *)
Fixpoint subtotal (lines : list (Q * Q)) : Q :=
  match lines with
  | [] => 0%Q
  | (p, q) :: rest => (p * q + subtotal rest)%Q
  end.







(** The document as [updateDoc(docId, fields)] leaves it. *)
Definition patched (docId : string) (fields : list Auth.Field)
    (d : Auth.Shop) : Auth.Shop :=
  if String.eqb (Auth.uid d) docId
  then fold_left Auth.setField fields d else d.

(** The time at which the lock recorded on a document runs out, when the
    document records one: the stored timestamp plus the stored duration. *)
Definition lockExpiry (d : Auth.Shop) : option Z :=
  match Auth.lockedUntil d, Auth.lockDuration d with
  | Some lockTime, Some duration => Some (lockTime + duration * 60000)
  | _, _ => None
  end.

(** Consecutive submits of the login form with the same credentials, at the
    given times. *)
Fixpoint attempts (signIn : string -> string -> Auth.AuthResult)
    (mail password : string) (times : list Z) (shops : list Auth.Shop)
  : list Auth.Shop :=
  match times with
  | [] => shops
  | t :: rest =>
      attempts signIn mail password rest
               (fst (Auth.handleSubmit signIn mail password t shops))
  end.

End Notions.

(* ================================================================== *)
(** ** Sample data *)
(* ================================================================== *)

Module Sample.

Import JS Stock Receipts.

Definition apple (q : Q) : StockItem :=
  mkStock "s1" "shop1" "Apple" "Fruit" (Fin 10) (Fin q) (Some "units") 0.

Definition rice : StockItem :=
  mkStock "s2" "shop1" "Rice" "Grain" (Fin 4) (Fin 20) (Some "kg") 0.

(** A form with one line, filled in by a cashier. *)
Definition form (nm qty : string) (unit : option string)
    (stockItems : list StockItem) (stockLoaded : bool) : NewReceipt.Page :=
  NewReceipt.mkPage "shop1" [mkItem nm "10" qty unit] "Ali" "T1" "0"
                    stockItems stockLoaded.

(** Flour is sold by weight; the shop holds 0.9 kg of it. *)
Definition flour : StockItem :=
  mkStock "s3" "shop1" "Flour" "Grain" (Fin 4) (parseFloat "0.9") (Some "kg") 0.

(** A form on which 0.2 kg of flour is entered, the stock list loaded. *)
Definition weighed : NewReceipt.Page :=
  NewReceipt.mkPage "shop1" [mkItem "Flour" "4" "0.2" (Some "kg")] "Ali" "T1"
                    "0" [flour] true.

Definition pen : ReceiptItem := mkItem "Pen" "10" "1" (Some "units").
Definition ink : ReceiptItem := mkItem "Ink" "2.50" "3" (Some "units").

(** The document [registerShop] writes for a new shop: the address is
    stored under [userEmail], the status is 'active'. *)
Definition registered (failed : option Z) : Auth.Shop :=
  Auth.mkShop "u1" None (Some "ali@shop.pk") failed None None
              (Some "active") None None None None.

(** A shop document that carries its address under [email]. *)
Definition listed (failed : option Z) : Auth.Shop :=
  Auth.mkShop "u1" (Some "ali@shop.pk") None failed None None
              (Some "active") None None None None.

(** A shop document that carries its address under both fields. *)
Definition listed_twice (failed : option Z) : Auth.Shop :=
  Auth.mkShop "u1" (Some "ali@shop.pk") (Some "ali@shop.pk") failed None None
              (Some "active") None None None None.

(** An authentication service that knows one password. *)
Definition service (mail password : string) : Auth.AuthResult :=
  if String.eqb password "secret" then Auth.SignedIn "u1"
  else Auth.AuthFailed "auth/wrong-password"
                       "Firebase: Error (auth/wrong-password).".

End Sample.

(* ================================================================== *)
(** ** The rest of [src/utils/stockUtils.js] *)
(* ================================================================== *)

Module StockAdmin.

Import JS Stock.

(** The fields of a new stock item as the caller supplies them. *)
Record ItemData : Type := mkItemData {
  new_name : string;
  new_category : string;
  new_price : num;
  new_quantity : num;
  new_quantityUnit : option string
}.

(** [addStockItem(shopId, itemData)]: [None] is the error thrown for a
    missing shop id; otherwise the item is stored under the id the store
    picks, and that id is returned. *)
Definition addStockItem (shop : string) (itemData : ItemData)
    (newId : string) (now : Z) (stock : list StockItem)
  : option (list StockItem * string) :=
  if negb (truthy_str shop) then None
  else
    Some ((stock ++ [mkStock newId shop (new_name itemData)
                             (new_category itemData) (new_price itemData)
                             (new_quantity itemData)
                             (new_quantityUnit itemData) now])%list,
          newId).

(** [getShopStock(shopId)]: an empty list for a missing shop id. *)
Definition getShopStock (shop : string) (stock : list StockItem)
  : list StockItem :=
  if negb (truthy_str shop) then [] else shopStock shop stock.

(** [deleteStockItem(itemId)] *)
Definition deleteStockItem (itemId : string) (stock : list StockItem)
  : list StockItem :=
  filter (fun d => negb (String.eqb (id d) itemId)) stock.

End StockAdmin.

(* ================================================================== *)
(** ** The rows of the receipt form: [src/pages/NewReceipt.js] *)
(* ================================================================== *)

Module ReceiptForm.

Import JS Stock.

(** The row [addItem] appends: no name, no price, quantity 1, in units. *)
Definition blankItem : ReceiptItem := mkItem "" "" "1" (Some "units").

(** [addItem()] *)
Definition addItem (items : list ReceiptItem) : list ReceiptItem :=
  (items ++ [blankItem])%list.

(** [removeItem(index)]: the last remaining row is never removed;
    [splice(index, 1)] removes nothing when [index] is past the end. *)
Definition removeItem (index : nat) (items : list ReceiptItem)
  : list ReceiptItem :=
  if (List.length items <=? 1)%nat then items
  else (firstn index items ++ skipn (S index) items)%list.

(** [getItemSuggestions()] *)
Definition getItemSuggestions (page : NewReceipt.Page) : list string :=
  if negb (NewReceipt.stockLoaded page) then []
  else map name (NewReceipt.stockItems page).

End ReceiptForm.

(* ================================================================== *)
(** ** The receipt pages: [src/pages/ViewReceipt.js], [ViewReceipts.js] *)
(* ================================================================== *)

Module ReceiptPages.

Import JS Stock Receipts.

(** What the page of one receipt ends up with. *)
Inductive View : Type :=
| Showing (receipt : Receipt)
| LoadFailed (message : string)
| Idle.

(** [fetchReceipt] of [ViewReceipt]: nothing is fetched without a signed-in
    user and an id; a receipt of another shop is not shown. *)
Definition fetchReceipt (currentUser : option string) (receiptId : string)
    (rs : list Receipt) : View :=
  match currentUser with
  | Some uid =>
      if truthy_str receiptId then
        match getReceiptById receiptId rs with
        | Some receiptData =>
            if negb (String.eqb (receipt_shopId receiptData) uid)
            then LoadFailed
                   "Failed to load receipt: You do not have permission to view this receipt"
            else Showing receiptData
        | None => LoadFailed "Failed to load receipt: Receipt not found"
        end
      else Idle
  | None => Idle
  end.

(** [fetchReceipts] of [ViewReceipts]: the receipts of the signed-in shop. *)
Definition fetchReceipts (uid : string) (rs : list Receipt) : list Receipt :=
  filter (fun r => String.eqb (receipt_shopId r) uid) rs.

(** [handleDeleteReceipt] of [ViewReceipts]: the receipt picked in the list
    is deleted and dropped from the list the page holds; when the delete
    throws, the list is kept. *)
Definition handleDeleteReceipt (receiptToDelete : option Receipt) (now : Z)
    (db : Db) (shown : list Receipt) : Db * list Receipt :=
  match receiptToDelete with
  | None => (db, shown)
  | Some picked =>
      match deleteReceipt (receipt_id picked) now db with
      | Some db' =>
          (db',
           filter (fun r => negb (String.eqb (receipt_id r)
                                             (receipt_id picked)))
                  shown)
      | None => (db, shown)
      end
  end.

End ReceiptPages.

(* ================================================================== *)
(** ** Notions used in the statements about the sign-in flow *)
(* ================================================================== *)

Module SignInNotions.

Import JS Auth.

(** The lock check at the head of [Login.handleSubmit] lets an attempt for
    the address [mail] through at [now]: no document is found under the
    lower-cased address, or the one found carries no unexpired lock. *)
Definition unlocked (mail : string) (now : Z) (shops : list Shop) : Prop :=
  forall acct, firstWhere email (toLowerCase mail) shops = Some acct ->
               lockedFor acct now = None.

(** The [status] values for which the page refuses to open the dashboard. *)
Definition held_back (d : Shop) : bool :=
  strict_eq_opt_str (status d) (Some "pending")
  || strict_eq_opt_str (status d) (Some "frozen")
  || strict_eq_opt_str (status d) (Some "rejected").

End SignInNotions.

(* ================================================================== *)
(** * Properties *)
(* ================================================================== *)

Module Binary64.

Import JS Notions.


Lemma pow2_opp e : (pow2 e * pow2 (- e) == 1)%Q.
Proof.
  assert (H : forall k, 0 < k -> (pow2 k * pow2 (- k) == 1)%Q).
  { intros k Hk. unfold pow2.
    destruct (0 <=? k) eqn:E1; [|apply Z.leb_gt in E1; lia].
    destruct (0 <=? - k) eqn:E2; [apply Z.leb_le in E2; lia|].
    rewrite Z.opp_involutive. unfold Qeq. simpl.
    pose proof (Z.pow_pos_nonneg 2 k).
    rewrite Z2Pos.id by lia. lia. }
  destruct (Z.lt_trichotomy e 0) as [Hlt|[->|Hgt]].
  - rewrite Qmult_comm. rewrite <- (Z.opp_involutive e) at 2.
    apply H. lia.
  - reflexivity.
  - apply H, Hgt.
Qed.







Lemma Qred_inject_Z z : Qred (inject_Z z) = inject_Z z.
Proof.
  unfold Qred, inject_Z.
  pose proof (Z.ggcd_gcd z 1) as Hg.
  pose proof (Z.ggcd_correct_divisors z 1) as Hd.
  destruct (Z.ggcd z 1) as [g [aa bb]]. simpl in Hg, Hd |- *.
  rewrite Z.gcd_1_r in Hg. subst g. destruct Hd as [Ha Hb].
  assert (bb = 1) as -> by lia. rewrite Ha. f_equal. lia.
Qed.

Lemma nearest_even_whole m : nearest_even (inject_Z m) = m.
Proof.
  unfold nearest_even. rewrite Qfloor_Z.
  assert ((inject_Z m - inject_Z m ?= 1 # 2)%Q = Lt) as ->; [|reflexivity].
  apply (proj1 (Qlt_alt _ _)). generalize (inject_Z m). intros q. lra.
Qed.

Lemma nearest_even_comp x y : (x == y)%Q -> nearest_even x = nearest_even y.
Proof.
  intros H. unfold nearest_even. rewrite (Qfloor_comp x y H).
  assert ((x - inject_Z (Qfloor y) ?= 1 # 2)%Q =
          (y - inject_Z (Qfloor y) ?= 1 # 2)%Q) as ->; [|reflexivity].
  apply Qcompare_comp; [rewrite H|]; reflexivity.
Qed.

Lemma round_pos_whole z :
  0 < z <= 2 ^ 53 -> round_pos (inject_Z z) = Some (inject_Z z).
Proof.
  intros Hz.
  assert (Hlog : 0 <= Z.log2 z <= 53).
  { split; [apply Z.log2_nonneg|].
    destruct (Z.log2_spec z) as [Hlo _]; [lia|].
    destruct (Z.le_gt_cases (Z.log2 z) 53) as [H|H]; [exact H|].
    exfalso. assert (2 ^ 54 <= 2 ^ Z.log2 z) by (apply Z.pow_le_mono_r; lia).
    assert (2 ^ 53 < 2 ^ 54) by (apply Z.pow_lt_mono_r; lia). lia. }
  assert (Hil : ilog2 (inject_Z z) = Z.log2 z).
  { unfold ilog2. simpl. rewrite Z.sub_0_r.
    assert (Qle_bool (pow2 (Z.log2 z)) (inject_Z z) = true) as ->;
      [|reflexivity].
    apply Qle_bool_iff. unfold pow2.
    destruct (0 <=? Z.log2 z) eqn:E; [|apply Z.leb_gt in E; lia].
    rewrite <- Zle_Qle. apply Z.log2_spec. lia. }
  unfold round_pos. rewrite Hil.
  set (e := Z.max (Z.log2 z - 52) (-1074)).
  assert (He : e = Z.log2 z - 52) by (unfold e; lia).
  assert (Hbig : 2 ^ 53 < 2 ^ 1024) by (apply Z.pow_lt_mono_r; lia).
  assert (Hm : exists m, (inject_Z z * pow2 (- e) == inject_Z m)%Q).
  { destruct (Z.le_gt_cases e 0) as [Hle|Hgt].
    - exists (z * 2 ^ (- e)). unfold pow2.
      destruct (0 <=? - e) eqn:E; [|apply Z.leb_gt in E; lia].
      rewrite inject_Z_mult. reflexivity.
    - assert (Z.log2 z = 53) as Hl by lia. assert (e = 1) as -> by lia.
      assert (z = 2 ^ 53) as ->.
      { destruct (Z.log2_spec z) as [Hlo _]; [lia|]. rewrite Hl in Hlo. lia. }
      exists (2 ^ 52). reflexivity. }
  destruct Hm as [m Hm].
  assert (nearest_even (inject_Z z * pow2 (- e)) = m) as ->.
  { rewrite (nearest_even_comp _ _ Hm). apply nearest_even_whole. }
  assert (Hv : (inject_Z m * pow2 e == inject_Z z)%Q).
  { rewrite <- Hm. rewrite <- Qmult_assoc.
    rewrite (Qmult_comm (pow2 (- e))), pow2_opp. ring. }
  rewrite (Qred_complete _ _ Hv), Qred_inject_Z.
  assert (Qle_bool (pow2 1024) (inject_Z z) = false) as ->; [|reflexivity].
  destruct (Qle_bool (pow2 1024) (inject_Z z)) eqn:E; [|reflexivity].
  apply Qle_bool_iff in E. unfold pow2 in E. cbn [Z.leb Z.compare] in E.
  rewrite <- Zle_Qle in E. lia.
Qed.

Lemma round64_Qeq x y : (x == y)%Q -> round64 x = round64 y.
Proof.
  intros H. unfold round64. rewrite (Qred_complete _ _ H). reflexivity.
Qed.

Lemma round64_whole z x :
  0 <= z <= 2 ^ 53 -> (x == inject_Z z)%Q -> round64 x = Fin (inject_Z z).
Proof.
  intros Hz Hx. unfold round64.
  rewrite (Qred_complete _ _ Hx), Qred_inject_Z.
  destruct (Z.eq_dec z 0) as [->|Hne]; [reflexivity|].
  assert ((inject_Z z ?= 0)%Q = Gt) as ->.
  { apply (proj1 (Qgt_alt _ _)). change 0%Q with (inject_Z 0).
    rewrite <- Zlt_Qlt. lia. }
  rewrite round_pos_whole by lia. reflexivity.
Qed.
















End Binary64.

Module StockFacts.

Import JS Stock Notions.

Lemma updateStockQuantity_updates shop items now stock :
  updateStockQuantity shop items now stock =
  applyUpdates now (map (saveUpdate (shopStock shop stock)) items) stock.
Proof. reflexivity. Qed.

Lemma restoreStockQuantity_updates shop items now stock :
  restoreStockQuantity shop items now stock =
  applyUpdates now (map (restoreUpdate (shopStock shop stock)) items) stock.
Proof. reflexivity. Qed.

Lemma applyUpdates_app now us vs stock :
  applyUpdates now (us ++ vs) stock =
  applyUpdates now vs (applyUpdates now us stock).
Proof. unfold applyUpdates. apply fold_left_app. Qed.

(** The writes act on each document separately. *)
Lemma applyUpdates_map now us : forall stock,
  applyUpdates now us stock =
  map (fun d => fold_left (written now) us d) stock.
Proof.
  induction us as [|u us IH]; intros stock; simpl.
  - symmetry. apply map_id.
  - unfold applyUpdates in *. simpl. rewrite IH.
    destruct u as [[i q]|]; simpl.
    + unfold updateStockItem. rewrite map_map. reflexivity.
    + reflexivity.
Qed.

Lemma written_same now u d : same_item (written now d u) d.
Proof.
  unfold same_item, written.
  destruct u as [[i q]|]; [destruct (String.eqb (id d) i)|];
    simpl; repeat split; reflexivity.
Qed.

Lemma fold_written_same now us : forall d,
  same_item (fold_left (written now) us d) d.
Proof.
  induction us as [|u us IH]; intros d; simpl.
  - unfold same_item. repeat split; reflexivity.
  - specialize (IH (written now d u)).
    pose proof (written_same now u d) as H.
    unfold same_item in *.
    repeat match goal with H : _ /\ _ |- _ => destruct H end.
    repeat split; congruence.
Qed.

Lemma fold_written_quantity now us : forall d,
  quantity (fold_left (written now) us d) = lastWrite (id d) us (quantity d).
Proof.
  unfold lastWrite.
  induction us as [|u us IH]; intros d; simpl; [reflexivity|].
  rewrite IH.
  destruct (written_same now u d) as [Hid _]. rewrite Hid.
  f_equal. unfold written.
  destruct u as [[i q]|]; [destruct (String.eqb (id d) i)|]; reflexivity.
Qed.

(** A document that no write addresses is left as it is. *)
Lemma fold_written_untouched now us : forall d,
  forallb (fun u => negb (addressed (id d) u)) us = true ->
  fold_left (written now) us d = d.
Proof.
  induction us as [|u us IH]; intros d H; simpl in *; [reflexivity|].
  apply andb_true_iff in H. destruct H as [Hu Hus].
  assert (written now d u = d) as ->.
  { unfold written, addressed in *.
    destruct u as [[i q]|]; [|reflexivity].
    destruct (String.eqb (id d) i); [discriminate|reflexivity]. }
  apply IH, Hus.
Qed.

Lemma lastWrite_app i us vs q0 :
  lastWrite i (us ++ vs) q0 = lastWrite i vs (lastWrite i us q0).
Proof. unfold lastWrite. apply fold_left_app. Qed.

Lemma lastWrite_untouched i us : forall q0,
  forallb (fun u => negb (addressed i u)) us = true ->
  lastWrite i us q0 = q0.
Proof.
  unfold lastWrite.
  induction us as [|u us IH]; intros q0 H; simpl in *; [reflexivity|].
  apply andb_true_iff in H. destruct H as [Hu Hus].
  rewrite IH by exact Hus.
  destruct u as [[j v]|]; [|reflexivity]. simpl in Hu.
  destruct (String.eqb i j); [discriminate|reflexivity].
Qed.

(** Ids are keys. *)
Lemma wf_stock_inj stock : wf_stock stock ->
  forall a b, In a stock -> In b stock -> id a = id b -> a = b.
Proof.
  unfold wf_stock. induction stock as [|x l IH]; simpl; intros Hnd a b Ha Hb E.
  - contradiction.
  - inversion Hnd as [|? ? Hnotin Hnd']; subst.
    destruct Ha as [<-|Ha], Hb as [<-|Hb].
    + reflexivity.
    + exfalso. apply Hnotin. rewrite E. apply in_map, Hb.
    + exfalso. apply Hnotin. rewrite <- E. apply in_map, Ha.
    + apply IH; assumption.
Qed.

Lemma getStockItemById_In i stock d :
  getStockItemById i stock = Some d -> In d stock /\ id d = i.
Proof.
  unfold getStockItemById. intros H. apply find_some in H.
  destruct H as [Hin E]. apply String.eqb_eq in E. auto.
Qed.

Lemma In_getStockItemById stock d :
  wf_stock stock -> In d stock -> getStockItemById (id d) stock = Some d.
Proof.
  intros Hwf Hin. unfold getStockItemById.
  destruct (find (fun x => String.eqb (id x) (id d)) stock) as [x|] eqn:E.
  - apply find_some in E. destruct E as [Hx Ex].
    apply String.eqb_eq in Ex. f_equal.
    apply (wf_stock_inj stock Hwf); assumption.
  - exfalso. apply (find_none _ _ E) in Hin.
    rewrite String.eqb_refl in Hin. discriminate.
Qed.

Lemma find_map_same {A} (p : A -> bool) (g : A -> A) (l : list A) :
  (forall x, p (g x) = p x) ->
  find p (map g l) = option_map g (find p l).
Proof.
  intros Hp. induction l as [|x l IH]; simpl; [reflexivity|].
  rewrite Hp. destruct (p x); [reflexivity|exact IH].
Qed.

Lemma filter_map_same {A} (p : A -> bool) (g : A -> A) (l : list A) :
  (forall x, p (g x) = p x) ->
  filter p (map g l) = map g (filter p l).
Proof.
  intros Hp. induction l as [|x l IH]; simpl; [reflexivity|].
  rewrite Hp. destruct (p x); simpl; rewrite IH; reflexivity.
Qed.

(** Looking a document up after the writes. *)
Lemma getStockItemById_applyUpdates now us i stock :
  getStockItemById i (applyUpdates now us stock) =
  option_map (fun d => fold_left (written now) us d)
             (getStockItemById i stock).
Proof.
  rewrite applyUpdates_map. unfold getStockItemById.
  apply find_map_same. intros x.
  destruct (fold_written_same now us x) as [-> _]. reflexivity.
Qed.

Lemma findByName_In nm l s :
  findByName nm l = Some s -> In s l /\ name s = nm.
Proof.
  unfold findByName. intros H. apply find_some in H.
  destruct H as [Hin E]. apply String.eqb_eq in E. auto.
Qed.

Lemma shopStock_In shop stock s : In s (shopStock shop stock) -> In s stock.
Proof. unfold shopStock. intros H. apply filter_In in H. tauto. Qed.

(** A write of [updateStockQuantity] is addressed to a stock item that bears
    the name of its line. *)
Lemma saveUpdate_target stockItems x i v :
  saveUpdate stockItems x = Some (i, v) ->
  exists s, In s stockItems /\ name s = sold_name x /\ id s = i.
Proof.
  unfold saveUpdate. intros H.
  destruct (findByName (sold_name x) stockItems) as [s|] eqn:E;
    [|discriminate].
  destruct (compatible _ _); [|discriminate].
  inversion H; subst. apply findByName_In in E. exists s. tauto.
Qed.

Lemma restoreUpdate_target stockItems x i v :
  restoreUpdate stockItems x = Some (i, v) ->
  exists s, In s stockItems /\ name s = item_name x /\ id s = i.
Proof.
  unfold restoreUpdate. intros H.
  destruct (findByName (item_name x) stockItems) as [s|] eqn:E;
    [|discriminate].
  destruct (compatible _ _); [|discriminate].
  inversion H; subst. apply findByName_In in E. exists s. tauto.
Qed.

End StockFacts.

Module Reconciler.

Import JS Stock Notions StockFacts.

Lemma strict_eq_opt_str_true a b : strict_eq_opt_str a b = true <-> a = b.
Proof.
  destruct a as [x|], b as [y|]; simpl; split; intros H;
    try discriminate; try reflexivity.
  - apply String.eqb_eq in H. congruence.
  - inversion H. apply String.eqb_refl.
Qed.

Lemma incompatible_units lineUnit stockUnit :
  truthy_opt_str lineUnit = true -> lineUnit <> stockUnit ->
  compatible lineUnit stockUnit = false.
Proof.
  intros Ht Hne. unfold compatible. rewrite Ht. simpl.
  destruct (strict_eq_opt_str lineUnit stockUnit) eqn:E; [|reflexivity].
  apply strict_eq_opt_str_true in E. contradiction.
Qed.

(** A line that contributes no write can be dropped from the receipt. *)
Lemma applyUpdates_skip now us vs stock :
  applyUpdates now (us ++ None :: vs) stock = applyUpdates now (us ++ vs) stock.
Proof. rewrite !applyUpdates_app. reflexivity. Qed.

(** Writes that are all addressed elsewhere leave a document as it is. *)
Lemma untouched_lookup now us stock d :
  wf_stock stock -> In d stock ->
  forallb (fun u => negb (addressed (id d) u)) us = true ->
  getStockItemById (id d) (applyUpdates now us stock) = Some d.
Proof.
  intros Hwf Hin Hus. rewrite getStockItemById_applyUpdates.
  rewrite (In_getStockItemById stock d Hwf Hin). simpl.
  f_equal. apply fold_written_untouched, Hus.
Qed.

Lemma saveUpdates_elsewhere shop stock d items :
  wf_stock stock -> In d stock ->
  (forall x, In x items -> sold_name x <> name d) ->
  forallb (fun u => negb (addressed (id d) u))
          (map (saveUpdate (shopStock shop stock)) items) = true.
Proof.
  intros Hwf Hin Hnames. apply forallb_forall. intros u Hu.
  apply in_map_iff in Hu. destruct Hu as [x [Hx Hxin]].
  destruct u as [[i v]|]; [|reflexivity]. simpl.
  destruct (String.eqb (id d) i) eqn:E; [|reflexivity].
  apply String.eqb_eq in E. exfalso.
  destruct (saveUpdate_target _ _ _ _ Hx) as [s [Hs [Hn Hi]]].
  apply shopStock_In in Hs.
  assert (s = d) by (apply (wf_stock_inj stock Hwf); congruence).
  subst s. apply (Hnames x Hxin). congruence.
Qed.

Lemma restoreUpdates_elsewhere shop stock d items :
  wf_stock stock -> In d stock ->
  (forall x, In x items -> item_name x <> name d) ->
  forallb (fun u => negb (addressed (id d) u))
          (map (restoreUpdate (shopStock shop stock)) items) = true.
Proof.
  intros Hwf Hin Hnames. apply forallb_forall. intros u Hu.
  apply in_map_iff in Hu. destruct Hu as [x [Hx Hxin]].
  destruct u as [[i v]|]; [|reflexivity]. simpl.
  destruct (String.eqb (id d) i) eqn:E; [|reflexivity].
  apply String.eqb_eq in E. exfalso.
  destruct (restoreUpdate_target _ _ _ _ Hx) as [s [Hs [Hn Hi]]].
  apply shopStock_In in Hs.
  assert (s = d) by (apply (wf_stock_inj stock Hwf); congruence).
  subst s. apply (Hnames x Hxin). congruence.
Qed.

(** [Math.max(0, x)] is never below zero. *)
Lemma Math_max_0_not_negative x : ltb (Math_max (Fin 0) x) (Fin 0) = false.
Proof.
  destruct x as [|b|q]; simpl; try reflexivity.
  - destruct b; reflexivity.
  - unfold Qltb. destruct (Qle_bool q 0) eqn:E; simpl.
    + reflexivity.
    + unfold Qltb. apply negb_false_iff, Qle_bool_iff.
      destruct (Qlt_le_dec 0 q) as [H|H]; [apply Qlt_le_weak, H|].
      apply Qle_bool_iff in H. congruence.
Qed.

(** C7. A line whose [quantityUnit] is present and differs from the unit of
    the stock item found under its name contributes nothing, on save and on
    delete alike: the receipt has the effect of the receipt without that
    line, and a receipt made of that line alone leaves the whole stock,
    hence the quantity of that stock item, as it was. *)
Theorem unit_mismatch_skips_adjustment :
  forall shop now stock (sold : SoldItem) (restored : ReceiptItem) s s'
         pre post pre' post',
    findByName (sold_name sold) (shopStock shop stock) = Some s ->
    truthy_opt_str (sold_quantityUnit sold) = true ->
    sold_quantityUnit sold <> quantityUnit s ->
    findByName (item_name restored) (shopStock shop stock) = Some s' ->
    truthy_opt_str (item_quantityUnit restored) = true ->
    item_quantityUnit restored <> quantityUnit s' ->
    updateStockQuantity shop (pre ++ sold :: post) now stock =
      updateStockQuantity shop (pre ++ post) now stock /\
    updateStockQuantity shop [sold] now stock = stock /\
    restoreStockQuantity shop (pre' ++ restored :: post') now stock =
      restoreStockQuantity shop (pre' ++ post') now stock /\
    restoreStockQuantity shop [restored] now stock = stock.
Proof.
  intros shop now stock sold restored s s' pre post pre' post'
         Hs Ht Hne Hs' Ht' Hne'.
  assert (saveUpdate (shopStock shop stock) sold = None) as Hsave.
  { unfold saveUpdate. rewrite Hs.
    rewrite (incompatible_units _ _ Ht Hne). reflexivity. }
  assert (restoreUpdate (shopStock shop stock) restored = None) as Hrest.
  { unfold restoreUpdate. rewrite Hs'.
    rewrite (incompatible_units _ _ Ht' Hne'). reflexivity. }
  rewrite !updateStockQuantity_updates, !restoreStockQuantity_updates.
  rewrite !map_app. simpl. rewrite Hsave, Hrest.
  repeat split; try apply applyUpdates_skip; reflexivity.
Qed.

(** C9. With unique document ids, a stock item whose name is the name of no
    item of the processed receipt is read back unchanged in every field
    after [updateStockQuantity] and after [restoreStockQuantity]. *)
Theorem unmatched_stock_untouched :
  forall shop now stock d (sold : list SoldItem) (restored : list ReceiptItem),
    wf_stock stock -> In d stock ->
    (forall x, In x sold -> sold_name x <> name d) ->
    (forall x, In x restored -> item_name x <> name d) ->
    getStockItemById (id d) (updateStockQuantity shop sold now stock) = Some d /\
    getStockItemById (id d) (restoreStockQuantity shop restored now stock)
      = Some d.
Proof.
  intros shop now stock d sold restored Hwf Hin Hsold Hrest.
  rewrite updateStockQuantity_updates, restoreStockQuantity_updates.
  split; apply untouched_lookup; auto.
  - apply saveUpdates_elsewhere; assumption.
  - apply restoreUpdates_elsewhere; assumption.
Qed.

(** C5. With unique document ids, when a sold line finds the stock item [s]
    under its name with a compatible unit, the quantity stored for [s] once
    the write of that line has landed ([post = []]), and still after the
    later lines as long as none of them bears that name, is
    [Math.max(0, s.quantity - line.quantity)], which is never below zero. *)
Theorem decrement_clamps_at_zero :
  forall shop now stock pre line post s,
    wf_stock stock ->
    findByName (sold_name line) (shopStock shop stock) = Some s ->
    compatible (sold_quantityUnit line) (quantityUnit s) = true ->
    (forall x, In x post -> sold_name x <> sold_name line) ->
    exists d,
      getStockItemById (id s)
        (updateStockQuantity shop (pre ++ line :: post) now stock) = Some d /\
      quantity d = Math_max (Fin 0) (sub (quantity s) (sold_quantity line)) /\
      ltb (quantity d) (Fin 0) = false.
Proof.
  intros shop now stock pre line post s Hwf Hs Hc Hpost.
  destruct (findByName_In _ _ _ Hs) as [Hin Hname].
  apply shopStock_In in Hin.
  rewrite updateStockQuantity_updates, getStockItemById_applyUpdates.
  rewrite (In_getStockItemById stock s Hwf Hin). simpl.
  eexists. split; [reflexivity|].
  rewrite fold_written_quantity, map_app. simpl.
  assert (saveUpdate (shopStock shop stock) line =
          Some (id s, Math_max (Fin 0) (sub (quantity s) (sold_quantity line))))
    as Hline.
  { unfold saveUpdate. rewrite Hs, Hc. reflexivity. }
  rewrite Hline.
  change (?a :: ?l) with (([a] ++ l)%list).
  rewrite !lastWrite_app.
  rewrite (lastWrite_untouched (id s) (map _ post)).
  - unfold lastWrite at 1. simpl. rewrite String.eqb_refl.
    split; [reflexivity|apply Math_max_0_not_negative].
  - apply saveUpdates_elsewhere; try assumption.
    intros x Hx. rewrite Hname. apply Hpost, Hx.
Qed.

Lemma unit_mismatch_skips_adjustment_witness :
  updateStockQuantity "shop1" [mkSold "Rice" (Fin 2) (Some "units")] 1
                      [Sample.apple 10; Sample.rice]
    = [Sample.apple 10; Sample.rice] /\
  restoreStockQuantity "shop1" [mkItem "Rice" "4" "2" (Some "units")] 2
                       [Sample.apple 10; Sample.rice]
    = [Sample.apple 10; Sample.rice].
Proof.
  destruct (unit_mismatch_skips_adjustment
              "shop1" 1 [Sample.apple 10; Sample.rice]
              (mkSold "Rice" (Fin 2) (Some "units"))
              (mkItem "Rice" "4" "2" (Some "units"))
              Sample.rice Sample.rice [] [] [] [])
    as (_ & Hsave & _ & _); try reflexivity; try discriminate.
  destruct (unit_mismatch_skips_adjustment
              "shop1" 2 [Sample.apple 10; Sample.rice]
              (mkSold "Rice" (Fin 2) (Some "units"))
              (mkItem "Rice" "4" "2" (Some "units"))
              Sample.rice Sample.rice [] [] [] [])
    as (_ & _ & _ & Hrestore); try reflexivity; try discriminate.
  split; [exact Hsave|exact Hrestore].
Defined.

Lemma unmatched_stock_untouched_witness :
  getStockItemById "s2"
    (updateStockQuantity "shop1" [mkSold "Apple" (Fin 2) (Some "units")] 1
                         [Sample.apple 10; Sample.rice]) = Some Sample.rice /\
  getStockItemById "s2"
    (restoreStockQuantity "shop1" [mkItem "Apple" "10" "2" (Some "units")] 1
                          [Sample.apple 10; Sample.rice]) = Some Sample.rice.
Proof.
  apply (unmatched_stock_untouched
           "shop1" 1 [Sample.apple 10; Sample.rice] Sample.rice
           [mkSold "Apple" (Fin 2) (Some "units")]
           [mkItem "Apple" "10" "2" (Some "units")]).
  - unfold wf_stock. simpl.
    repeat constructor; simpl; intuition discriminate.
  - right. left. reflexivity.
  - intros x [<-|[]]. discriminate.
  - intros x [<-|[]]. discriminate.
Defined.

Lemma decrement_clamps_at_zero_witness :
  exists d,
    getStockItemById "s1"
      (updateStockQuantity "shop1" [mkSold "Apple" (Fin 5) (Some "units")] 1
                           [Sample.apple 3; Sample.rice]) = Some d /\
    quantity d = Math_max (Fin 0) (sub (Fin 3) (Fin 5)) /\
    ltb (quantity d) (Fin 0) = false.
Proof.
  apply (decrement_clamps_at_zero
           "shop1" 1 [Sample.apple 3; Sample.rice] []
           (mkSold "Apple" (Fin 5) (Some "units")) [] (Sample.apple 3)).
  - unfold wf_stock. simpl.
    repeat constructor; simpl; intuition discriminate.
  - reflexivity.
  - reflexivity.
  - intros x [].
Defined.

End Reconciler.

Module RoundTrip.

Import JS Stock Notions Binary64 StockFacts Reconciler.

Lemma compatible_on_delete u stockUnit :
  compatible (Some (or_default u "units")) stockUnit = true ->
  compatible u stockUnit = true.
Proof.
  unfold compatible, or_default, truthy_opt_str.
  destruct u as [x|]; [|reflexivity].
  destruct (truthy_str x) eqn:E; [|reflexivity].
  rewrite E. auto.
Qed.

(** [Math.max(0, q - dq)] when the stock covers the line and the
    subtraction is exact. *)
Lemma Math_max_0_covered q dq :
  (dq <= q)%Q -> binary64 (q - dq) ->
  exists r, Math_max (Fin 0) (sub (Fin q) (Fin dq)) = Fin r /\ (r == q - dq)%Q.
Proof.
  intros Hle Hex. unfold sub. unfold binary64 in Hex.
  destruct (round64 (q - dq)) as [|b|r]; try discriminate Hex.
  cbn [num_eq] in Hex.
  unfold Math_max, ltb, Qltb.
  destruct (Qle_bool r 0) eqn:E; cbn [negb].
  - exists 0%Q. split; [reflexivity|].
    apply Qle_bool_iff in E. lra.
  - exists r. split; [reflexivity|exact Hex].
Qed.

(** Adding the quantity sold to what the sale left. *)
Lemma add_back q dq r :
  (r == q - dq)%Q -> binary64 q -> num_eq (add (Fin r) (Fin dq)) (Fin q).
Proof.
  intros Hr Hq. unfold add.
  rewrite (round64_Qeq (r + dq) q) by (rewrite Hr; ring).
  exact Hq.
Qed.

(** Whole numbers up to 2^53 and their differences are binary64 numbers. *)
Lemma whole_is_covered shop stock item :
  whole_quantities shop stock item -> covered shop stock item.
Proof.
  intros H s Hs. destruct (H s Hs) as (a & b & Hq & Hdq & Hle & Hbound).
  exists (inject_Z a), (inject_Z b).
  split; [exact Hq|]. split; [exact Hdq|]. split; [|split].
  - rewrite <- Zle_Qle. lia.
  - unfold binary64. rewrite (round64_whole a) by (reflexivity || lia).
    cbn [num_eq]. reflexivity.
  - unfold binary64.
    assert (Hd : (inject_Z a - inject_Z b == inject_Z (a - b))%Q).
    { unfold Z.sub. rewrite inject_Z_plus, inject_Z_opp. reflexivity. }
    rewrite (round64_whole (a - b)) by (exact Hd || lia).
    cbn [num_eq]. symmetry. exact Hd.
Qed.

Section PerDocument.

Variables (shop : string) (stock : list StockItem) (d : StockItem).
Variable g : StockItem -> StockItem.

Hypothesis Hwf : wf_stock stock.
Hypothesis Hd : In d stock.
Hypothesis Hg : forall x, same_item (g x) x.

Let S := shopStock shop stock.
Let S1 := shopStock shop (map g stock).

Lemma snapshot_after : S1 = map g S.
Proof.
  unfold S1, S, shopStock. apply filter_map_same.
  intros x. destruct (Hg x) as (_ & -> & _). reflexivity.
Qed.

Lemma findByName_after nm : findByName nm S1 = option_map g (findByName nm S).
Proof.
  rewrite snapshot_after. unfold findByName. apply find_map_same.
  intros x. destruct (Hg x) as (_ & _ & -> & _). reflexivity.
Qed.

(** What the two passes write for a matched item. *)
Lemma writes_of_matched item :
  matched shop stock item -> covered shop stock item ->
  exists s q dq r,
    In s stock /\ quantity s = Fin q /\ (r == q - dq)%Q /\ binary64 q /\
    saveUpdate S (mkSold (item_name item) (parseFloat (item_quantity item))
                         (Some (or_default (item_quantityUnit item) "units")))
      = Some (id s, Fin r) /\
    restoreUpdate S1 item = Some (id s, add (quantity (g s)) (Fin dq)).
Proof.
  intros [s [Hs Hc]] Hcov.
  destruct (Hcov s Hs) as (q & dq & Hq & Hdq & Hle & Hbq & Hbd).
  destruct (Math_max_0_covered q dq Hle Hbd) as (r & Hr & Hrq).
  exists s, q, dq, r.
  destruct (findByName_In _ _ _ Hs) as [Hin _].
  split; [apply shopStock_In in Hin; exact Hin|].
  split; [exact Hq|]. split; [exact Hrq|]. split; [exact Hbq|]. split.
  - unfold saveUpdate, S.
    cbn [sold_name sold_quantity sold_quantityUnit].
    rewrite Hs, Hc, Hq, Hdq, Hr. reflexivity.
  - unfold restoreUpdate. rewrite findByName_after. unfold S. rewrite Hs.
    cbn [option_map].
    destruct (Hg s) as (Hid & _ & _ & _ & _ & Hu). rewrite Hu, Hid.
    rewrite (compatible_on_delete _ _ Hc), Hdq. reflexivity.
Qed.

(** Both passes address the same documents. *)
Lemma same_addressees its :
  (forall x, In x its -> matched shop stock x /\ covered shop stock x) ->
  forallb (fun u => negb (addressed (id d) u))
          (map (saveUpdate S) (NewReceipt.soldItems its)) = true ->
  forallb (fun u => negb (addressed (id d) u))
          (map (restoreUpdate S1) its) = true.
Proof.
  induction its as [|x its IH]; intros Hits H; [reflexivity|].
  destruct (Hits x (or_introl eq_refl)) as [Hm Hc].
  destruct (writes_of_matched x Hm Hc)
    as (s & q & dq & r & Hs & Hq & Hr & Hbq & Hsave & Hrest).
  unfold NewReceipt.soldItems in *. cbn [map forallb] in *.
  rewrite Hsave in H. rewrite Hrest. cbn [addressed] in *.
  apply andb_true_iff in H. destruct H as [H1 H2].
  rewrite H1. cbn [andb]. apply IH; [|exact H2].
  intros y Hy. apply Hits. right. exact Hy.
Qed.

(** Either no line addresses [d], or the last line that does decides what
    both passes leave in it: the save the quantity [q - dq], the delete the
    quantity it reads plus [dq]. *)
Lemma last_writes its :
  (forall x, In x its -> matched shop stock x /\ covered shop stock x) ->
  forallb (fun u => negb (addressed (id d) u))
          (map (saveUpdate S) (NewReceipt.soldItems its)) = true \/
  exists q dq r,
    quantity d = Fin q /\ (r == q - dq)%Q /\ binary64 q /\
    (forall a,
       lastWrite (id d) (map (saveUpdate S) (NewReceipt.soldItems its)) a
         = Fin r) /\
    (forall b,
       lastWrite (id d) (map (restoreUpdate S1) its) b
         = add (quantity (g d)) (Fin dq)).
Proof.
  induction its as [|x its IH]; intros Hits; [left; reflexivity|].
  assert (Hrest : forall y, In y its ->
                    matched shop stock y /\ covered shop stock y)
    by (intros y Hy; apply Hits; right; exact Hy).
  destruct (Hits x (or_introl eq_refl)) as [Hm Hc].
  destruct (writes_of_matched x Hm Hc)
    as (s & q & dq & r & Hs & Hq & Hr & Hbq & Hsave & Hrestore).
  destruct (IH Hrest) as [Hnone|(q' & dq' & r' & Hq' & Hr' & Hbq' & HW & HW')].
  - destruct (String.eqb (id d) (id s)) eqn:E.
    + right. apply String.eqb_eq in E.
      assert (s = d) by (apply (wf_stock_inj stock Hwf); congruence).
      subst s. exists q, dq, r.
      split; [exact Hq|]. split; [exact Hr|]. split; [exact Hbq|].
      split; intros a.
      * unfold NewReceipt.soldItems, lastWrite. cbn [map fold_left].
        rewrite Hsave, String.eqb_refl.
        apply (lastWrite_untouched (id d) _ _ Hnone).
      * unfold lastWrite. cbn [map fold_left].
        rewrite Hrestore, String.eqb_refl.
        apply (lastWrite_untouched (id d)).
        apply same_addressees; assumption.
    + left. unfold NewReceipt.soldItems in *. cbn [map forallb].
      rewrite Hsave. cbn [addressed]. rewrite E. exact Hnone.
  - right. exists q', dq', r'.
    split; [exact Hq'|]. split; [exact Hr'|]. split; [exact Hbq'|].
    split; intros a.
    + unfold NewReceipt.soldItems, lastWrite. cbn [map fold_left].
      apply HW.
    + unfold lastWrite. cbn [map fold_left]. apply HW'.
Qed.

End PerDocument.

(** Saving and then deleting a receipt whose lines are all matched and
    covered by the stock gives every quantity back. *)
Lemma restore_after_update shop items now1 now2 stock :
  wf_stock stock ->
  (forall x, In x items -> matched shop stock x /\ covered shop stock x) ->
  quantities_restored stock
    (restoreStockQuantity shop items now2
       (updateStockQuantity shop (NewReceipt.soldItems items) now1 stock)).
Proof.
  intros Hwf Hits i d Hget.
  destruct (getStockItemById_In _ _ _ Hget) as [Hin Hid]. subst i.
  rewrite restoreStockQuantity_updates, updateStockQuantity_updates.
  set (W := map (saveUpdate (shopStock shop stock)) (NewReceipt.soldItems items)).
  rewrite (applyUpdates_map now1 W stock).
  set (g := fun d0 => fold_left (written now1) W d0).
  assert (Hg : forall x, same_item (g x) x)
    by (intros x; apply fold_written_same).
  rewrite getStockItemById_applyUpdates.
  unfold getStockItemById at 1.
  rewrite (find_map_same _ g)
    by (intros x; destruct (Hg x) as [-> _]; reflexivity).
  fold (getStockItemById (id d) stock). rewrite Hget. simpl.
  eexists. split; [reflexivity|]. split.
  - pose proof (fold_written_same now2
      (map (restoreUpdate (shopStock shop (map g stock))) items) (g d)) as H1.
    pose proof (Hg d) as H2. unfold same_item in *.
    repeat match goal with H : _ /\ _ |- _ => destruct H end.
    repeat split; congruence.
  - rewrite fold_written_quantity.
    destruct (Hg d) as [Hgid _]. rewrite Hgid.
    assert (Hc : quantity (g d) = lastWrite (id d) W (quantity d))
      by (unfold g; apply fold_written_quantity).
    destruct (last_writes shop stock d g Hwf Hin Hg items Hits)
      as [E|(q & dq & r & Hq & Hr & Hbq & HW & HW')].
    + rewrite lastWrite_untouched
        by (apply (same_addressees shop stock d g); assumption).
      fold W in E. rewrite Hc, lastWrite_untouched by exact E.
      unfold num_eq. destruct (quantity d); reflexivity.
    + fold W in HW. rewrite HW in Hc.
      rewrite HW', Hc, Hq. apply (add_back q dq r Hr Hbq).
Qed.

End RoundTrip.

Module SaveDelete.

Import JS Stock Receipts Notions StockFacts RoundTrip.

Lemma quantities_restored_refl stock : quantities_restored stock stock.
Proof.
  intros i d H. exists d. split; [exact H|]. split.
  - unfold same_item. repeat split; reflexivity.
  - unfold num_eq. destruct (quantity d); reflexivity.
Qed.

Lemma find_last {A} (p : A -> bool) l x :
  find p l = None -> p x = true -> find p (l ++ [x]) = Some x.
Proof.
  induction l as [|y l IH]; simpl; intros Hn Hx.
  - rewrite Hx. reflexivity.
  - destruct (p y); [discriminate|]. apply IH; assumption.
Qed.

(** What a successful submit leaves behind. *)
Lemma handleSubmit_saved page newId now db db1 receiptId :
  NewReceipt.handleSubmit page newId now db = (db1, inr receiptId) ->
  receiptId = newId /\
  stock db1 =
    updateStockQuantity (NewReceipt.currentUser page)
      (NewReceipt.soldItems (NewReceipt.items page)) now (stock db) /\
  exists r,
    receipts db1 = (receipts db ++ [r])%list /\
    receipt_id r = newId /\
    receipt_shopId r = NewReceipt.currentUser page /\
    items r = NewReceipt.items page.
Proof.
  unfold NewReceipt.handleSubmit, saveReceipt.
  destruct (negb (truthy_str (trim (NewReceipt.cashierName page))));
    [discriminate|].
  destruct (NewReceipt.checkItems (NewReceipt.items page)); [discriminate|].
  destruct (NewReceipt.validateInventory page); [|discriminate].
  intros H. inversion H; subst; clear H. cbn [stock receipts].
  repeat split. eexists. repeat split.
Qed.

(** The round trip as the claim words it fails in two ways.  When the sale
    exceeds the stock the save clamps the quantity to 0 and the delete adds
    the whole sale to it: the page shows the 7 apples it loaded, the shop
    holds 3 by now, 5 are sold, and the delete leaves 5.  And when the
    stock covers the sale, the subtraction and the addition each round to
    binary64: of 0.9 kg of flour 0.2 kg are sold, and the delete leaves
    0.8999999999999999 kg. *)
Lemma roundtrip_fails_when_clamped_or_rounded :
  ~ (forall page newId now now' db db1 receiptId,
        wf_stock (stock db) ->
        getReceiptById newId (receipts db) = None ->
        NewReceipt.handleSubmit page newId now db = (db1, inr receiptId) ->
        (forall x, In x (NewReceipt.items page) ->
                   matched (NewReceipt.currentUser page) (stock db) x) ->
        exists db2,
          deleteReceipt receiptId now' db1 = Some db2 /\
          quantities_restored (stock db) (stock db2)) /\
  ~ (forall page newId now now' db db1 receiptId,
        wf_stock (stock db) ->
        getReceiptById newId (receipts db) = None ->
        NewReceipt.handleSubmit page newId now db = (db1, inr receiptId) ->
        (forall x, In x (NewReceipt.items page) ->
                   matched (NewReceipt.currentUser page) (stock db) x /\
                   in_stock (NewReceipt.currentUser page) (stock db) x) ->
        exists db2,
          deleteReceipt receiptId now' db1 = Some db2 /\
          quantities_restored (stock db) (stock db2)).
Proof.
  split; intros H.
  - pose (page := Sample.form "Apple" "5" (Some "units") [Sample.apple 7] true).
    pose (db := mkDb [] [Sample.apple 3]).
    destruct (H page "r1" 1 2 db
                (fst (NewReceipt.handleSubmit page "r1" 1 db)) "r1")
      as (db2 & Hdel & Hq).
    + unfold wf_stock. simpl. constructor; [simpl; tauto|constructor].
    + reflexivity.
    + vm_compute. reflexivity.
    + intros x [<-|[]]. exists (Sample.apple 3). split; reflexivity.
    + vm_compute in Hdel. inversion Hdel; subst db2; clear Hdel.
      destruct (Hq "s1" (Sample.apple 3) eq_refl) as (d' & Hget & _ & Hnum).
      vm_compute in Hget. inversion Hget; subst d'; clear Hget.
      vm_compute in Hnum. discriminate.
  - pose (db := mkDb [] [Sample.flour]).
    destruct (H Sample.weighed "r1" 1 2 db
                (fst (NewReceipt.handleSubmit Sample.weighed "r1" 1 db)) "r1")
      as (db2 & Hdel & Hq).
    + unfold wf_stock. simpl. constructor; [simpl; tauto|constructor].
    + reflexivity.
    + vm_compute. reflexivity.
    + intros x [<-|[]]. split.
      * exists Sample.flour. split; reflexivity.
      * intros s Hs. vm_compute in Hs. inversion Hs; subst s.
        vm_compute. reflexivity.
    + vm_compute in Hdel. inversion Hdel; subst db2; clear Hdel.
      destruct (Hq "s3" Sample.flour eq_refl) as (d' & Hget & _ & Hnum).
      vm_compute in Hget. inversion Hget; subst d'; clear Hget.
      vm_compute in Hnum. discriminate.
Qed.

(** What the flour example leaves in the stock, as the page would print
    it. *)
Example flour_after_sale_and_delete :
  option_map
    (fun db2 => map (fun d => toFixed 16 (quantity d)) (stock db2))
    (deleteReceipt "r1" 2
       (fst (NewReceipt.handleSubmit Sample.weighed "r1" 1
               (mkDb [] [Sample.flour]))))
  = Some ["0.8999999999999999"].
Proof. vm_compute. reflexivity. Qed.

(** C1 (amended). With unique document ids and a fresh receipt id:
    (1) when every item of a saved receipt finds a stock item under its name
    with a compatible unit, that stock item holds at least the quantity
    sold, its quantity is a binary64 number and so is the difference of the
    two (so that nothing is clamped and the subtraction is exact), deleting
    the receipt succeeds and every stock item reads back with the quantity
    it had before the sale; (2) these conditions are met whenever both
    quantities are whole numbers, the one sold at most the one in stock and
    that one at most 2^53. *)
Theorem delete_restores_saved_quantities :
  (forall page newId now now' db db1 receiptId,
      wf_stock (stock db) ->
      getReceiptById newId (receipts db) = None ->
      NewReceipt.handleSubmit page newId now db = (db1, inr receiptId) ->
      (forall x, In x (NewReceipt.items page) ->
                 matched (NewReceipt.currentUser page) (stock db) x /\
                 covered (NewReceipt.currentUser page) (stock db) x) ->
      exists db2,
        deleteReceipt receiptId now' db1 = Some db2 /\
        quantities_restored (stock db) (stock db2)) /\
  (forall shop stock item,
      whole_quantities shop stock item -> covered shop stock item).
Proof.
  split; [|apply whole_is_covered].
  intros page newId now now' db db1 receiptId Hwf Hfresh Hsub Hits.
  destruct (handleSubmit_saved _ _ _ _ _ _ Hsub)
    as (-> & Hstock & r & Hrs & Hrid & Hshop & Hitems).
  unfold deleteReceipt, getReceiptById. rewrite Hrs.
  rewrite (find_last _ _ r Hfresh)
    by (rewrite Hrid; apply String.eqb_refl).
  rewrite Hitems, Hshop, Hstock.
  destruct (NewReceipt.items page) as [|x l] eqn:E.
  - eexists. split; [reflexivity|]. cbn [stock].
    apply quantities_restored_refl.
  - eexists. split; [reflexivity|]. cbn [stock].
    apply restore_after_update; assumption.
Qed.

Lemma delete_restores_saved_quantities_witness :
  exists db2,
    deleteReceipt "r1" 2
      (fst (NewReceipt.handleSubmit
              (Sample.form "Apple" "5" (Some "units") [Sample.apple 7] true)
              "r1" 1 (mkDb [] [Sample.apple 7])))
      = Some db2 /\
    quantities_restored [Sample.apple 7] (stock db2).
Proof.
  apply (proj1 delete_restores_saved_quantities
           (Sample.form "Apple" "5" (Some "units") [Sample.apple 7] true)
           "r1" 1 2 (mkDb [] [Sample.apple 7])
           (fst (NewReceipt.handleSubmit
                   (Sample.form "Apple" "5" (Some "units") [Sample.apple 7] true)
                   "r1" 1 (mkDb [] [Sample.apple 7])))
           "r1").
  - unfold wf_stock. simpl. constructor; [simpl; tauto|constructor].
  - reflexivity.
  - reflexivity.
  - intros x [<-|[]]. split.
    + exists (Sample.apple 7). split; reflexivity.
    + apply (proj2 delete_restores_saved_quantities).
      intros s Hs. vm_compute in Hs. inversion Hs; subst s.
      exists 7, 5. repeat split; try reflexivity; lia.
Defined.

End SaveDelete.

Module NameMatching.

Import JS Stock Receipts Notions StockFacts Reconciler.




End NameMatching.

Module Oversell.

Import JS Stock Receipts Notions Binary64 StockFacts.










Lemma checkItems_In l x :
  NewReceipt.checkItems l = None -> In x l -> NewReceipt.checkItem x = None.
Proof.
  induction l as [|y l IH]; simpl; intros H Hin; [contradiction|].
  destruct (NewReceipt.checkItem y) eqn:E; [discriminate|].
  destruct Hin as [<-|Hin]; [exact E|apply IH; assumption].
Qed.


Lemma handleSubmit_cases page newId now db :
  (exists e, NewReceipt.handleSubmit page newId now db = (db, inl e)) \/
  (NewReceipt.checkItems (NewReceipt.items page) = None /\
   exists db1, NewReceipt.handleSubmit page newId now db = (db1, inr newId)).
Proof.
  unfold NewReceipt.handleSubmit, saveReceipt.
  destruct (negb (truthy_str (trim (NewReceipt.cashierName page))));
    [left; eexists; reflexivity|].
  destruct (NewReceipt.checkItems (NewReceipt.items page));
    [left; eexists; reflexivity|].
  destruct (NewReceipt.validateInventory page);
    [|left; eexists; reflexivity].
  right. split; [reflexivity|]. eexists. reflexivity.
Qed.










End Oversell.

Module Totals.

Import JS Stock Receipts Notions Binary64.











(** *** The numbers [calculateTotal] works with are binary64 numbers *)








(** *** Whole numbers *)







(** A discount that exceeds the subtotal by less than half a hundredth shows
    as a negative zero. *)
Example total_just_below_zero :
  calculateTotal (Some [Sample.pen]) (Some "10.001") = VStr "-0.00".
Proof. vm_compute. reflexivity. Qed.

End Totals.

Module Lockout.

Import JS Auth Notions.

Lemma setField_keys d f :
  uid (setField d f) = uid d /\
  email (setField d f) = email d /\
  userEmail (setField d f) = userEmail d.
Proof. destruct f; repeat split; reflexivity. Qed.

Lemma patched_keys fields : forall d,
  uid (fold_left setField fields d) = uid d /\
  email (fold_left setField fields d) = email d /\
  userEmail (fold_left setField fields d) = userEmail d.
Proof.
  induction fields as [|f fields IH]; intros d; simpl.
  - repeat split; reflexivity.
  - destruct (IH (setField d f)) as (-> & -> & ->). apply setField_keys.
Qed.

Lemma patched_keys' docId fields d :
  uid (patched docId fields d) = uid d /\
  email (patched docId fields d) = email d /\
  userEmail (patched docId fields d) = userEmail d.
Proof.
  unfold patched. destruct (String.eqb (uid d) docId).
  - apply patched_keys.
  - repeat split; reflexivity.
Qed.

Lemma getDoc_updateDoc i docId fields shops :
  getDoc i (updateDoc docId fields shops) =
  option_map (patched docId fields) (getDoc i shops).
Proof.
  unfold getDoc, updateDoc.
  apply (StockFacts.find_map_same _ (patched docId fields)).
  intros x. destruct (patched_keys' docId fields x) as (-> & _). reflexivity.
Qed.

Lemma firstWhere_email_updateDoc v docId fields shops :
  firstWhere email v (updateDoc docId fields shops) =
  option_map (patched docId fields) (firstWhere email v shops).
Proof.
  unfold firstWhere, updateDoc.
  apply (StockFacts.find_map_same _ (patched docId fields)).
  intros x. destruct (patched_keys' docId fields x) as (_ & -> & _).
  reflexivity.
Qed.

Lemma firstWhere_userEmail_updateDoc v docId fields shops :
  firstWhere userEmail v (updateDoc docId fields shops) =
  option_map (patched docId fields) (firstWhere userEmail v shops).
Proof.
  unfold firstWhere, updateDoc.
  apply (StockFacts.find_map_same _ (patched docId fields)).
  intros x. destruct (patched_keys' docId fields x) as (_ & _ & ->).
  reflexivity.
Qed.

(** The lock check rejects the attempt and nothing is written. *)
Lemma locked_rejects signIn mail password now shops userData timeLeft :
  firstWhere email (toLowerCase mail) shops = Some userData ->
  lockedFor userData now = Some timeLeft ->
  handleSubmit signIn mail password now shops
    = (shops, TemporarilyLocked timeLeft).
Proof.
  intros Hf Hl. unfold handleSubmit. rewrite Hf, Hl. reflexivity.
Qed.

Lemma lockedFor_unexpired userData now lockTime duration :
  lockedUntil userData = Some lockTime ->
  lockDuration userData = Some duration ->
  duration <> 0 ->
  now < lockTime + duration * 60000 ->
  lockedFor userData now
    = Some (ceilMinutes (lockTime + duration * 60000 - now)).
Proof.
  intros Hu Hd Hne Hlt. unfold lockedFor. rewrite Hu, Hd.
  destruct (Z.eqb_spec duration 0) as [E|_]; [contradiction|].
  destruct (Z.ltb_spec now (lockTime + duration * 60000)) as [_|H];
    [reflexivity|lia].
Qed.

Lemma lockedFor_expired userData now lockTime duration :
  lockedUntil userData = Some lockTime ->
  lockDuration userData = Some duration ->
  lockTime + duration * 60000 <= now ->
  lockedFor userData now = None.
Proof.
  intros Hu Hd Hle. unfold lockedFor. rewrite Hu, Hd.
  destruct (Z.eqb duration 0); [reflexivity|].
  destruct (Z.ltb_spec now (lockTime + duration * 60000)) as [H|_];
    [lia|reflexivity].
Qed.

(** C3. When the document found under the lower-cased address carries a
    lock whose expiry, [lockedUntil] plus [lockDuration] minutes, lies after
    the time of the attempt, the attempt is rejected with the minutes left
    and the [shops] collection is returned as it was: no counter is
    incremented. *)
Theorem locked_account_rejects_further_attempt :
  forall signIn mail password now shops userData lockTime duration,
    firstWhere email (toLowerCase mail) shops = Some userData ->
    lockedUntil userData = Some lockTime ->
    lockDuration userData = Some duration ->
    duration <> 0 ->
    now < lockTime + duration * 60000 ->
    handleSubmit signIn mail password now shops
      = (shops,
         TemporarilyLocked (ceilMinutes (lockTime + duration * 60000 - now))).
Proof.
  intros signIn mail password now shops userData lockTime duration
         Hf Hu Hd Hne Hlt.
  apply (locked_rejects _ _ _ _ _ userData); [exact Hf|].
  apply lockedFor_unexpired; assumption.
Qed.

Lemma locked_account_rejects_further_attempt_witness :
  let locked :=
    mkShop "u1" (Some "ali@shop.pk") None (Some 5) (Some 1000) (Some 15)
           (Some "active") None None None (Some 1000) in
  handleSubmit Sample.service "Ali@Shop.pk" "secret" 61000 [locked]
    = ([locked], TemporarilyLocked 14).
Proof.
  intros locked.
  apply (locked_account_rejects_further_attempt
           Sample.service "Ali@Shop.pk" "secret" 61000 [locked] locked 1000 15).
  - reflexivity.
  - reflexivity.
  - reflexivity.
  - lia.
  - lia.
Defined.

(** The sign-in succeeded: the page has reset the counter. *)
Lemma getDoc_reset user now shops1 userData :
  getDoc user shops1 = Some userData ->
  exists d',
    getDoc user
      (updateDoc user [FailedLoginAttempts 0; LastLoginAt now] shops1)
      = Some d' /\
    failedLoginAttempts d' = Some 0.
Proof.
  intros H. rewrite getDoc_updateDoc, H. cbn [option_map].
  eexists. split; [reflexivity|].
  unfold patched. apply find_some in H. destruct H as [_ ->]. reflexivity.
Qed.

(** C8. When the lock check lets the attempt through, the authentication
    service accepts the credentials and the shop document of the user
    exists, that document has [failedLoginAttempts = 0] when [handleSubmit]
    is over, whatever the counter was.  [AuthContext.login] on its own
    already leaves the counter at zero or, when the document never had
    one, absent. *)
Theorem successful_login_resets_failed_attempts :
  forall signIn mail password now shops user userData,
    signIn mail password = SignedIn user ->
    getDoc user shops = Some userData ->
    (forall acct, firstWhere email (toLowerCase mail) shops = Some acct ->
                  lockedFor acct now = None) ->
    (exists d',
        getDoc user (fst (handleSubmit signIn mail password now shops))
          = Some d' /\
        failedLoginAttempts d' = Some 0) /\
    (exists d1,
        getDoc user (fst (login signIn mail password now shops)) = Some d1 /\
        orZero (failedLoginAttempts d1) = 0).
Proof.
  intros signIn mail password now shops user userData Hs Hdoc Hlock.
  split; cycle 1.
  { unfold login. rewrite Hs, Hdoc.
    destruct (Z.eqb_spec (orZero (failedLoginAttempts userData)) 0) as [E|E];
      cbn [negb fst]; rewrite getDoc_updateDoc, Hdoc; cbn [option_map];
      (eexists; split; [reflexivity|]);
      unfold patched; apply find_some in Hdoc; destruct Hdoc as [_ ->];
      [exact E|reflexivity]. }
  unfold handleSubmit.
  assert (match firstWhere email (toLowerCase mail) shops with
          | Some userData0 => lockedFor userData0 now
          | None => None
          end = None) as ->.
  { destruct (firstWhere email (toLowerCase mail) shops) as [acct|] eqn:E;
      [apply Hlock; reflexivity|reflexivity]. }
  unfold login. rewrite Hs, Hdoc.
  destruct (negb (orZero (failedLoginAttempts userData) =? 0));
    rewrite getDoc_updateDoc, Hdoc; cbn [option_map];
    repeat match goal with
           | |- context [if ?c then _ else _] => destruct c
           end;
    cbn [fst]; eapply getDoc_reset;
    rewrite getDoc_updateDoc, Hdoc; reflexivity.
Qed.

Lemma successful_login_resets_failed_attempts_witness :
  (exists d',
      getDoc "u1"
        (fst (handleSubmit Sample.service "ali@shop.pk" "secret" 5000
                           [Sample.listed (Some 3)]))
        = Some d' /\
      failedLoginAttempts d' = Some 0) /\
  (exists d1,
      getDoc "u1"
        (fst (login Sample.service "ali@shop.pk" "secret" 5000
                    [Sample.listed (Some 3)])) = Some d1 /\
      orZero (failedLoginAttempts d1) = 0).
Proof.
  apply (successful_login_resets_failed_attempts
           Sample.service "ali@shop.pk" "secret" 5000
           [Sample.listed (Some 3)] "u1" (Sample.listed (Some 3))).
  - reflexivity.
  - reflexivity.
  - intros acct H. vm_compute in H. inversion H; subst. reflexivity.
Defined.

Section LoginTracker.

(** An account that only the login page tracks: the page finds its document
    under the lower-cased address, and [AuthContext.login] finds none under
    the address as typed.  The credentials are wrong. *)
Variables (signIn : string -> string -> AuthResult) (mail password : string).
Variable message : string.

Hypothesis Hwrong :
  signIn mail password = AuthFailed "auth/wrong-password" message.

Lemma failed_attempt now shops acct :
  firstWhere email (toLowerCase mail) shops = Some acct ->
  firstWhere userEmail mail shops = None ->
  lockedFor acct now = None ->
  handleSubmit signIn mail password now shops =
  let failedAttempts := orZero (failedLoginAttempts acct) + 1 in
  if 5 <=? failedAttempts
  then (updateDoc (uid acct)
                  [FailedLoginAttempts failedAttempts; LockedUntil now;
                   LockDuration 15; LastFailedLoginAt now] shops,
        TooManyAttempts)
  else (updateDoc (uid acct)
                  [FailedLoginAttempts failedAttempts; LastFailedLoginAt now]
                  shops,
        InvalidWithRemaining (5 - failedAttempts)).
Proof.
  intros He Hu Hl. unfold handleSubmit. rewrite He, Hl.
  unfold login. rewrite Hwrong, Hu.
  assert ((if (("auth/wrong-password" =? "auth/wrong-password")%string
               && truthy_str mail)%bool
           then (shops, @inl LoginError string
                          (FirebaseError "auth/wrong-password" message))
           else (shops, inl (FirebaseError "auth/wrong-password" message)))
          = (shops, inl (FirebaseError "auth/wrong-password" message))) as ->
    by (destruct (_ && _)%bool; reflexivity).
  unfold handleFailure. cbn [error_code strict_eq_opt_str].
  rewrite String.eqb_refl. cbn [orb]. rewrite He. reflexivity.
Qed.

(** The fields of the account after a submit below the threshold. *)
Lemma failed_attempt_below now shops acct :
  firstWhere email (toLowerCase mail) shops = Some acct ->
  firstWhere userEmail mail shops = None ->
  lockedFor acct now = None ->
  orZero (failedLoginAttempts acct) + 1 < 5 ->
  exists acct',
    firstWhere email (toLowerCase mail)
      (fst (handleSubmit signIn mail password now shops)) = Some acct' /\
    firstWhere userEmail mail
      (fst (handleSubmit signIn mail password now shops)) = None /\
    failedLoginAttempts acct' = Some (orZero (failedLoginAttempts acct) + 1) /\
    lockedUntil acct' = lockedUntil acct /\
    lockDuration acct' = lockDuration acct /\
    accountStatus acct' = accountStatus acct.
Proof.
  intros He Hu Hl Hlt. rewrite (failed_attempt now shops acct He Hu Hl).
  cbv zeta.
  destruct (Z.leb_spec 5 (orZero (failedLoginAttempts acct) + 1)) as [H|_];
    [lia|].
  cbn [fst].
  rewrite firstWhere_email_updateDoc, firstWhere_userEmail_updateDoc, He, Hu.
  cbn [option_map]. eexists. split; [reflexivity|].
  split; [reflexivity|].
  unfold patched. rewrite String.eqb_refl. repeat split; reflexivity.
Qed.

Lemma lockedFor_fields a b now :
  lockedUntil a = lockedUntil b -> lockDuration a = lockDuration b ->
  lockedFor a now = lockedFor b now.
Proof. intros H1 H2. unfold lockedFor. rewrite H1, H2. reflexivity. Qed.

(** Failures below the threshold are counted one by one and set no lock. *)
Lemma attempts_counted times : forall shops acct,
  firstWhere email (toLowerCase mail) shops = Some acct ->
  firstWhere userEmail mail shops = None ->
  (forall t, In t times -> lockedFor acct t = None) ->
  orZero (failedLoginAttempts acct) + Z.of_nat (List.length times) < 5 ->
  exists acct',
    firstWhere email (toLowerCase mail)
      (attempts signIn mail password times shops) = Some acct' /\
    firstWhere userEmail mail
      (attempts signIn mail password times shops) = None /\
    orZero (failedLoginAttempts acct')
      = orZero (failedLoginAttempts acct) + Z.of_nat (List.length times) /\
    lockedUntil acct' = lockedUntil acct /\
    lockDuration acct' = lockDuration acct /\
    accountStatus acct' = accountStatus acct.
Proof.
  induction times as [|t times IH]; intros shops acct He Hu Hl Hlt.
  - exists acct. cbn [attempts List.length Z.of_nat].
    repeat split; try assumption. lia.
  - cbn [List.length] in Hlt. rewrite Nat2Z.inj_succ in Hlt.
    destruct (failed_attempt_below t shops acct He Hu)
      as (a1 & He1 & Hu1 & Hf1 & Hlu1 & Hld1 & Hst1).
    { apply Hl. left. reflexivity. }
    { lia. }
    cbn [attempts].
    destruct (IH _ a1 He1 Hu1) as (a2 & He2 & Hu2 & Hf2 & Hlu2 & Hld2 & Hst2).
    { intros t' Ht'. rewrite (lockedFor_fields a1 acct t' Hlu1 Hld1).
      apply Hl. right. exact Ht'. }
    { rewrite Hf1. cbn [orZero]. lia. }
    exists a2. rewrite Hf1 in Hf2. cbn [orZero] in Hf2.
    cbn [List.length]. rewrite Nat2Z.inj_succ.
    repeat split; try assumption; try congruence. lia.
Qed.

End LoginTracker.

(** For an account as [registerShop] creates it the claim fails: the fifth
    failure is counted by [AuthContext.login], which marks the account
    'locked' and records no expiry. *)
Lemma registered_account_gets_no_expiry :
  ~ (forall signIn mail password message now shops acct,
        wf_shops shops ->
        In acct shops ->
        userEmail acct = Some mail ->
        accountStatus acct = Some "active" ->
        failedLoginAttempts acct = Some 4 ->
        signIn mail password = AuthFailed "auth/wrong-password" message ->
        exists acct',
          getDoc (uid acct)
                 (fst (handleSubmit signIn mail password now shops))
            = Some acct' /\
          lockExpiry acct' = Some (now + 15 * 60000)).
Proof.
  intros H.
  destruct (H Sample.service "ali@shop.pk" "guess"
              "Firebase: Error (auth/wrong-password)." 5000
              [Sample.registered (Some 4)] (Sample.registered (Some 4)))
    as (acct' & Hget & Hexp); try reflexivity.
  - unfold wf_shops. simpl. constructor; [simpl; tauto|constructor].
  - left. reflexivity.
  - vm_compute in Hget. inversion Hget; subst acct'. discriminate.
Qed.

(** What happens to that account instead: it is marked 'locked' for good,
    and a sixth attempt is let through and counted. *)
Example registered_account_is_locked_without_expiry :
  let shops5 :=
    fst (handleSubmit Sample.service "ali@shop.pk" "guess" 5000
                      [Sample.registered (Some 4)]) in
  shops5 =
    [mkShop "u1" None (Some "ali@shop.pk") (Some 5) None None
            (Some "locked") None (Some 5000) None (Some 5000)] /\
  handleSubmit Sample.service "ali@shop.pk" "guess" 6000 shops5 =
    ([mkShop "u1" None (Some "ali@shop.pk") (Some 6) None None
             (Some "locked") None (Some 6000) None (Some 6000)],
     FailedToSignIn accountLockedMessage).
Proof. split; reflexivity. Qed.

(** When both lookups find the document, every failed attempt is counted
    twice, and the third one makes [AuthContext.login] mark the account
    'locked', again without an expiry. *)
Example doubly_tracked_account_is_locked_at_third_attempt :
  attempts Sample.service "ali@shop.pk" "guess" [1000; 2000]
           [Sample.listed_twice None]
    = [mkShop "u1" (Some "ali@shop.pk") (Some "ali@shop.pk") (Some 4) None
              None (Some "active") None None None (Some 2000)] /\
  handleSubmit Sample.service "ali@shop.pk" "guess" 3000
    (attempts Sample.service "ali@shop.pk" "guess" [1000; 2000]
              [Sample.listed_twice None])
    = ([mkShop "u1" (Some "ali@shop.pk") (Some "ali@shop.pk") (Some 5) None
               None (Some "locked") None (Some 3000) None (Some 3000)],
       FailedToSignIn accountLockedMessage).
Proof. split; reflexivity. Qed.

End Lockout.

Module Builtins.

Example parseFloat_examples :
  JS.parseFloat "12.50" = JS.Fin (25 # 2) /\
  JS.parseFloat "  -.5kg" = JS.Fin (-1 # 2) /\
  JS.parseFloat "5." = JS.Fin 5 /\
  JS.parseFloat "1e3" = JS.Fin 1000 /\
  JS.parseFloat "25e-1" = JS.Fin (5 # 2) /\
  JS.parseFloat "1e" = JS.Fin 1 /\
  JS.parseFloat "" = JS.NaN /\
  JS.parseFloat "abc" = JS.NaN /\
  JS.parseFloat "." = JS.NaN /\
  JS.parseFloat "-Infinity" = JS.Inf true /\
  JS.parseFloat "1.2.3" = JS.parseFloat "1.2" /\
  JS.parseFloat "0.1" = JS.Fin (3602879701896397 # 36028797018963968) /\
  JS.parseFloat "9007199254740993" = JS.Fin 9007199254740992 /\
  JS.parseFloat "1e309" = JS.Inf false /\
  JS.parseFloat "-1e309" = JS.Inf true /\
  JS.parseFloat "5e-324" = JS.Fin (JS.pow2 (-1074)) /\
  JS.parseFloat "3e-324" = JS.Fin (JS.pow2 (-1074)) /\
  JS.parseFloat "2e-324" = JS.Fin 0.
Proof. repeat split; vm_compute; reflexivity. Qed.

Example arithmetic_examples :
  JS.toFixed 17 (JS.add (JS.parseFloat "0.1") (JS.parseFloat "0.2"))
    = "0.30000000000000004" /\
  JS.toFixed 16 (JS.sub (JS.parseFloat "0.9") (JS.parseFloat "0.2"))
    = "0.7000000000000000" /\
  JS.toFixed 3 (JS.mul (JS.parseFloat "1.15") (JS.parseFloat "0.5"))
    = "0.575" /\
  JS.add (JS.Fin 9007199254740992) (JS.Fin 1) = JS.Fin 9007199254740992 /\
  JS.mul (JS.parseFloat "1e200") (JS.parseFloat "1e200") = JS.Inf false /\
  JS.sub (JS.Fin 10) (JS.Fin 1) = JS.Fin 9.
Proof. repeat split; vm_compute; reflexivity. Qed.

Example toFixed_examples :
  JS.toFixed 2 (JS.Fin (-5)) = "-5.00" /\
  JS.toFixed 2 (JS.parseFloat "19.99") = "19.99" /\
  JS.toFixed 2 (JS.Fin (1 # 8)) = "0.13" /\
  JS.toFixed 2 (JS.parseFloat "1.005") = "1.00" /\
  JS.toFixed 2 (JS.parseFloat "-0.001") = "-0.00" /\
  JS.toFixed 2 (JS.Fin 1234) = "1234.00" /\
  JS.toFixed 20 (JS.parseFloat "0.1") = "0.10000000000000000555" /\
  JS.toFixed 0 (JS.Fin (5 # 2)) = "3" /\
  JS.toFixed 2 (JS.parseFloat "123456789012345680000")
    = "123456789012345683968.00" /\
  JS.toFixed 2 (JS.parseFloat "1e21") = "1e+21" /\
  JS.toFixed 2 (JS.parseFloat "-1.5e21") = "-1.5e+21" /\
  JS.toFixed 2 (JS.Fin (inject_Z (2 ^ 70))) = "1.1805916207174113e+21" /\
  JS.toFixed 2 (JS.parseFloat "1.2345e25") = "1.2345e+25" /\
  JS.toFixed 2 (JS.Inf true) = "-Infinity" /\
  JS.toFixed 2 JS.NaN = "NaN".
Proof. repeat split; vm_compute; reflexivity. Qed.

Example toLowerCase_trim_examples :
  JS.toLowerCase "Ali@Shop.PK" = "ali@shop.pk" /\
  JS.trim "  Ali  " = "Ali" /\
  JS.trim "   " = "".
Proof. repeat split; reflexivity. Qed.

End Builtins.

(* ================================================================== *)
(** * Further properties of the stock reconciler *)
(* ================================================================== *)

Module StockMore.

Import JS Stock Notions StockFacts Reconciler.

Lemma Forall2_map_self {A} (R : A -> A -> Prop) (g : A -> A) l :
  (forall x, R (g x) x) -> Forall2 R (map g l) l.
Proof.
  intros H. induction l as [|x l IH]; simpl; constructor; auto.
Qed.

Lemma applyUpdates_same now us stock :
  Forall2 same_item (applyUpdates now us stock) stock.
Proof.
  rewrite applyUpdates_map. apply Forall2_map_self.
  intros x. apply fold_written_same.
Qed.

(** X1. The reconciler never adds, removes or reorders stock documents:
    after [updateStockQuantity] and after [restoreStockQuantity] the
    collection holds the same documents in the same order, and each agrees
    with what it was in every field but the quantity and the time of the
    last write. *)
Theorem reconciler_keeps_the_documents :
  forall shop now stock (sold : list SoldItem) (restored : list ReceiptItem),
    Forall2 same_item (updateStockQuantity shop sold now stock) stock /\
    Forall2 same_item (restoreStockQuantity shop restored now stock) stock.
Proof.
  intros. rewrite updateStockQuantity_updates, restoreStockQuantity_updates.
  split; apply applyUpdates_same.
Qed.

Lemma shopStock_shop shop stock s :
  In s (shopStock shop stock) -> shopId s = shop.
Proof.
  unfold shopStock. intros H. apply filter_In in H.
  destruct H as [_ H]. apply String.eqb_eq in H. exact H.
Qed.

(** X2. With unique document ids, a stock document of another shop is read
    back unchanged in every field after [updateStockQuantity] and after
    [restoreStockQuantity], even when it bears the name of a line. *)
Theorem other_shops_stock_untouched :
  forall shop now stock d (sold : list SoldItem) (restored : list ReceiptItem),
    wf_stock stock -> In d stock -> shopId d <> shop ->
    getStockItemById (id d) (updateStockQuantity shop sold now stock) = Some d /\
    getStockItemById (id d) (restoreStockQuantity shop restored now stock)
      = Some d.
Proof.
  intros shop now stock d sold restored Hwf Hin Hshop.
  rewrite updateStockQuantity_updates, restoreStockQuantity_updates.
  split; apply untouched_lookup; auto; apply forallb_forall; intros u Hu;
    apply in_map_iff in Hu; destruct Hu as [x [Hx _]];
    (destruct u as [[i v]|]; [|reflexivity]); simpl;
    (destruct (String.eqb (id d) i) eqn:E; [|reflexivity]);
    apply String.eqb_eq in E; exfalso.
  - destruct (saveUpdate_target _ _ _ _ Hx) as [s [Hs [_ Hi]]].
    pose proof (shopStock_shop _ _ _ Hs) as Hsh. apply shopStock_In in Hs.
    assert (s = d) by (apply (wf_stock_inj stock Hwf); congruence).
    subst s. contradiction.
  - destruct (restoreUpdate_target _ _ _ _ Hx) as [s [Hs [_ Hi]]].
    pose proof (shopStock_shop _ _ _ Hs) as Hsh. apply shopStock_In in Hs.
    assert (s = d) by (apply (wf_stock_inj stock Hwf); congruence).
    subst s. contradiction.
Qed.

Lemma other_shops_stock_untouched_witness :
  getStockItemById "s9"
    (updateStockQuantity "shop1" [mkSold "Apple" (Fin 2) (Some "units")] 1
       [Sample.apple 10;
        mkStock "s9" "shop2" "Apple" "Fruit" (Fin 12) (Fin 4) (Some "units") 0])
    = Some (mkStock "s9" "shop2" "Apple" "Fruit" (Fin 12) (Fin 4)
                    (Some "units") 0) /\
  getStockItemById "s9"
    (restoreStockQuantity "shop1" [mkItem "Apple" "10" "2" (Some "units")] 1
       [Sample.apple 10;
        mkStock "s9" "shop2" "Apple" "Fruit" (Fin 12) (Fin 4) (Some "units") 0])
    = Some (mkStock "s9" "shop2" "Apple" "Fruit" (Fin 12) (Fin 4)
                    (Some "units") 0).
Proof.
  apply (other_shops_stock_untouched
           "shop1" 1
           [Sample.apple 10;
            mkStock "s9" "shop2" "Apple" "Fruit" (Fin 12) (Fin 4)
                    (Some "units") 0]
           (mkStock "s9" "shop2" "Apple" "Fruit" (Fin 12) (Fin 4)
                    (Some "units") 0)
           [mkSold "Apple" (Fin 2) (Some "units")]
           [mkItem "Apple" "10" "2" (Some "units")]).
  - unfold wf_stock. simpl.
    repeat constructor; simpl; intuition discriminate.
  - right. left. reflexivity.
  - discriminate.
Defined.

Lemma applyUpdates_nothing now us : forall stock,
  (forall u, In u us -> u = None) -> applyUpdates now us stock = stock.
Proof.
  unfold applyUpdates. induction us as [|u us IH]; intros stock H; simpl.
  - reflexivity.
  - rewrite (H u (or_introl eq_refl)). apply IH.
    intros v Hv. apply H. right. exact Hv.
Qed.

(** X3. A receipt none of whose lines bears the name of a stock item of the
    shop writes nothing at all, on save and on delete: the stock collection
    is returned as it was, and no stock document is created for the unknown
    names. *)
Theorem unknown_names_write_nothing :
  forall shop now stock (sold : list SoldItem) (restored : list ReceiptItem),
    (forall x, In x sold ->
               findByName (sold_name x) (shopStock shop stock) = None) ->
    (forall x, In x restored ->
               findByName (item_name x) (shopStock shop stock) = None) ->
    updateStockQuantity shop sold now stock = stock /\
    restoreStockQuantity shop restored now stock = stock.
Proof.
  intros shop now stock sold restored Hs Hr.
  rewrite updateStockQuantity_updates, restoreStockQuantity_updates.
  split; apply applyUpdates_nothing; intros u Hu;
    apply in_map_iff in Hu; destruct Hu as [x [<- Hx]].
  - unfold saveUpdate. rewrite (Hs x Hx). reflexivity.
  - unfold restoreUpdate. rewrite (Hr x Hx). reflexivity.
Qed.

Lemma unknown_names_write_nothing_witness :
  updateStockQuantity "shop1" [mkSold "Mango" (Fin 2) (Some "units")] 1
                      [Sample.apple 10; Sample.rice]
    = [Sample.apple 10; Sample.rice] /\
  restoreStockQuantity "shop1" [mkItem "Mango" "10" "2" (Some "units")] 1
                       [Sample.apple 10; Sample.rice]
    = [Sample.apple 10; Sample.rice].
Proof.
  apply (unknown_names_write_nothing
           "shop1" 1 [Sample.apple 10; Sample.rice]
           [mkSold "Mango" (Fin 2) (Some "units")]
           [mkItem "Mango" "10" "2" (Some "units")]).
  - intros x [<-|[]]. reflexivity.
  - intros x [<-|[]]. reflexivity.
Defined.

(** The document after a sequence of writes, in closed form. *)
Lemma fold_written_form now us : forall d,
  fold_left (written now) us d =
  if existsb (addressed (id d)) us
  then mkStock (id d) (shopId d) (name d) (category d) (price d)
               (lastWrite (id d) us (quantity d)) (quantityUnit d) now
  else d.
Proof.
  unfold lastWrite.
  induction us as [|u us IH]; intros d; [reflexivity|].
  cbn [fold_left existsb]. rewrite IH.
  destruct u as [[i v]|]; cbn [written addressed]; [|reflexivity].
  destruct (String.eqb (id d) i) eqn:E; cbn [orb id shopId name category
    price quantity quantityUnit]; [|reflexivity].
  destruct (existsb (addressed (id d)) us) eqn:Ex; [reflexivity|].
  f_equal. symmetry.
  apply (lastWrite_untouched (id d) us v).
  apply forallb_forall. intros w Hw.
  destruct (addressed (id d) w) eqn:Ew; [|reflexivity].
  assert (existsb (addressed (id d)) us = true)
    by (apply existsb_exists; exists w; auto).
  congruence.
Qed.

Lemma lastWrite_overwritten i us : forall q1 q2,
  existsb (addressed i) us = true ->
  lastWrite i us q1 = lastWrite i us q2.
Proof.
  unfold lastWrite.
  induction us as [|u us IH]; intros q1 q2 H; [discriminate|].
  cbn [fold_left existsb] in *.
  destruct u as [[j v]|]; cbn [addressed] in H.
  - destruct (String.eqb i j); [reflexivity|]. apply IH, H.
  - apply IH, H.
Qed.

(** An earlier write is lost once a later one addresses the same document. *)
Lemma applyUpdates_overwritten now (us vs : list update) i v1 v2 stock :
  In (Some (i, v2)) vs ->
  applyUpdates now (us ++ Some (i, v1) :: vs) stock =
  applyUpdates now (us ++ vs) stock.
Proof.
  intros Hin. rewrite !applyUpdates_map. apply map_ext. intros d.
  rewrite !fold_written_form, !existsb_app, !lastWrite_app.
  cbn [existsb addressed].
  assert (existsb (addressed i) vs = true) as Hex.
  { apply existsb_exists. exists (Some (i, v2)). split; [exact Hin|].
    apply String.eqb_refl. }
  destruct (String.eqb (id d) i) eqn:E.
  - apply String.eqb_eq in E. subst i. rewrite Hex.
    rewrite !orb_true_r. f_equal.
    unfold lastWrite at 1. cbn [fold_left]. rewrite String.eqb_refl.
    apply lastWrite_overwritten, Hex.
  - cbn [orb]. unfold lastWrite. cbn [fold_left]. rewrite E.
    reflexivity.
Qed.

(** X4. Decrements of one receipt do not add up.  Every line reads the
    quantity of the snapshot taken before any write, so a line is without
    effect as soon as a later line of the receipt bears the same name and
    is written: the receipt has exactly the effect of the receipt without
    the earlier line. *)
Theorem earlier_line_of_same_name_is_lost :
  forall shop now stock pre earlier post later,
    In later post ->
    sold_name later = sold_name earlier ->
    (forall s, findByName (sold_name later) (shopStock shop stock) = Some s ->
               compatible (sold_quantityUnit later) (quantityUnit s) = true) ->
    updateStockQuantity shop (pre ++ earlier :: post) now stock =
    updateStockQuantity shop (pre ++ post) now stock.
Proof.
  intros shop now stock pre earlier post later Hin Hname Hc.
  rewrite !updateStockQuantity_updates, !map_app. cbn [map].
  destruct (saveUpdate (shopStock shop stock) earlier) as [[i v1]|] eqn:E1;
    [|apply applyUpdates_skip].
  unfold saveUpdate in E1.
  destruct (findByName (sold_name earlier) (shopStock shop stock))
    as [s|] eqn:Es; [|discriminate].
  destruct (compatible _ _); [|discriminate].
  inversion E1; subst i v1; clear E1.
  apply (applyUpdates_overwritten now _ _ (id s) _
           (Math_max (Fin 0) (sub (quantity s) (sold_quantity later)))).
  apply in_map_iff. exists later. split; [|exact Hin].
  unfold saveUpdate. rewrite Hname, Es. rewrite Hname in Hc.
  rewrite (Hc s Es). reflexivity.
Qed.

Lemma earlier_line_of_same_name_is_lost_witness :
  updateStockQuantity "shop1"
    [mkSold "Apple" (Fin 4) (Some "units");
     mkSold "Apple" (Fin 1) (Some "units")] 1 [Sample.apple 10]
  = updateStockQuantity "shop1" [mkSold "Apple" (Fin 1) (Some "units")] 1
                        [Sample.apple 10] /\
  updateStockQuantity "shop1"
    [mkSold "Apple" (Fin 4) (Some "units");
     mkSold "Apple" (Fin 1) (Some "units")] 1 [Sample.apple 10]
  = [mkStock "s1" "shop1" "Apple" "Fruit" (Fin 10) (Fin 9) (Some "units") 1].
Proof.
  split; [|reflexivity].
  apply (earlier_line_of_same_name_is_lost
           "shop1" 1 [Sample.apple 10] []
           (mkSold "Apple" (Fin 4) (Some "units"))
           [mkSold "Apple" (Fin 1) (Some "units")]
           (mkSold "Apple" (Fin 1) (Some "units"))).
  - left. reflexivity.
  - reflexivity.
  - intros s Hs. vm_compute in Hs. inversion Hs; subst s. reflexivity.
Defined.

(** X5. With unique document ids, when a receipt item finds the stock item
    [s] under its name with a compatible unit and no later item of the
    receipt bears that name, the quantity stored for [s] after
    [restoreStockQuantity] is [s.quantity + parseFloat(item.quantity)]:
    the delete adds the full quantity of the line, whatever the save had
    taken. *)
Theorem restore_adds_line_quantity :
  forall shop now stock pre item post s,
    wf_stock stock ->
    findByName (item_name item) (shopStock shop stock) = Some s ->
    compatible (item_quantityUnit item) (quantityUnit s) = true ->
    (forall x, In x post -> item_name x <> item_name item) ->
    exists d,
      getStockItemById (id s)
        (restoreStockQuantity shop (pre ++ item :: post) now stock) = Some d /\
      quantity d = add (quantity s) (parseFloat (item_quantity item)) /\
      updatedAt d = now.
Proof.
  intros shop now stock pre item post s Hwf Hs Hc Hpost.
  destruct (findByName_In _ _ _ Hs) as [Hin Hname].
  apply shopStock_In in Hin.
  rewrite restoreStockQuantity_updates, getStockItemById_applyUpdates.
  rewrite (In_getStockItemById stock s Hwf Hin). cbn [option_map].
  eexists. split; [reflexivity|].
  rewrite fold_written_form, map_app, existsb_app, lastWrite_app.
  cbn [map existsb].
  assert (restoreUpdate (shopStock shop stock) item =
          Some (id s, add (quantity s) (parseFloat (item_quantity item))))
    as Hline.
  { unfold restoreUpdate. rewrite Hs, Hc. reflexivity. }
  rewrite Hline. cbn [addressed]. rewrite String.eqb_refl.
  rewrite orb_true_r. cbn [quantity updatedAt].
  split; [|reflexivity].
  unfold lastWrite at 1. cbn [fold_left]. rewrite String.eqb_refl.
  apply lastWrite_untouched.
  apply restoreUpdates_elsewhere; try assumption.
  intros x Hx. rewrite Hname. apply Hpost, Hx.
Qed.

Lemma restore_adds_line_quantity_witness :
  exists d,
    getStockItemById "s1"
      (restoreStockQuantity "shop1" [mkItem "Apple" "10" "5" (Some "units")] 2
                            [Sample.apple 0; Sample.rice]) = Some d /\
    quantity d = add (Fin 0) (parseFloat "5") /\
    updatedAt d = 2.
Proof.
  apply (restore_adds_line_quantity
           "shop1" 2 [Sample.apple 0; Sample.rice] []
           (mkItem "Apple" "10" "5" (Some "units")) [] (Sample.apple 0)).
  - unfold wf_stock. simpl.
    repeat constructor; simpl; intuition discriminate.
  - reflexivity.
  - reflexivity.
  - intros x [].
Defined.

End StockMore.

(* ================================================================== *)
(** * Further properties of the receipt and stock stores *)
(* ================================================================== *)

Module Stores.

Import JS Stock Receipts Notions StockFacts.

Lemma find_app_some {A} (p : A -> bool) l l' x :
  find p l = Some x -> find p (l ++ l') = Some x.
Proof.
  induction l as [|y l IH]; simpl; [discriminate|].
  destruct (p y); auto.
Qed.

(** X6. A receipt saved under a fresh id is read back by that id with the
    data it was given and the time of the save, and every receipt that
    could be read before is still read back unchanged. *)
Theorem saved_receipt_is_read_back :
  forall receiptData newId now rs,
    getReceiptById newId rs = None ->
    snd (saveReceipt receiptData newId now rs) = newId /\
    getReceiptById newId (fst (saveReceipt receiptData newId now rs))
      = Some (mkReceipt newId (data_shopId receiptData)
                        (data_transactionId receiptData)
                        (data_items receiptData)
                        (data_totalAmount receiptData)
                        (data_discount receiptData) now) /\
    (forall i r, getReceiptById i rs = Some r ->
                 getReceiptById i (fst (saveReceipt receiptData newId now rs))
                   = Some r).
Proof.
  intros receiptData newId now rs Hfresh. unfold saveReceipt. cbn [fst snd].
  split; [reflexivity|]. split.
  - unfold getReceiptById.
    apply SaveDelete.find_last; [exact Hfresh|apply String.eqb_refl].
  - intros i r H. unfold getReceiptById. apply find_app_some, H.
Qed.

Lemma saved_receipt_is_read_back_witness :
  getReceiptById "r2"
    (fst (saveReceipt (mkData "shop1" "T2" [Sample.pen] (VStr "10.00") (Fin 0))
                      "r2" 7
                      [mkReceipt "r1" "shop1" "T1" [Sample.ink] (VStr "7.50")
                                 (Fin 0) 3]))
    = Some (mkReceipt "r2" "shop1" "T2" [Sample.pen] (VStr "10.00") (Fin 0) 7).
Proof.
  apply (proj1 (proj2 (saved_receipt_is_read_back
           (mkData "shop1" "T2" [Sample.pen] (VStr "10.00") (Fin 0)) "r2" 7
           [mkReceipt "r1" "shop1" "T1" [Sample.ink] (VStr "7.50") (Fin 0) 3]
           eq_refl))).
Defined.

Lemma getReceiptById_deleteDoc j i rs :
  getReceiptById j (deleteDoc i rs) =
  if String.eqb j i then None else getReceiptById j rs.
Proof.
  unfold getReceiptById, deleteDoc.
  induction rs as [|r rs IH]; simpl.
  - destruct (String.eqb j i); reflexivity.
  - destruct (String.eqb (receipt_id r) i) eqn:Ei; simpl.
    + rewrite IH. destruct (String.eqb j i) eqn:Ej; [reflexivity|].
      destruct (String.eqb (receipt_id r) j) eqn:Er; [|reflexivity].
      apply String.eqb_eq in Ei, Er. subst.
      rewrite String.eqb_refl in Ej. discriminate.
    + destruct (String.eqb (receipt_id r) j) eqn:Er.
      * apply String.eqb_eq in Er. subst j.
        rewrite Ei. reflexivity.
      * exact IH.
Qed.

Lemma deleteReceipt_receipts receiptId now db db' :
  deleteReceipt receiptId now db = Some db' ->
  receipts db' = deleteDoc receiptId (receipts db).
Proof.
  unfold deleteReceipt.
  destruct (getReceiptById receiptId (receipts db)) as [r|]; [|discriminate].
  destruct (items r); intros H; inversion H; reflexivity.
Qed.

(** X7. After a successful [deleteReceipt] the receipt can no longer be
    read, every other receipt is read back as before, and deleting the same
    receipt again fails with 'Receipt not found'.  The delete fails exactly
    when the receipt does not exist. *)
Theorem deleted_receipt_is_gone :
  (forall receiptId now db db',
      deleteReceipt receiptId now db = Some db' ->
      getReceiptById receiptId (receipts db') = None /\
      (forall j, j <> receiptId ->
                 getReceiptById j (receipts db')
                   = getReceiptById j (receipts db)) /\
      (forall now', deleteReceipt receiptId now' db' = None)) /\
  (forall receiptId now db,
      deleteReceipt receiptId now db = None <->
      getReceiptById receiptId (receipts db) = None).
Proof.
  split.
  - intros receiptId now db db' H.
    pose proof (deleteReceipt_receipts _ _ _ _ H) as Hrs.
    assert (getReceiptById receiptId (receipts db') = None) as Hgone.
    { rewrite Hrs, getReceiptById_deleteDoc, String.eqb_refl. reflexivity. }
    split; [exact Hgone|]. split.
    + intros j Hj. rewrite Hrs, getReceiptById_deleteDoc.
      destruct (String.eqb_spec j receiptId); [contradiction|reflexivity].
    + intros now'. unfold deleteReceipt. rewrite Hgone. reflexivity.
  - intros receiptId now db. unfold deleteReceipt.
    destruct (getReceiptById receiptId (receipts db)) as [r|].
    + destruct (items r); split; discriminate.
    + split; reflexivity.
Qed.

Lemma deleted_receipt_is_gone_witness :
  getReceiptById "r1" (receipts (mkDb [] [Sample.apple 3])) = None /\
  (forall j, j <> "r1" ->
             getReceiptById j (receipts (mkDb [] [Sample.apple 3]))
             = getReceiptById j
                 (receipts
                    (mkDb [mkReceipt "r1" "shop1" "T1" [Sample.pen]
                                     (VStr "10.00") (Fin 0) 3]
                          [Sample.apple 3]))) /\
  (forall now', deleteReceipt "r1" now' (mkDb [] [Sample.apple 3]) = None).
Proof.
  apply (proj1 deleted_receipt_is_gone "r1" 9
           (mkDb [mkReceipt "r1" "shop1" "T1" [Sample.pen] (VStr "10.00")
                            (Fin 0) 3]
                 [Sample.apple 3])
           (mkDb [] [Sample.apple 3])).
  reflexivity.
Defined.

End Stores.

Module Pages.

Import JS Stock Receipts Notions StockFacts ReceiptPages.

Lemma filter_filter_comm {A} (p q : A -> bool) l :
  filter p (filter q l) = filter q (filter p l).
Proof.
  induction l as [|x l IH]; simpl; [reflexivity|].
  destruct (p x) eqn:Ep, (q x) eqn:Eq; simpl;
    rewrite ?Ep, ?Eq, IH; reflexivity.
Qed.

(** X8. The list of receipts the page holds stays in step with the store:
    when the page shows the receipts of the shop, it still shows exactly
    the receipts of the shop after [handleDeleteReceipt], whether the
    delete went through, failed because the receipt was already gone, or
    no receipt was picked. *)
Theorem receipt_list_stays_in_step :
  forall uid receiptToDelete now db,
    snd (handleDeleteReceipt receiptToDelete now db
                             (fetchReceipts uid (receipts db)))
    = fetchReceipts uid
        (receipts (fst (handleDeleteReceipt receiptToDelete now db
                          (fetchReceipts uid (receipts db))))).
Proof.
  intros uid receiptToDelete now db. unfold handleDeleteReceipt.
  destruct receiptToDelete as [picked|]; [|reflexivity].
  destruct (deleteReceipt (receipt_id picked) now db) as [db'|] eqn:E;
    [|reflexivity].
  cbn [fst snd]. rewrite (Stores.deleteReceipt_receipts _ _ _ _ E).
  unfold fetchReceipts, deleteDoc. apply filter_filter_comm.
Qed.

(** X9. A receipt is shown only to the shop it belongs to.  A receipt that
    [handleSubmit] has just saved under a fresh, non-empty id is shown to the
    user who saved it, with the items of the form, and a user of any other
    shop gets the permission error instead. *)
Theorem saved_receipt_is_shown_to_its_shop_only :
  forall page newId now db db1 receiptId,
    getReceiptById newId (receipts db) = None ->
    truthy_str newId = true ->
    NewReceipt.handleSubmit page newId now db = (db1, inr receiptId) ->
    (exists r,
        fetchReceipt (Some (NewReceipt.currentUser page)) receiptId
                     (receipts db1) = Showing r /\
        items r = NewReceipt.items page) /\
    (forall other,
        other <> NewReceipt.currentUser page ->
        fetchReceipt (Some other) receiptId (receipts db1)
        = LoadFailed
            "Failed to load receipt: You do not have permission to view this receipt").
Proof.
  intros page newId now db db1 receiptId Hfresh Hid Hsub.
  destruct (SaveDelete.handleSubmit_saved _ _ _ _ _ _ Hsub)
    as (-> & _ & r & Hrs & Hrid & Hshop & Hitems).
  assert (getReceiptById newId (receipts db1) = Some r) as Hget.
  { rewrite Hrs. unfold getReceiptById.
    apply SaveDelete.find_last; [exact Hfresh|].
    rewrite Hrid. apply String.eqb_refl. }
  split.
  - exists r. split; [|exact Hitems].
    unfold fetchReceipt. rewrite Hid, Hget, Hshop, String.eqb_refl.
    reflexivity.
  - intros other Hother. unfold fetchReceipt. rewrite Hid, Hget, Hshop.
    destruct (String.eqb_spec (NewReceipt.currentUser page) other) as [E|_];
      [symmetry in E; contradiction|reflexivity].
Qed.

Lemma saved_receipt_is_shown_to_its_shop_only_witness :
  (exists r,
      fetchReceipt (Some "shop1") "r1"
        (receipts
           (fst (NewReceipt.handleSubmit
                   (Sample.form "Apple" "5" (Some "units") [Sample.apple 7] true)
                   "r1" 1 (mkDb [] [Sample.apple 7]))))
      = Showing r /\
      items r = [mkItem "Apple" "10" "5" (Some "units")]) /\
  (forall other,
      other <> "shop1" ->
      fetchReceipt (Some other) "r1"
        (receipts
           (fst (NewReceipt.handleSubmit
                   (Sample.form "Apple" "5" (Some "units") [Sample.apple 7] true)
                   "r1" 1 (mkDb [] [Sample.apple 7]))))
      = LoadFailed
          "Failed to load receipt: You do not have permission to view this receipt").
Proof.
  apply (saved_receipt_is_shown_to_its_shop_only
           (Sample.form "Apple" "5" (Some "units") [Sample.apple 7] true)
           "r1" 1 (mkDb [] [Sample.apple 7])
           (fst (NewReceipt.handleSubmit
                   (Sample.form "Apple" "5" (Some "units") [Sample.apple 7] true)
                   "r1" 1 (mkDb [] [Sample.apple 7])))
           "r1"); reflexivity.
Defined.

End Pages.

Module Inventory.

Import JS Stock Notions StockFacts StockAdmin.

Lemma getStockItemById_deleteStockItem j i stock :
  getStockItemById j (deleteStockItem i stock) =
  if String.eqb j i then None else getStockItemById j stock.
Proof.
  unfold getStockItemById, deleteStockItem.
  induction stock as [|d stock IH]; simpl.
  - destruct (String.eqb j i); reflexivity.
  - destruct (String.eqb (id d) i) eqn:Ei; simpl.
    + rewrite IH. destruct (String.eqb j i) eqn:Ej; [reflexivity|].
      destruct (String.eqb (id d) j) eqn:Er; [|reflexivity].
      apply String.eqb_eq in Ei, Er. subst.
      rewrite String.eqb_refl in Ej. discriminate.
    + destruct (String.eqb (id d) j) eqn:Er.
      * apply String.eqb_eq in Er. subst j. rewrite Ei. reflexivity.
      * exact IH.
Qed.

(** X10. Without a shop id nothing is added and nothing is listed.  With
    one, an item added under a fresh id is read back by that id with the
    fields it was given, appears in the stock of its shop, leaves every
    item that could be read before readable and unchanged, and keeps the
    document ids unique. *)
Theorem added_stock_item_is_read_back :
  (forall itemData newId now stock,
      addStockItem "" itemData newId now stock = None /\
      getShopStock "" stock = []) /\
  (forall shop itemData newId now stock,
      truthy_str shop = true ->
      getStockItemById newId stock = None ->
      exists stock',
        addStockItem shop itemData newId now stock = Some (stock', newId) /\
        getStockItemById newId stock'
          = Some (mkStock newId shop (new_name itemData)
                          (new_category itemData) (new_price itemData)
                          (new_quantity itemData) (new_quantityUnit itemData)
                          now) /\
        In (mkStock newId shop (new_name itemData) (new_category itemData)
                    (new_price itemData) (new_quantity itemData)
                    (new_quantityUnit itemData) now)
           (getShopStock shop stock') /\
        (forall i d, getStockItemById i stock = Some d ->
                     getStockItemById i stock' = Some d) /\
        (wf_stock stock -> wf_stock stock')).
Proof.
  split; [intros; split; reflexivity|].
  intros shop itemData newId now stock Hshop Hfresh.
  unfold addStockItem, getShopStock. rewrite Hshop. cbn [negb].
  eexists. split; [reflexivity|]. split; [|split; [|split]].
  - unfold getStockItemById.
    apply SaveDelete.find_last; [exact Hfresh|apply String.eqb_refl].
  - unfold shopStock. apply filter_In. split.
    + apply in_or_app. right. left. reflexivity.
    + apply String.eqb_refl.
  - intros i d H. unfold getStockItemById. apply Stores.find_app_some, H.
  - unfold wf_stock. intros Hwf. rewrite map_app. cbn [map id].
    apply NoDup_app.
    + exact Hwf.
    + constructor; [intros []|constructor].
    + intros x Hx [<-|[]].
      apply in_map_iff in Hx. destruct Hx as [d [Hd Hin]].
      unfold getStockItemById in Hfresh.
      apply (find_none _ _ Hfresh) in Hin.
      rewrite Hd, String.eqb_refl in Hin. discriminate.
Qed.

Lemma added_stock_item_is_read_back_witness :
  exists stock',
    addStockItem "shop1" (mkItemData "Mango" "Fruit" (Fin 30) (Fin 12)
                                     (Some "units")) "s3" 5
                 [Sample.apple 10; Sample.rice] = Some (stock', "s3") /\
    getStockItemById "s3" stock'
      = Some (mkStock "s3" "shop1" "Mango" "Fruit" (Fin 30) (Fin 12)
                      (Some "units") 5).
Proof.
  destruct (proj2 added_stock_item_is_read_back
              "shop1" (mkItemData "Mango" "Fruit" (Fin 30) (Fin 12)
                                  (Some "units")) "s3" 5
              [Sample.apple 10; Sample.rice] eq_refl eq_refl)
    as (stock' & Hadd & Hget & _).
  exists stock'. split; [exact Hadd|exact Hget].
Defined.

(** X11. A deleted stock item can no longer be read, every other item is
    read back as before, and the reconciler does not bring it back: when
    the deleted item was the only one of its name, deleting or saving a
    receipt that carries that name leaves the stock as it is. *)
Theorem deleted_stock_item_is_gone :
  forall itemId stock,
    getStockItemById itemId (deleteStockItem itemId stock) = None /\
    (forall j, j <> itemId ->
               getStockItemById j (deleteStockItem itemId stock)
               = getStockItemById j stock) /\
    (forall shop now d (item : ReceiptItem) (line : SoldItem),
        getStockItemById itemId stock = Some d ->
        (forall d', In d' stock -> name d' = name d -> id d' = itemId) ->
        item_name item = name d ->
        sold_name line = name d ->
        restoreStockQuantity shop [item] now (deleteStockItem itemId stock)
          = deleteStockItem itemId stock /\
        updateStockQuantity shop [line] now (deleteStockItem itemId stock)
          = deleteStockItem itemId stock).
Proof.
  intros itemId stock. split; [|split].
  - rewrite getStockItemById_deleteStockItem, String.eqb_refl. reflexivity.
  - intros j Hj. rewrite getStockItemById_deleteStockItem.
    destruct (String.eqb_spec j itemId); [contradiction|reflexivity].
  - intros shop now d item line Hd Honly Hi Hl.
    assert (findByName (name d)
              (shopStock shop (deleteStockItem itemId stock)) = None) as Hnone.
    { destruct (findByName (name d)
                  (shopStock shop (deleteStockItem itemId stock)))
        as [s|] eqn:E; [exfalso|reflexivity].
      apply findByName_In in E. destruct E as [Hin Hname].
      apply shopStock_In in Hin. unfold deleteStockItem in Hin.
      apply filter_In in Hin. destruct Hin as [Hin Hne].
      rewrite (Honly s Hin Hname), String.eqb_refl in Hne. discriminate. }
    rewrite updateStockQuantity_updates, restoreStockQuantity_updates.
    cbn [map]. unfold restoreUpdate, saveUpdate. rewrite Hi, Hl, Hnone.
    split; reflexivity.
Qed.

Lemma deleted_stock_item_is_gone_witness :
  restoreStockQuantity "shop1" [mkItem "Apple" "10" "5" (Some "units")] 4
    (deleteStockItem "s1" [Sample.apple 3; Sample.rice])
  = deleteStockItem "s1" [Sample.apple 3; Sample.rice] /\
  updateStockQuantity "shop1" [mkSold "Apple" (Fin 5) (Some "units")] 4
    (deleteStockItem "s1" [Sample.apple 3; Sample.rice])
  = deleteStockItem "s1" [Sample.apple 3; Sample.rice].
Proof.
  apply (proj2 (proj2 (deleted_stock_item_is_gone
                         "s1" [Sample.apple 3; Sample.rice]))
           "shop1" 4 (Sample.apple 3)).
  - reflexivity.
  - intros d' [<-|[<-|[]]]; [reflexivity|discriminate].
  - reflexivity.
  - reflexivity.
Defined.

End Inventory.

(* ================================================================== *)
(** * Further properties of the receipt form *)
(* ================================================================== *)

Module FormChecks.

Import JS Stock Receipts Notions StockFacts ReceiptForm.

Lemma flat_map_nil {A B} (f : A -> list B) l :
  flat_map f l = [] <-> forall x, In x l -> f x = [].
Proof.
  induction l as [|y l IH]; simpl.
  - split; [intros _ x []|reflexivity].
  - split.
    + intros H x [<-|Hx]; apply app_eq_nil in H; destruct H as [H1 H2];
        [exact H1|apply IH; assumption].
    + intros H. rewrite (H y (or_introl eq_refl)). simpl.
      apply IH. intros x Hx. apply H. right. exact Hx.
Qed.

Lemma validateInventory_when_loaded page :
  NewReceipt.stockLoaded page = true ->
  (NewReceipt.validateInventory page = [] <->
   forall item, In item (NewReceipt.items page) ->
     exists m,
       findIgnoringCase (item_name item) (NewReceipt.stockItems page)
         = Some m /\
       ltb (quantity m) (parseFloat (item_quantity item)) = false).
Proof.
  intros Hl. unfold NewReceipt.validateInventory. rewrite Hl. cbn [negb].
  rewrite flat_map_nil. unfold findIgnoringCase.
  split; intros H item Hin; specialize (H item Hin).
  - destruct (find _ (NewReceipt.stockItems page)) as [m|]; [|discriminate].
    exists m. split; [reflexivity|].
    destruct (ltb (quantity m) (parseFloat (item_quantity item)));
      [discriminate|reflexivity].
  - destruct H as (m & -> & ->). reflexivity.
Qed.

(** X12. [validateInventory] accepts everything while the stock is not
    loaded.  Once it is loaded, it accepts the form exactly when every line
    finds, ignoring case, a stock item whose quantity is not below the
    quantity of the line. *)
Theorem validateInventory_accepts_exactly :
  (forall page,
      NewReceipt.stockLoaded page = false ->
      NewReceipt.validateInventory page = []) /\
  (forall page,
      NewReceipt.stockLoaded page = true ->
      (NewReceipt.validateInventory page = [] <->
       forall item, In item (NewReceipt.items page) ->
         exists m,
           findIgnoringCase (item_name item) (NewReceipt.stockItems page)
             = Some m /\
           ltb (quantity m) (parseFloat (item_quantity item)) = false)).
Proof.
  split.
  - intros page Hl. unfold NewReceipt.validateInventory. rewrite Hl.
    reflexivity.
  - apply validateInventory_when_loaded.
Qed.

Lemma validateInventory_accepts_exactly_witness :
  NewReceipt.validateInventory
    (Sample.form "Apple" "5" (Some "units") [] false) = [] /\
  (NewReceipt.validateInventory
     (Sample.form "APPLE" "5" (Some "units") [Sample.apple 7] true) = [] <->
   forall item, In item [mkItem "APPLE" "10" "5" (Some "units")] ->
     exists m,
       findIgnoringCase (item_name item) [Sample.apple 7] = Some m /\
       ltb (quantity m) (parseFloat (item_quantity item)) = false).
Proof.
  split.
  - apply (proj1 validateInventory_accepts_exactly). reflexivity.
  - apply (proj2 validateInventory_accepts_exactly
             (Sample.form "APPLE" "5" (Some "units") [Sample.apple 7] true)).
    reflexivity.
Defined.

(** X13. A refused form writes nothing: whatever the error, the receipts
    and the stock are exactly what they were. *)
Theorem refused_form_writes_nothing :
  forall page newId now db db1 e,
    NewReceipt.handleSubmit page newId now db = (db1, inl e) -> db1 = db.
Proof.
  intros page newId now db db1 e H.
  destruct (Oversell.handleSubmit_cases page newId now db)
    as [[e' He]|[_ [db1' H1]]]; congruence.
Qed.

Lemma refused_form_writes_nothing_witness :
  fst (NewReceipt.handleSubmit
         (Sample.form "Apple" "0" (Some "units") [Sample.apple 7] true)
         "r1" 1 (mkDb [] [Sample.apple 7]))
  = mkDb [] [Sample.apple 7].
Proof.
  apply (refused_form_writes_nothing
           (Sample.form "Apple" "0" (Some "units") [Sample.apple 7] true)
           "r1" 1 (mkDb [] [Sample.apple 7]) _ NewReceipt.invalidQuantities).
  reflexivity.
Defined.

Lemma positive_when_not_le_0 x :
  isNaN x = false -> leb x (Fin 0) = false -> ltb (Fin 0) x = true.
Proof.
  destruct x as [|b|q]; cbn [isNaN leb ltb]; try discriminate.
  - intros _ ->. reflexivity.
  - intros _ H. unfold Qltb. rewrite H. reflexivity.
Qed.

Lemma at_least_1_when_not_lt_1 x :
  Number_isInteger x = true -> ltb x (Fin 1) = false -> leb (Fin 1) x = true.
Proof.
  destruct x as [|b|q]; cbn [Number_isInteger leb ltb]; try discriminate.
  intros _ H. unfold Qltb in H. apply negb_false_iff in H. exact H.
Qed.

Lemma checkItem_fields item :
  NewReceipt.checkItem item = None ->
  truthy_str (trim (item_name item)) = true /\
  ltb (Fin 0) (parseFloat (item_price item)) = true /\
  ltb (Fin 0) (parseFloat (item_quantity item)) = true /\
  (item_quantityUnit item <> Some "kg" ->
   Number_isInteger (parseFloat (item_quantity item)) = true /\
   leb (Fin 1) (parseFloat (item_quantity item)) = true).
Proof.
  unfold NewReceipt.checkItem.
  destruct (negb (truthy_str (trim (item_name item)))
            || negb (truthy_str (item_price item))
            || negb (truthy_str (item_quantity item))) eqn:B1;
    [discriminate|].
  destruct (isNaN (parseFloat (item_price item))
            || leb (parseFloat (item_price item)) (Fin 0)) eqn:B2;
    [discriminate|].
  cbv zeta.
  destruct (isNaN (parseFloat (item_quantity item))
            || leb (parseFloat (item_quantity item)) (Fin 0)) eqn:B3;
    [discriminate|].
  destruct (negb (strict_eq_opt_str (item_quantityUnit item) (Some "kg"))
            && (ltb (parseFloat (item_quantity item)) (Fin 1)
                || negb (Number_isInteger (parseFloat (item_quantity item)))))
    eqn:B4; [discriminate|].
  intros _.
  apply orb_false_iff in B1. destruct B1 as [B1 _].
  apply orb_false_iff in B1. destruct B1 as [B1 _].
  apply negb_false_iff in B1.
  apply orb_false_iff in B2. destruct B2 as [B2a B2b].
  apply orb_false_iff in B3. destruct B3 as [B3a B3b].
  split; [exact B1|].
  split; [apply positive_when_not_le_0; assumption|].
  split; [apply positive_when_not_le_0; assumption|].
  intros Hkg.
  destruct (strict_eq_opt_str (item_quantityUnit item) (Some "kg")) eqn:E.
  - apply Reconciler.strict_eq_opt_str_true in E. contradiction.
  - cbn [negb andb] in B4. apply orb_false_iff in B4.
    destruct B4 as [B4a B4b]. apply negb_false_iff in B4b.
    split; [exact B4b|]. apply at_least_1_when_not_lt_1; assumption.
Qed.

(** A saved form has passed every check, and the database is the old one
    with the receipt appended and the stock decremented. *)
Lemma handleSubmit_saved_exactly page newId now db db1 receiptId :
  NewReceipt.handleSubmit page newId now db = (db1, inr receiptId) ->
  truthy_str (trim (NewReceipt.cashierName page)) = true /\
  NewReceipt.checkItems (NewReceipt.items page) = None /\
  NewReceipt.validateInventory page = [] /\
  receiptId = newId /\
  db1 = mkDb
          (receipts db ++
           [mkReceipt newId (NewReceipt.currentUser page)
                      (NewReceipt.transactionId page) (NewReceipt.items page)
                      (calculateTotal (Some (NewReceipt.items page))
                                      (Some (NewReceipt.discount page)))
                      (NewReceipt.discountValue (NewReceipt.discount page))
                      now])
          (updateStockQuantity (NewReceipt.currentUser page)
             (NewReceipt.soldItems (NewReceipt.items page)) now (stock db)).
Proof.
  unfold NewReceipt.handleSubmit, saveReceipt.
  destruct (truthy_str (trim (NewReceipt.cashierName page)));
    cbn [negb]; [|discriminate].
  destruct (NewReceipt.checkItems (NewReceipt.items page)); [discriminate|].
  destruct (NewReceipt.validateInventory page); [|discriminate].
  intros H. inversion H; subst. repeat split; reflexivity.
Qed.

(** X14. What a saved receipt guarantees.  The cashier name is not blank,
    and every item has a name that is not blank, a price and a quantity
    above zero and, unless it is sold by the kilogram, a whole quantity of
    at least 1.  When the page had loaded the stock, every item also found,
    ignoring case, a stock item holding at least its quantity. *)
Theorem saved_receipt_passed_the_checks :
  forall page newId now db db1 receiptId item,
    NewReceipt.handleSubmit page newId now db = (db1, inr receiptId) ->
    In item (NewReceipt.items page) ->
    truthy_str (trim (NewReceipt.cashierName page)) = true /\
    truthy_str (trim (item_name item)) = true /\
    ltb (Fin 0) (parseFloat (item_price item)) = true /\
    ltb (Fin 0) (parseFloat (item_quantity item)) = true /\
    (item_quantityUnit item <> Some "kg" ->
     Number_isInteger (parseFloat (item_quantity item)) = true /\
     leb (Fin 1) (parseFloat (item_quantity item)) = true) /\
    (NewReceipt.stockLoaded page = true ->
     exists m,
       findIgnoringCase (item_name item) (NewReceipt.stockItems page)
         = Some m /\
       ltb (quantity m) (parseFloat (item_quantity item)) = false).
Proof.
  intros page newId now db db1 receiptId item H Hin.
  destruct (handleSubmit_saved_exactly _ _ _ _ _ _ H)
    as (Hc & Hi & Hv & _ & _).
  split; [exact Hc|].
  destruct (checkItem_fields item (Oversell.checkItems_In _ _ Hi Hin))
    as (H1 & H2 & H3 & H4).
  repeat (split; [assumption|]).
  intros Hl.
  apply (proj1 (validateInventory_when_loaded page Hl) Hv item Hin).
Qed.

Lemma saved_receipt_passed_the_checks_witness :
  truthy_str (trim "Ali") = true /\
  truthy_str (trim "Apple") = true /\
  ltb (Fin 0) (parseFloat "10") = true /\
  ltb (Fin 0) (parseFloat "5") = true /\
  (Some "units" <> Some "kg" ->
   Number_isInteger (parseFloat "5") = true /\
   leb (Fin 1) (parseFloat "5") = true) /\
  (true = true ->
   exists m,
     findIgnoringCase "Apple" [Sample.apple 7] = Some m /\
     ltb (quantity m) (parseFloat "5") = false).
Proof.
  apply (saved_receipt_passed_the_checks
           (Sample.form "Apple" "5" (Some "units") [Sample.apple 7] true)
           "r1" 1 (mkDb [] [Sample.apple 7])
           (fst (NewReceipt.handleSubmit
                   (Sample.form "Apple" "5" (Some "units") [Sample.apple 7] true)
                   "r1" 1 (mkDb [] [Sample.apple 7])))
           "r1" (mkItem "Apple" "10" "5" (Some "units"))).
  - reflexivity.
  - left. reflexivity.
Defined.

(** X15. The receipt that [handleSubmit] saves under a fresh id is read
    back with the shop of the signed-in user, the items of the form, the
    total [calculateTotal(items, discount)], the parsed discount and the
    time of the save; the receipts that were there before are read back
    unchanged. *)
Theorem saved_receipt_carries_the_form :
  forall page newId now db db1 receiptId,
    getReceiptById newId (receipts db) = None ->
    NewReceipt.handleSubmit page newId now db = (db1, inr receiptId) ->
    getReceiptById receiptId (receipts db1)
      = Some (mkReceipt newId (NewReceipt.currentUser page)
                        (NewReceipt.transactionId page)
                        (NewReceipt.items page)
                        (calculateTotal (Some (NewReceipt.items page))
                                        (Some (NewReceipt.discount page)))
                        (NewReceipt.discountValue (NewReceipt.discount page))
                        now) /\
    (forall i r, getReceiptById i (receipts db) = Some r ->
                 getReceiptById i (receipts db1) = Some r).
Proof.
  intros page newId now db db1 receiptId Hfresh H.
  destruct (handleSubmit_saved_exactly _ _ _ _ _ _ H)
    as (_ & _ & _ & -> & ->).
  cbn [receipts]. unfold getReceiptById. split.
  - apply SaveDelete.find_last; [exact Hfresh|apply String.eqb_refl].
  - intros i r Hr. apply Stores.find_app_some, Hr.
Qed.

Lemma saved_receipt_carries_the_form_witness :
  getReceiptById "r1"
    (receipts
       (fst (NewReceipt.handleSubmit
               (NewReceipt.mkPage "shop1" [Sample.pen; Sample.ink] "Ali" "T1"
                                  "2" [] false)
               "r1" 1 (mkDb [] [Sample.apple 7]))))
  = Some (mkReceipt "r1" "shop1" "T1" [Sample.pen; Sample.ink]
                    (VStr "15.50") (Fin 2) 1).
Proof.
  apply (proj1 (saved_receipt_carries_the_form
                  (NewReceipt.mkPage "shop1" [Sample.pen; Sample.ink] "Ali"
                                     "T1" "2" [] false)
                  "r1" 1 (mkDb [] [Sample.apple 7])
                  (fst (NewReceipt.handleSubmit
                          (NewReceipt.mkPage "shop1" [Sample.pen; Sample.ink]
                                             "Ali" "T1" "2" [] false)
                          "r1" 1 (mkDb [] [Sample.apple 7])))
                  "r1" eq_refl eq_refl)).
Defined.

Lemma checkItems_some l item :
  In item l -> NewReceipt.checkItem item <> None ->
  NewReceipt.checkItems l <> None.
Proof.
  intros Hin Hbad Hnone. apply Hbad.
  apply (Oversell.checkItems_In l item Hnone Hin).
Qed.

Lemma refused_when_a_check_fails page newId now db :
  NewReceipt.checkItems (NewReceipt.items page) <> None ->
  exists e, NewReceipt.handleSubmit page newId now db = (db, inl e).
Proof.
  intros H.
  destruct (Oversell.handleSubmit_cases page newId now db)
    as [He|[Hc _]]; [exact He|contradiction].
Qed.

(** X16. The form always keeps a row: [addItem] and [removeItem] leave a
    form that has a row with one.  [removeItem] gives back a form of one row
    as it is, and otherwise removes exactly the row at [index], keeping the
    rows before and after it in order.  A row that [addItem] appended and
    that was not filled in makes [handleSubmit] refuse the form without
    writing anything. *)
Theorem form_rows :
  (forall items index,
      items <> [] -> addItem items <> [] /\ removeItem index items <> []) /\
  (forall items index,
      (List.length items <= 1)%nat -> removeItem index items = items) /\
  (forall (before : list ReceiptItem) row after,
      (before ++ after)%list <> [] ->
      removeItem (List.length before) (before ++ row :: after)
        = (before ++ after)%list) /\
  (forall page newId now db,
      In blankItem (NewReceipt.items page) ->
      exists e, NewReceipt.handleSubmit page newId now db = (db, inl e)).
Proof.
  split; [|split; [|split]].
  - intros items index Hne. split.
    + unfold addItem. destruct items; discriminate.
    + unfold removeItem.
      destruct items as [|a [|b l]]; [contradiction|discriminate|].
      cbn [List.length Nat.leb].
      destruct index as [|[|n]]; cbn [firstn skipn app]; discriminate.
  - intros items index H. unfold removeItem.
    destruct (Nat.leb_spec (List.length items) 1); [reflexivity|lia].
  - intros before row after Hne. unfold removeItem.
    destruct (Nat.leb_spec (List.length (before ++ row :: after)) 1) as [H|_].
    + exfalso. rewrite length_app in H. cbn [List.length] in H.
      destruct before, after; cbn [List.length] in H; try lia.
      apply Hne. reflexivity.
    + clear Hne. induction before as [|b before IH]; [reflexivity|].
      cbn [List.length firstn skipn app]. f_equal. exact IH.
  - intros page newId now db Hin.
    apply refused_when_a_check_fails.
    apply (checkItems_some _ blankItem Hin). discriminate.
Qed.

Lemma form_rows_witness :
  removeItem 1 [Sample.pen; Sample.ink; blankItem] = [Sample.pen; blankItem] /\
  removeItem 0 [Sample.pen] = [Sample.pen] /\
  (exists e,
     NewReceipt.handleSubmit
       (NewReceipt.mkPage "shop1" (addItem [Sample.pen]) "Ali" "T1" "0"
                          [] false)
       "r1" 1 (mkDb [] []) = (mkDb [] [], inl e)).
Proof.
  split; [|split].
  - apply (proj1 (proj2 (proj2 form_rows)) [Sample.pen] Sample.ink [blankItem]).
    discriminate.
  - apply (proj1 (proj2 form_rows)). simpl. lia.
  - apply (proj2 (proj2 (proj2 form_rows))). right. left. reflexivity.
Defined.

(** X17. While the stock is not loaded nothing is suggested.  Once it is,
    every suggested name is the exact name of a loaded stock item, so a
    line that carries a suggestion is found both by the form's lookup,
    which ignores case, and by the reconciler's exact lookup in that list. *)
Theorem suggestions_are_exact_names :
  (forall page,
      NewReceipt.stockLoaded page = false -> getItemSuggestions page = []) /\
  (forall page nm,
      In nm (getItemSuggestions page) ->
      (exists s, findByName nm (NewReceipt.stockItems page) = Some s /\
                 name s = nm) /\
      (exists m, findIgnoringCase nm (NewReceipt.stockItems page) = Some m)).
Proof.
  split.
  - intros page H. unfold getItemSuggestions. rewrite H. reflexivity.
  - intros page nm. unfold getItemSuggestions.
    destruct (NewReceipt.stockLoaded page); cbn [negb]; [|intros []].
    intros Hin. apply in_map_iff in Hin. destruct Hin as [d [Hd Hin]].
    split.
    + destruct (findByName nm (NewReceipt.stockItems page)) as [s|] eqn:E.
      * exists s. split; [reflexivity|].
        apply (findByName_In _ _ _ E).
      * exfalso. unfold findByName in E. apply (find_none _ _ E) in Hin.
        rewrite Hd, String.eqb_refl in Hin. discriminate.
    + destruct (findIgnoringCase nm (NewReceipt.stockItems page))
        as [m|] eqn:E; [exists m; reflexivity|].
      exfalso. unfold findIgnoringCase in E. apply (find_none _ _ E) in Hin.
      rewrite Hd, String.eqb_refl in Hin. discriminate.
Qed.

Lemma suggestions_are_exact_names_witness :
  (exists s, findByName "Rice" [Sample.apple 7; Sample.rice] = Some s /\
             name s = "Rice") /\
  (exists m, findIgnoringCase "Rice" [Sample.apple 7; Sample.rice] = Some m).
Proof.
  apply (proj2 suggestions_are_exact_names
           (NewReceipt.mkPage "shop1" [] "Ali" "T1" "0"
                              [Sample.apple 7; Sample.rice] true) "Rice").
  right. left. reflexivity.
Defined.

Lemma reduce_NaN l :
  fold_left
    (fun total item =>
       add total (mul (parseFloat (item_price item))
                      (parseFloat (item_quantity item))))
    l NaN = NaN.
Proof. induction l as [|x l IH]; simpl; [reflexivity|exact IH]. Qed.

Lemma add_NaN_r x : add x NaN = NaN.
Proof. destruct x; reflexivity. Qed.

Lemma mul_NaN_r x : mul x NaN = NaN.
Proof. destruct x; reflexivity. Qed.

(** X18. One unreadable field spoils the total: when the price or the
    quantity of some item does not parse, [calculateTotal] returns the
    string "NaN" whatever the other items and the discount are.  The form
    never saves such a receipt: [handleSubmit] refuses it and writes
    nothing. *)
Theorem unreadable_field_gives_NaN_total :
  forall its item disc,
    In item its ->
    parseFloat (item_price item) = NaN \/
    parseFloat (item_quantity item) = NaN ->
    calculateTotal (Some its) disc = VStr "NaN" /\
    (forall page newId now db,
        NewReceipt.items page = its ->
        exists e, NewReceipt.handleSubmit page newId now db = (db, inl e)).
Proof.
  intros its item disc Hin Hbad. split.
  - assert (forall l a, In item l ->
              fold_left
                (fun total it =>
                   add total (mul (parseFloat (item_price it))
                                  (parseFloat (item_quantity it))))
                l a = NaN) as Hfold.
    { induction l as [|x l IH]; intros a Hl; [contradiction|].
      destruct Hl as [<-|Hl]; cbn [fold_left].
      - assert (mul (parseFloat (item_price x))
                    (parseFloat (item_quantity x)) = NaN) as ->.
        { destruct Hbad as [-> | ->]; [reflexivity|apply mul_NaN_r]. }
        rewrite add_NaN_r. apply reduce_NaN.
      - apply IH, Hl. }
    unfold calculateTotal. destruct its as [|x l]; [contradiction|].
    rewrite (Hfold (x :: l) (Fin 0) Hin). reflexivity.
  - intros page newId now db Hits.
    apply refused_when_a_check_fails. rewrite Hits.
    apply (checkItems_some _ item Hin).
    unfold NewReceipt.checkItem.
    destruct (negb (truthy_str (trim (item_name item)))
              || negb (truthy_str (item_price item))
              || negb (truthy_str (item_quantity item))); [discriminate|].
    destruct Hbad as [-> | ->]; cbn [isNaN orb]; [discriminate|].
    destruct (isNaN (parseFloat (item_price item))
              || leb (parseFloat (item_price item)) (Fin 0)); discriminate.
Qed.

Lemma unreadable_field_gives_NaN_total_witness :
  calculateTotal (Some [Sample.pen; mkItem "Ink" "abc" "3" (Some "units")])
                 (Some "2") = VStr "NaN".
Proof.
  apply (proj1 (unreadable_field_gives_NaN_total
                  [Sample.pen; mkItem "Ink" "abc" "3" (Some "units")]
                  (mkItem "Ink" "abc" "3" (Some "units")) (Some "2")
                  (or_intror (or_introl eq_refl)) (or_introl eq_refl))).
Defined.

End FormChecks.

(* ================================================================== *)
(** * Further properties of the sign-in flow *)
(* ================================================================== *)

Module SignIn.

Import JS Auth Notions SignInNotions Lockout.

Lemma handleFailure_never_navigates e mail now shops :
  snd (handleFailure e mail now shops) <> NavigatedToDashboard.
Proof.
  unfold handleFailure.
  repeat match goal with
         | |- context [if ?c then _ else _] => destruct c
         | |- context [match ?o with Some _ => _ | None => _ end] => destruct o
         end; discriminate.
Qed.

Lemma unlocked_check mail now shops :
  unlocked mail now shops ->
  match firstWhere email (toLowerCase mail) shops with
  | Some userData => lockedFor userData now
  | None => None
  end = None.
Proof.
  intros H. destruct (firstWhere email (toLowerCase mail) shops) eqn:E;
    [exact (H _ E)|reflexivity].
Qed.

Lemma setField_status d f :
  status (setField d f) = status d.
Proof. destruct f; reflexivity. Qed.

Lemma patched_status docId fields d :
  status (patched docId fields d) = status d.
Proof.
  unfold patched. destruct (String.eqb (uid d) docId); [|reflexivity].
  revert d. induction fields as [|f fields IH]; intros d; simpl;
    [reflexivity|]. rewrite IH. apply setField_status.
Qed.

(** What the page does once the sign-in has succeeded and the document of
    the user exists. *)
Lemma handleSubmit_signed_in signIn mail password now shops user userData :
  unlocked mail now shops ->
  signIn mail password = SignedIn user ->
  getDoc user shops = Some userData ->
  exists shops1 d1,
    fst (login signIn mail password now shops) = shops1 /\
    getDoc user shops1 = Some d1 /\
    status d1 = status userData /\
    handleSubmit signIn mail password now shops =
    (updateDoc user [FailedLoginAttempts 0; LastLoginAt now] shops1,
     if strict_eq_opt_str (status userData) (Some "pending")
     then PendingApproval
     else if strict_eq_opt_str (status userData) (Some "frozen")
     then AccountFrozen
     else if strict_eq_opt_str (status userData) (Some "rejected")
     then RegistrationRejected
     else NavigatedToDashboard).
Proof.
  intros Hun Hs Hdoc. unfold handleSubmit.
  rewrite (unlocked_check _ _ _ Hun). unfold login. rewrite Hs, Hdoc.
  destruct (negb (orZero (failedLoginAttempts userData) =? 0));
    cbn [fst];
    [exists (updateDoc user [FailedLoginAttempts 0; LastLoginAt now] shops),
            (patched user [FailedLoginAttempts 0; LastLoginAt now] userData)
    |exists (updateDoc user [LastLoginAt now] shops),
            (patched user [LastLoginAt now] userData)];
    (split; [reflexivity|]);
    rewrite !getDoc_updateDoc, Hdoc; cbn [option_map];
    (split; [reflexivity|]); rewrite !patched_status;
    (split; [reflexivity|]);
    repeat match goal with
           | |- context [if ?c then _ else _] => destruct c
           end; reflexivity.
Qed.

(** X19. The dashboard opens exactly when the lock check lets the attempt
    through, the authentication service accepts the credentials, the shop
    document of the user exists and its [status] is none of 'pending',
    'frozen' and 'rejected'.  The [accountStatus] field, 'locked' included,
    plays no part. *)
Theorem dashboard_opens_exactly_when :
  forall signIn mail password now shops,
    snd (handleSubmit signIn mail password now shops) = NavigatedToDashboard
    <->
    (unlocked mail now shops /\
     exists user userData,
       signIn mail password = SignedIn user /\
       getDoc user shops = Some userData /\
       held_back userData = false).
Proof.
  intros signIn mail password now shops. split.
  - intros H.
    assert (unlocked mail now shops) as Hun.
    { intros acct Ha. unfold handleSubmit in H. rewrite Ha in H.
      destruct (lockedFor acct now); [discriminate|reflexivity]. }
    split; [exact Hun|].
    destruct (signIn mail password) as [user|code message] eqn:Hs.
    + destruct (getDoc user shops) as [userData|] eqn:Hdoc.
      * exists user, userData. split; [reflexivity|]. split; [exact Hdoc|].
        destruct (handleSubmit_signed_in signIn mail password now shops
                    user userData Hun Hs Hdoc) as (s1 & d1 & _ & _ & _ & Heq).
        rewrite Heq in H. cbn [snd] in H. unfold held_back.
        destruct (strict_eq_opt_str (status userData) (Some "pending"));
          [discriminate|].
        destruct (strict_eq_opt_str (status userData) (Some "frozen"));
          [discriminate|].
        destruct (strict_eq_opt_str (status userData) (Some "rejected"));
          [discriminate|reflexivity].
      * exfalso. unfold handleSubmit in H.
        rewrite (unlocked_check _ _ _ Hun) in H.
        unfold login in H. rewrite Hs, Hdoc, Hdoc in H.
        apply (handleFailure_never_navigates _ _ _ _ H).
    + exfalso. unfold handleSubmit in H.
      rewrite (unlocked_check _ _ _ Hun) in H.
      destruct (login signIn mail password now shops) as [shops1 [e|user]]
        eqn:El.
      * apply (handleFailure_never_navigates _ _ _ _ H).
      * unfold login in El. rewrite Hs in El.
        repeat match type of El with
               | context [if ?c then _ else _] => destruct c
               | context [match ?o with Some _ => _ | None => _ end] =>
                   destruct o
               end; discriminate.
  - intros (Hun & user & userData & Hs & Hdoc & Hheld).
    destruct (handleSubmit_signed_in signIn mail password now shops
                user userData Hun Hs Hdoc) as (s1 & d1 & _ & _ & _ & Heq).
    rewrite Heq. cbn [snd]. unfold held_back in Hheld.
    apply orb_false_iff in Hheld. destruct Hheld as [Hheld Hr].
    apply orb_false_iff in Hheld. destruct Hheld as [Hp Hf].
    rewrite Hp, Hf, Hr. reflexivity.
Qed.

(** X20. A user whose document says 'pending', 'frozen' or 'rejected' is
    told so and kept out although the credentials are right, and the
    counter of failed attempts is reset all the same. *)
Theorem held_back_account_is_told_and_kept_out :
  forall signIn mail password now shops user userData,
    unlocked mail now shops ->
    signIn mail password = SignedIn user ->
    getDoc user shops = Some userData ->
    (status userData = Some "pending" ->
     snd (handleSubmit signIn mail password now shops) = PendingApproval) /\
    (status userData = Some "frozen" ->
     snd (handleSubmit signIn mail password now shops) = AccountFrozen) /\
    (status userData = Some "rejected" ->
     snd (handleSubmit signIn mail password now shops)
       = RegistrationRejected) /\
    exists d',
      getDoc user (fst (handleSubmit signIn mail password now shops))
        = Some d' /\
      failedLoginAttempts d' = Some 0.
Proof.
  intros signIn mail password now shops user userData Hun Hs Hdoc.
  destruct (handleSubmit_signed_in signIn mail password now shops
              user userData Hun Hs Hdoc) as (s1 & d1 & _ & Hd1 & _ & Heq).
  rewrite Heq. cbn [fst snd].
  repeat split; try (intros ->; reflexivity).
  apply (getDoc_reset user now s1 d1 Hd1).
Qed.

Lemma held_back_account_is_told_and_kept_out_witness :
  snd (handleSubmit Sample.service "ali@shop.pk" "secret" 5000
         [mkShop "u1" (Some "ali@shop.pk") (Some "ali@shop.pk") (Some 2)
                 None None (Some "active") (Some "frozen") None None None])
  = AccountFrozen.
Proof.
  refine (proj1 (proj2 (held_back_account_is_told_and_kept_out
           Sample.service "ali@shop.pk" "secret" 5000
           [mkShop "u1" (Some "ali@shop.pk") (Some "ali@shop.pk") (Some 2)
                   None None (Some "active") (Some "frozen") None None None]
           "u1"
           (mkShop "u1" (Some "ali@shop.pk") (Some "ali@shop.pk") (Some 2)
                   None None (Some "active") (Some "frozen") None None None)
           _ eq_refl eq_refl)) eq_refl).
  intros acct H. vm_compute in H. inversion H; subst. reflexivity.
Defined.

(** X21. Failures that are never counted.  A sign-in error whose code is
    neither 'auth/wrong-password' nor 'auth/user-not-found' leaves the
    [shops] collection as it was, and so does any failed sign-in for an
    address that neither lookup finds. *)
Theorem uncounted_failures :
  (forall signIn mail password now shops code message,
      signIn mail password = AuthFailed code message ->
      code <> "auth/wrong-password" ->
      code <> "auth/user-not-found" ->
      fst (handleSubmit signIn mail password now shops) = shops) /\
  (forall signIn mail password now shops code message,
      signIn mail password = AuthFailed code message ->
      firstWhere email (toLowerCase mail) shops = None ->
      firstWhere userEmail mail shops = None ->
      fst (handleSubmit signIn mail password now shops) = shops).
Proof.
  split.
  - intros signIn mail password now shops code message Hs Hw Hn.
    unfold handleSubmit.
    destruct (match firstWhere email (toLowerCase mail) shops with
              | Some userData => lockedFor userData now
              | None => None
              end); [reflexivity|].
    unfold login. rewrite Hs.
    destruct (String.eqb_spec code "auth/wrong-password") as [E|_];
      [contradiction|]. cbn [andb].
    unfold handleFailure. cbn [error_code strict_eq_opt_str].
    destruct (String.eqb_spec code "auth/wrong-password") as [E|_];
      [contradiction|].
    destruct (String.eqb_spec code "auth/user-not-found") as [E|_];
      [contradiction|]. cbn [orb].
    destruct (_ && _)%bool; reflexivity.
  - intros signIn mail password now shops code message Hs He Hu.
    unfold handleSubmit. rewrite He. unfold login. rewrite Hs, Hu.
    assert (forall c : bool,
               (if c then (shops, @inl LoginError string
                                       (FirebaseError code message))
                else (shops, inl (FirebaseError code message)))
               = (shops, inl (FirebaseError code message))) as ->
      by (intros []; reflexivity).
    unfold handleFailure. rewrite He.
    repeat match goal with
           | |- context [if ?c then _ else _] => destruct c
           end; reflexivity.
Qed.

Lemma uncounted_failures_witness :
  fst (handleSubmit
         (fun _ _ => AuthFailed "auth/invalid-credential" "bad credentials")
         "ali@shop.pk" "guess" 5000 [Sample.listed_twice (Some 4)])
  = [Sample.listed_twice (Some 4)].
Proof.
  apply (proj1 uncounted_failures
           (fun _ _ => AuthFailed "auth/invalid-credential" "bad credentials")
           "ali@shop.pk" "guess" 5000 [Sample.listed_twice (Some 4)]
           "auth/invalid-credential" "bad credentials");
    [reflexivity|discriminate|discriminate].
Defined.

Lemma accountLocked_is_shown :
  handleFailure (PlainError accountLockedMessage) =
  fun mail now shops => (shops, FailedToSignIn accountLockedMessage).
Proof. reflexivity. Qed.

(** X22. The lock of [AuthContext.login].  When the document is found under
    [userEmail] and the wrong password brings its counter to 5 or more, the
    document is marked [accountStatus = 'locked'] with the time in
    [lockedAt]; the counter is incremented once, the login page adds no
    count of its own and shows the 'Account locked' error, and no expiry is
    recorded: [lockedUntil] and [lockDuration] are what they were. *)
Theorem wrong_password_past_threshold_marks_account_locked :
  forall signIn mail password message now shops acct,
    signIn mail password = AuthFailed "auth/wrong-password" message ->
    truthy_str mail = true ->
    unlocked mail now shops ->
    firstWhere userEmail mail shops = Some acct ->
    5 <= orZero (failedLoginAttempts acct) + 1 ->
    snd (handleSubmit signIn mail password now shops)
      = FailedToSignIn accountLockedMessage /\
    exists acct',
      firstWhere userEmail mail
        (fst (handleSubmit signIn mail password now shops)) = Some acct' /\
      failedLoginAttempts acct'
        = Some (orZero (failedLoginAttempts acct) + 1) /\
      accountStatus acct' = Some "locked" /\
      lockedAt acct' = Some now /\
      lockedUntil acct' = lockedUntil acct /\
      lockDuration acct' = lockDuration acct.
Proof.
  intros signIn mail password message now shops acct Hs Hm Hun Hu Hge.
  unfold handleSubmit. rewrite (unlocked_check _ _ _ Hun).
  unfold login. rewrite Hs, Hm, Hu. rewrite String.eqb_refl. cbn [andb].
  destruct (Z.leb_spec 5 (orZero (failedLoginAttempts acct) + 1)) as [_|H];
    [|lia].
  rewrite accountLocked_is_shown. cbn [fst snd].
  split; [reflexivity|].
  rewrite !firstWhere_userEmail_updateDoc, Hu. cbn [option_map].
  eexists. split; [reflexivity|].
  unfold patched. rewrite String.eqb_refl.
  cbn [fold_left setField uid]. rewrite String.eqb_refl.
  repeat split; reflexivity.
Qed.

Lemma wrong_password_past_threshold_marks_account_locked_witness :
  snd (handleSubmit Sample.service "ali@shop.pk" "guess" 5000
                    [Sample.registered (Some 4)])
    = FailedToSignIn accountLockedMessage /\
  exists acct',
    firstWhere userEmail "ali@shop.pk"
      (fst (handleSubmit Sample.service "ali@shop.pk" "guess" 5000
                         [Sample.registered (Some 4)])) = Some acct' /\
    failedLoginAttempts acct' = Some (4 + 1) /\
    accountStatus acct' = Some "locked" /\
    lockedAt acct' = Some 5000 /\
    lockedUntil acct' = None /\
    lockDuration acct' = None.
Proof.
  apply (wrong_password_past_threshold_marks_account_locked
           Sample.service "ali@shop.pk" "guess"
           "Firebase: Error (auth/wrong-password)." 5000
           [Sample.registered (Some 4)] (Sample.registered (Some 4)));
    try reflexivity.
  all: try (intros acct H; vm_compute in H; discriminate).
  all: try (vm_compute; discriminate).
Defined.

(** X23. When both lookups find the same document, a wrong password is
    counted twice: once by [AuthContext.login] and once more by the login
    page.  Below the threshold of [AuthContext.login] the counter goes up by
    two; the page then shows the attempts left, or records its 15-minute
    lock when the doubled count reaches 5. *)
Theorem wrong_password_is_counted_twice :
  forall signIn mail password message now shops acct,
    signIn mail password = AuthFailed "auth/wrong-password" message ->
    truthy_str mail = true ->
    firstWhere email (toLowerCase mail) shops = Some acct ->
    firstWhere userEmail mail shops = Some acct ->
    lockedFor acct now = None ->
    orZero (failedLoginAttempts acct) + 1 < 5 ->
    exists acct',
      firstWhere email (toLowerCase mail)
        (fst (handleSubmit signIn mail password now shops)) = Some acct' /\
      failedLoginAttempts acct'
        = Some (orZero (failedLoginAttempts acct) + 2) /\
      (orZero (failedLoginAttempts acct) + 2 < 5 ->
       snd (handleSubmit signIn mail password now shops)
         = InvalidWithRemaining (5 - (orZero (failedLoginAttempts acct) + 2))
       /\ lockedUntil acct' = lockedUntil acct) /\
      (5 <= orZero (failedLoginAttempts acct) + 2 ->
       snd (handleSubmit signIn mail password now shops) = TooManyAttempts /\
       lockedUntil acct' = Some now /\ lockDuration acct' = Some 15).
Proof.
  intros signIn mail password message now shops acct Hs Hm He Hu Hl Hlt.
  unfold handleSubmit. rewrite He, Hl.
  unfold login. rewrite Hs, Hm, Hu, String.eqb_refl. cbn [andb].
  destruct (Z.leb_spec 5 (orZero (failedLoginAttempts acct) + 1)) as [H|_];
    [lia|].
  unfold handleFailure. cbn [error_code strict_eq_opt_str].
  rewrite String.eqb_refl. cbn [orb].
  rewrite firstWhere_email_updateDoc, He. cbn [option_map].
  set (n := orZero (failedLoginAttempts acct)) in *.
  assert (patched (uid acct)
                  [FailedLoginAttempts (n + 1); LastFailedLoginAt now] acct
          = mkShop (uid acct) (email acct) (userEmail acct) (Some (n + 1))
                   (lockedUntil acct) (lockDuration acct) (accountStatus acct)
                   (status acct) (lockedAt acct) (lastLoginAt acct)
                   (Some now)) as Hp.
  { unfold patched. rewrite String.eqb_refl. reflexivity. }
  rewrite Hp. cbn [failedLoginAttempts orZero uid].
  replace (n + 1 + 1) with (n + 2) by lia.
  destruct (Z.leb_spec 5 (n + 2)) as [Hge|Hb]; cbn [fst snd];
    rewrite !firstWhere_email_updateDoc, He; cbn [option_map]; rewrite Hp;
    (eexists; split; [reflexivity|]);
    unfold patched; cbn [uid]; rewrite String.eqb_refl;
    cbn [fold_left setField failedLoginAttempts lockedUntil lockDuration];
    (split; [reflexivity|]); split; intros H;
    try lia; repeat split; reflexivity.
Qed.

Lemma wrong_password_is_counted_twice_witness :
  exists acct',
    firstWhere email (toLowerCase "ali@shop.pk")
      (fst (handleSubmit Sample.service "ali@shop.pk" "guess" 5000
                         [Sample.listed_twice (Some 1)])) = Some acct' /\
    failedLoginAttempts acct' = Some (1 + 2).
Proof.
  destruct (wrong_password_is_counted_twice
              Sample.service "ali@shop.pk" "guess"
              "Firebase: Error (auth/wrong-password)." 5000
              [Sample.listed_twice (Some 1)] (Sample.listed_twice (Some 1))
              eq_refl eq_refl eq_refl eq_refl eq_refl eq_refl)
    as (acct' & H1 & H2 & _).
  exists acct'. split; [exact H1|exact H2].
Defined.

(** X24. The counter is not reset when a lock runs out.  For an account
    that only the login page tracks, any wrong password that the lock check
    lets through while the counter stands at 4 or more, in particular the
    first one after a lock has expired, locks the account for 15 minutes
    from that moment, and attempts within those 15 minutes are rejected
    without a write. *)
Theorem failure_at_four_or_more_locks_again :
  forall signIn mail password message now shops acct,
    signIn mail password = AuthFailed "auth/wrong-password" message ->
    firstWhere email (toLowerCase mail) shops = Some acct ->
    firstWhere userEmail mail shops = None ->
    lockedFor acct now = None ->
    4 <= orZero (failedLoginAttempts acct) ->
    snd (handleSubmit signIn mail password now shops) = TooManyAttempts /\
    exists acct',
      firstWhere email (toLowerCase mail)
        (fst (handleSubmit signIn mail password now shops)) = Some acct' /\
      failedLoginAttempts acct'
        = Some (orZero (failedLoginAttempts acct) + 1) /\
      lockExpiry acct' = Some (now + 15 * 60000) /\
      (forall signIn' password' t,
          now <= t < now + 15 * 60000 ->
          fst (handleSubmit signIn' mail password' t
                 (fst (handleSubmit signIn mail password now shops)))
          = fst (handleSubmit signIn mail password now shops)).
Proof.
  intros signIn mail password message now shops acct Hs He Hu Hl Hge.
  rewrite (failed_attempt signIn mail password message Hs now shops acct
                          He Hu Hl).
  cbv zeta.
  destruct (Z.leb_spec 5 (orZero (failedLoginAttempts acct) + 1)) as [_|H];
    [|lia].
  cbn [fst snd]. split; [reflexivity|].
  rewrite firstWhere_email_updateDoc, He. cbn [option_map].
  eexists. split; [reflexivity|].
  unfold patched. rewrite String.eqb_refl.
  cbn [fold_left setField failedLoginAttempts].
  split; [reflexivity|]. split; [reflexivity|].
  intros signIn' password' t Ht.
  erewrite locked_rejects; [reflexivity| |].
  - rewrite firstWhere_email_updateDoc, He. reflexivity.
  - unfold patched. rewrite String.eqb_refl.
    apply lockedFor_unexpired; try reflexivity; lia.
Qed.

Lemma failure_at_four_or_more_locks_again_witness :
  let expired :=
    mkShop "u1" (Some "ali@shop.pk") None (Some 5) (Some 1000) (Some 15)
           (Some "active") None None None (Some 1000) in
  snd (handleSubmit Sample.service "ali@shop.pk" "guess" 901000 [expired])
    = TooManyAttempts /\
  exists acct',
    firstWhere email (toLowerCase "ali@shop.pk")
      (fst (handleSubmit Sample.service "ali@shop.pk" "guess" 901000
                         [expired])) = Some acct' /\
    failedLoginAttempts acct' = Some (5 + 1) /\
    lockExpiry acct' = Some (901000 + 15 * 60000) /\
    (forall signIn' password' t,
        901000 <= t < 901000 + 15 * 60000 ->
        fst (handleSubmit signIn' "ali@shop.pk" password' t
               (fst (handleSubmit Sample.service "ali@shop.pk" "guess" 901000
                                  [expired])))
        = fst (handleSubmit Sample.service "ali@shop.pk" "guess" 901000
                            [expired])).
Proof.
  intros expired.
  apply (failure_at_four_or_more_locks_again
           Sample.service "ali@shop.pk" "guess"
           "Firebase: Error (auth/wrong-password)." 901000
           [expired] expired); try reflexivity.
  vm_compute. discriminate.
Defined.

(** X25. A successful sign-in clears no lock mark.  It resets the counter
    and stamps [lastLoginAt], but [accountStatus], [lockedAt], [lockedUntil]
    and [lockDuration] are left as they were: an account that
    [AuthContext.login] has marked 'locked' stays marked. *)
Theorem successful_login_clears_no_lock_mark :
  forall signIn mail password now shops user userData,
    unlocked mail now shops ->
    signIn mail password = SignedIn user ->
    getDoc user shops = Some userData ->
    exists d',
      getDoc user (fst (handleSubmit signIn mail password now shops))
        = Some d' /\
      failedLoginAttempts d' = Some 0 /\
      lastLoginAt d' = Some now /\
      accountStatus d' = accountStatus userData /\
      lockedAt d' = lockedAt userData /\
      lockedUntil d' = lockedUntil userData /\
      lockDuration d' = lockDuration userData.
Proof.
  intros signIn mail password now shops user userData Hun Hs Hdoc.
  destruct (handleSubmit_signed_in signIn mail password now shops
              user userData Hun Hs Hdoc) as (s1 & d1 & Hs1 & _ & _ & Heq).
  rewrite Heq. cbn [fst]. subst s1.
  pose proof Hdoc as Hfind. apply find_some in Hfind.
  destruct Hfind as [_ Huid].
  unfold login. rewrite Hs, Hdoc.
  destruct (negb (orZero (failedLoginAttempts userData) =? 0)); cbn [fst];
    rewrite !getDoc_updateDoc, Hdoc; cbn [option_map];
    (eexists; split; [reflexivity|]);
    unfold patched; rewrite Huid; cbn [fold_left setField uid];
    rewrite Huid; repeat split; reflexivity.
Qed.

Lemma successful_login_clears_no_lock_mark_witness :
  let marked :=
    mkShop "u1" None (Some "ali@shop.pk") (Some 5) None None
           (Some "locked") None (Some 5000) None (Some 5000) in
  exists d',
    getDoc "u1"
      (fst (handleSubmit Sample.service "ali@shop.pk" "secret" 6000 [marked]))
      = Some d' /\
    failedLoginAttempts d' = Some 0 /\
    lastLoginAt d' = Some 6000 /\
    accountStatus d' = accountStatus marked /\
    lockedAt d' = lockedAt marked /\
    lockedUntil d' = lockedUntil marked /\
    lockDuration d' = lockDuration marked.
Proof.
  intros marked.
  apply (successful_login_clears_no_lock_mark
           Sample.service "ali@shop.pk" "secret" 6000 [marked] "u1" marked);
    try reflexivity.
  intros acct H. vm_compute in H. discriminate.
Defined.

End SignIn.

(* ================================================================== *)
(** * The two locks of the sign-in flow *)
(* ================================================================== *)

Module LockoutRule.

Import JS Auth Notions SignInNotions Lockout.

Lemma unlocked_when_not_listed mail now shops :
  firstWhere email (toLowerCase mail) shops = None -> unlocked mail now shops.
Proof. intros H acct Hacct. rewrite H in Hacct. discriminate. Qed.

Lemma lock_check_passes mail now shops :
  unlocked mail now shops ->
  match firstWhere email (toLowerCase mail) shops with
  | Some userData => lockedFor userData now
  | None => None
  end = None.
Proof.
  intros H. destruct (firstWhere email (toLowerCase mail) shops) eqn:E;
    [exact (H _ E)|reflexivity].
Qed.

(** The lock of [AuthContext.login]. *)
Lemma locked_by_login signIn mail password message now shops acct :
  signIn mail password = AuthFailed "auth/wrong-password" message ->
  truthy_str mail = true ->
  unlocked mail now shops ->
  firstWhere userEmail mail shops = Some acct ->
  5 <= orZero (failedLoginAttempts acct) + 1 ->
  handleSubmit signIn mail password now shops =
  (updateDoc (uid acct) [AccountStatus "locked"; LockedAt now]
     (updateDoc (uid acct)
        [FailedLoginAttempts (orZero (failedLoginAttempts acct) + 1);
         LastFailedLoginAt now] shops),
   FailedToSignIn accountLockedMessage).
Proof.
  intros Hs Hm Hun Hu Hge.
  unfold handleSubmit. rewrite (lock_check_passes _ _ _ Hun).
  unfold login. rewrite Hs, Hm, Hu. rewrite String.eqb_refl. cbn [andb].
  destruct (Z.leb_spec 5 (orZero (failedLoginAttempts acct) + 1)) as [_|H];
    [reflexivity|lia].
Qed.

Lemma locked_by_login_fields mail now shops acct :
  firstWhere userEmail mail shops = Some acct ->
  exists acct',
    firstWhere userEmail mail
      (updateDoc (uid acct) [AccountStatus "locked"; LockedAt now]
         (updateDoc (uid acct)
            [FailedLoginAttempts (orZero (failedLoginAttempts acct) + 1);
             LastFailedLoginAt now] shops)) = Some acct' /\
    failedLoginAttempts acct'
      = Some (orZero (failedLoginAttempts acct) + 1) /\
    accountStatus acct' = Some "locked" /\
    lockedAt acct' = Some now /\
    lockedUntil acct' = lockedUntil acct /\
    lockDuration acct' = lockDuration acct.
Proof.
  intros Hu. rewrite !firstWhere_userEmail_updateDoc, Hu. cbn [option_map].
  eexists. split; [reflexivity|].
  unfold patched. rewrite String.eqb_refl.
  cbn [fold_left setField uid]. rewrite String.eqb_refl.
  repeat split; reflexivity.
Qed.

(** The lock of the login page, and what the lock check makes of it. *)
Lemma locked_by_page mail now shops1 e1 :
  firstWhere email (toLowerCase mail) shops1 = Some e1 ->
  let shops' :=
    updateDoc (uid e1)
      [FailedLoginAttempts (orZero (failedLoginAttempts e1) + 1);
       LockedUntil now; LockDuration 15; LastFailedLoginAt now] shops1 in
  exists acct',
    firstWhere email (toLowerCase mail) shops' = Some acct' /\
    failedLoginAttempts acct' = Some (orZero (failedLoginAttempts e1) + 1) /\
    lockedUntil acct' = Some now /\
    lockDuration acct' = Some 15 /\
    lockExpiry acct' = Some (now + 15 * 60000) /\
    accountStatus acct' = accountStatus e1 /\
    (forall signIn' password' t,
        now <= t < now + 15 * 60000 ->
        fst (handleSubmit signIn' mail password' t shops') = shops' /\
        exists timeLeft,
          snd (handleSubmit signIn' mail password' t shops')
            = TemporarilyLocked timeLeft) /\
    (forall t, now + 15 * 60000 <= t -> lockedFor acct' t = None).
Proof.
  intros He1 shops'.
  assert (Hfind : firstWhere email (toLowerCase mail) shops'
                  = Some (patched (uid e1)
                            [FailedLoginAttempts
                               (orZero (failedLoginAttempts e1) + 1);
                             LockedUntil now; LockDuration 15;
                             LastFailedLoginAt now] e1)).
  { unfold shops'. rewrite firstWhere_email_updateDoc, He1. reflexivity. }
  eexists. split; [exact Hfind|].
  unfold patched. rewrite String.eqb_refl.
  cbn [fold_left setField failedLoginAttempts lockedUntil lockDuration
       accountStatus].
  repeat (split; [reflexivity|]). split.
  - intros signIn' password' t Ht.
    erewrite locked_rejects.
    + cbn [fst snd]. split; [reflexivity|]. eexists. reflexivity.
    + exact Hfind.
    + unfold patched. rewrite String.eqb_refl.
      apply lockedFor_unexpired; try reflexivity; lia.
  - intros t Ht. eapply lockedFor_expired; try reflexivity. exact Ht.
Qed.

Section CountedByLogin.

(** An account that only [AuthContext.login] tracks: its document is found
    under the address as typed in [userEmail], and the login page finds
    none under the lower-cased address in [email].  The credentials are
    wrong. *)
Variables (signIn : string -> string -> AuthResult) (mail password : string).
Variable message : string.

Hypothesis Hwrong :
  signIn mail password = AuthFailed "auth/wrong-password" message.
Hypothesis Hmail : truthy_str mail = true.

Lemma counted_by_login now shops acct :
  firstWhere userEmail mail shops = Some acct ->
  firstWhere email (toLowerCase mail) shops = None ->
  orZero (failedLoginAttempts acct) + 1 < 5 ->
  handleSubmit signIn mail password now shops =
  (updateDoc (uid acct)
     [FailedLoginAttempts (orZero (failedLoginAttempts acct) + 1);
      LastFailedLoginAt now] shops,
   InvalidEmailOrPassword).
Proof.
  intros Hu He Hlt. unfold handleSubmit. rewrite He.
  unfold login. rewrite Hwrong, Hmail, Hu, String.eqb_refl. cbn [andb].
  destruct (Z.leb_spec 5 (orZero (failedLoginAttempts acct) + 1)) as [H|_];
    [lia|].
  unfold handleFailure. cbn [error_code strict_eq_opt_str].
  rewrite String.eqb_refl. cbn [orb].
  rewrite firstWhere_email_updateDoc, He. reflexivity.
Qed.

Lemma attempts_counted_by_login times : forall shops acct,
  firstWhere userEmail mail shops = Some acct ->
  firstWhere email (toLowerCase mail) shops = None ->
  orZero (failedLoginAttempts acct) + Z.of_nat (List.length times) < 5 ->
  exists acct',
    firstWhere userEmail mail
      (attempts signIn mail password times shops) = Some acct' /\
    firstWhere email (toLowerCase mail)
      (attempts signIn mail password times shops) = None /\
    orZero (failedLoginAttempts acct')
      = orZero (failedLoginAttempts acct) + Z.of_nat (List.length times) /\
    lockedUntil acct' = lockedUntil acct /\
    lockDuration acct' = lockDuration acct.
Proof.
  induction times as [|t times IH]; intros shops acct Hu He Hlt.
  - exists acct. cbn [attempts List.length Z.of_nat].
    repeat split; try assumption. lia.
  - cbn [List.length] in Hlt. rewrite Nat2Z.inj_succ in Hlt.
    cbn [attempts]. rewrite (counted_by_login t shops acct Hu He) by lia.
    cbn [fst].
    destruct (IH (updateDoc (uid acct)
                    [FailedLoginAttempts
                       (orZero (failedLoginAttempts acct) + 1);
                     LastFailedLoginAt t] shops)
                 (patched (uid acct)
                    [FailedLoginAttempts
                       (orZero (failedLoginAttempts acct) + 1);
                     LastFailedLoginAt t] acct))
      as (a2 & Hu2 & He2 & Hf2 & Hlu2 & Hld2).
    { rewrite firstWhere_userEmail_updateDoc, Hu. reflexivity. }
    { rewrite firstWhere_email_updateDoc, He. reflexivity. }
    { unfold patched. rewrite String.eqb_refl.
      cbn [fold_left setField failedLoginAttempts orZero]. lia. }
    exists a2. unfold patched in Hf2, Hlu2, Hld2.
    rewrite String.eqb_refl in Hf2, Hlu2, Hld2.
    cbn [fold_left setField failedLoginAttempts lockedUntil lockDuration
         orZero] in Hf2, Hlu2, Hld2.
    cbn [List.length]. rewrite Nat2Z.inj_succ.
    repeat split; try assumption. lia.
Qed.

End CountedByLogin.

(** C2 (amended). A wrong password that brings [failedLoginAttempts] to 5
    or more locks the account in the way of the tracker that writes that
    count.
    (1) [AuthContext.login] finds the document under [userEmail], the field
    [registerShop] writes.  When its increment reaches 5 it sets
    [accountStatus = 'locked'] and [lockedAt]; no expiry is recorded
    ([lockedUntil] and [lockDuration] stay as they were) and the login page
    adds no count.
    (2) The login page finds the document under [email].  When
    [AuthContext.login] has not locked the account and the increment of the
    page reaches 5, the page records [lockedUntil = now] and
    [lockDuration = 15] and leaves [accountStatus] as it was.  For the next
    15 minutes every attempt for that address is rejected and writes
    nothing; from the expiry on the lock check lets attempts through.
    (3) A document found under [email] only gets the lock of the page at
    the fifth consecutive failed attempt.
    (4) A document found under [userEmail] only gets the mark of
    [AuthContext.login] at the fifth consecutive failed attempt, and the
    lock check rejects no later attempt.
    (5) A successful login resets the counter and changes none of
    [accountStatus], [lockedAt], [lockedUntil] and [lockDuration]: the
    sign-in code never sets a 'locked' [accountStatus] back. *)
Theorem fifth_failed_attempt_locks_by_tracker :
  (forall signIn mail password message now shops acct,
      signIn mail password = AuthFailed "auth/wrong-password" message ->
      truthy_str mail = true ->
      unlocked mail now shops ->
      firstWhere userEmail mail shops = Some acct ->
      5 <= orZero (failedLoginAttempts acct) + 1 ->
      snd (handleSubmit signIn mail password now shops)
        = FailedToSignIn accountLockedMessage /\
      exists acct',
        firstWhere userEmail mail
          (fst (handleSubmit signIn mail password now shops)) = Some acct' /\
        failedLoginAttempts acct'
          = Some (orZero (failedLoginAttempts acct) + 1) /\
        accountStatus acct' = Some "locked" /\
        lockedAt acct' = Some now /\
        lockedUntil acct' = lockedUntil acct /\
        lockDuration acct' = lockDuration acct) /\
  (forall signIn mail password message now shops shops1 e1,
      unlocked mail now shops ->
      login signIn mail password now shops
        = (shops1, inl (FirebaseError "auth/wrong-password" message)) ->
      firstWhere email (toLowerCase mail) shops1 = Some e1 ->
      5 <= orZero (failedLoginAttempts e1) + 1 ->
      let shops' := fst (handleSubmit signIn mail password now shops) in
      snd (handleSubmit signIn mail password now shops) = TooManyAttempts /\
      exists acct',
        firstWhere email (toLowerCase mail) shops' = Some acct' /\
        failedLoginAttempts acct'
          = Some (orZero (failedLoginAttempts e1) + 1) /\
        lockedUntil acct' = Some now /\
        lockDuration acct' = Some 15 /\
        lockExpiry acct' = Some (now + 15 * 60000) /\
        accountStatus acct' = accountStatus e1 /\
        (forall signIn' password' t,
            now <= t < now + 15 * 60000 ->
            fst (handleSubmit signIn' mail password' t shops') = shops' /\
            exists timeLeft,
              snd (handleSubmit signIn' mail password' t shops')
                = TemporarilyLocked timeLeft) /\
        (forall t, now + 15 * 60000 <= t -> lockedFor acct' t = None)) /\
  (forall signIn mail password message times now shops acct,
      signIn mail password = AuthFailed "auth/wrong-password" message ->
      firstWhere email (toLowerCase mail) shops = Some acct ->
      firstWhere userEmail mail shops = None ->
      orZero (failedLoginAttempts acct) = 0 ->
      List.length times = 4%nat ->
      (forall t, In t times \/ t = now -> lockedFor acct t = None) ->
      let shops5 :=
        fst (handleSubmit signIn mail password now
                          (attempts signIn mail password times shops)) in
      snd (handleSubmit signIn mail password now
                        (attempts signIn mail password times shops))
        = TooManyAttempts /\
      exists acct',
        firstWhere email (toLowerCase mail) shops5 = Some acct' /\
        failedLoginAttempts acct' = Some 5 /\
        lockedUntil acct' = Some now /\
        lockDuration acct' = Some 15 /\
        lockExpiry acct' = Some (now + 15 * 60000) /\
        accountStatus acct' = accountStatus acct /\
        (forall signIn' password' t,
            now <= t < now + 15 * 60000 ->
            fst (handleSubmit signIn' mail password' t shops5) = shops5 /\
            exists timeLeft,
              snd (handleSubmit signIn' mail password' t shops5)
                = TemporarilyLocked timeLeft) /\
        (forall t, now + 15 * 60000 <= t -> lockedFor acct' t = None)) /\
  (forall signIn mail password message times now shops acct,
      signIn mail password = AuthFailed "auth/wrong-password" message ->
      truthy_str mail = true ->
      firstWhere userEmail mail shops = Some acct ->
      firstWhere email (toLowerCase mail) shops = None ->
      orZero (failedLoginAttempts acct) = 0 ->
      List.length times = 4%nat ->
      let shops5 :=
        fst (handleSubmit signIn mail password now
                          (attempts signIn mail password times shops)) in
      snd (handleSubmit signIn mail password now
                        (attempts signIn mail password times shops))
        = FailedToSignIn accountLockedMessage /\
      (exists acct',
          firstWhere userEmail mail shops5 = Some acct' /\
          failedLoginAttempts acct' = Some 5 /\
          accountStatus acct' = Some "locked" /\
          lockedAt acct' = Some now /\
          lockedUntil acct' = lockedUntil acct /\
          lockDuration acct' = lockDuration acct) /\
      (forall t, unlocked mail t shops5)) /\
  (forall signIn mail password now shops user userData,
      unlocked mail now shops ->
      signIn mail password = SignedIn user ->
      getDoc user shops = Some userData ->
      exists d',
        getDoc user (fst (handleSubmit signIn mail password now shops))
          = Some d' /\
        failedLoginAttempts d' = Some 0 /\
        accountStatus d' = accountStatus userData /\
        lockedAt d' = lockedAt userData /\
        lockedUntil d' = lockedUntil userData /\
        lockDuration d' = lockDuration userData).
Proof.
  split; [|split; [|split; [|split]]].
  - intros signIn mail password message now shops acct Hs Hm Hun Hu Hge.
    rewrite (locked_by_login _ _ _ _ _ _ _ Hs Hm Hun Hu Hge). cbn [fst snd].
    split; [reflexivity|]. apply (locked_by_login_fields _ _ _ _ Hu).
  - intros signIn mail password message now shops shops1 e1
           Hun Hlogin He1 Hge shops'.
    assert (Hstep : handleSubmit signIn mail password now shops =
                    (updateDoc (uid e1)
                       [FailedLoginAttempts
                          (orZero (failedLoginAttempts e1) + 1);
                        LockedUntil now; LockDuration 15;
                        LastFailedLoginAt now] shops1,
                     TooManyAttempts)).
    { unfold handleSubmit. rewrite (lock_check_passes _ _ _ Hun), Hlogin.
      unfold handleFailure. cbn [error_code strict_eq_opt_str].
      rewrite String.eqb_refl. cbn [orb]. rewrite He1. cbv zeta.
      destruct (Z.leb_spec 5 (orZero (failedLoginAttempts e1) + 1)) as [_|H];
        [reflexivity|lia]. }
    subst shops'. rewrite Hstep. cbn [fst snd].
    split; [reflexivity|]. apply (locked_by_page mail now shops1 e1 He1).
  - intros signIn mail password message times now shops acct
           Hwrong He Hu Hzero Hlen Hlock shops5.
    destruct (attempts_counted signIn mail password message Hwrong
                               times shops acct He Hu)
      as (a4 & He4 & Hu4 & Hf4 & Hlu4 & Hld4 & Hst4).
    { intros t Ht. apply Hlock. left. exact Ht. }
    { rewrite Hzero, Hlen. reflexivity. }
    rewrite Hzero, Hlen in Hf4. cbn in Hf4.
    assert (lockedFor a4 now = None) as Hl4.
    { rewrite (lockedFor_fields a4 acct now Hlu4 Hld4).
      apply Hlock. right. reflexivity. }
    pose proof (failed_attempt signIn mail password message Hwrong now
                               _ a4 He4 Hu4 Hl4) as Hstep.
    rewrite Hf4 in Hstep. cbn in Hstep.
    subst shops5. rewrite Hstep. cbn [fst snd].
    split; [reflexivity|].
    destruct (locked_by_page mail now _ a4 He4)
      as (acct' & Hfind & Hf & Hlu & Hld & Hex & Hst & Hwin & Hafter).
    rewrite Hf4 in Hfind, Hf, Hwin. cbn in Hfind, Hf, Hwin.
    exists acct'. split; [exact Hfind|]. split; [exact Hf|].
    split; [exact Hlu|]. split; [exact Hld|]. split; [exact Hex|].
    split; [congruence|]. split; [exact Hwin|exact Hafter].
  - intros signIn mail password message times now shops acct
           Hwrong Hm Hu He Hzero Hlen shops5.
    destruct (attempts_counted_by_login signIn mail password message
                                        Hwrong Hm times shops acct Hu He)
      as (a4 & Hu4 & He4 & Hf4 & Hlu4 & Hld4).
    { rewrite Hzero, Hlen. reflexivity. }
    rewrite Hzero, Hlen in Hf4. cbn in Hf4.
    assert (Hun : unlocked mail now
                    (attempts signIn mail password times shops))
      by (apply unlocked_when_not_listed, He4).
    assert (Hge : 5 <= orZero (failedLoginAttempts a4) + 1)
      by (rewrite Hf4; lia).
    subst shops5.
    rewrite (locked_by_login _ _ _ _ _ _ _ Hwrong Hm Hun Hu4 Hge).
    cbn [fst snd]. split; [reflexivity|]. split.
    + destruct (locked_by_login_fields mail now _ a4 Hu4)
        as (acct' & Hfind & Hf & Hst & Hla & Hlu & Hld).
      exists acct'. rewrite Hf4 in Hf. cbn in Hf.
      repeat split; try assumption; congruence.
    + intros t. apply unlocked_when_not_listed.
      rewrite !firstWhere_email_updateDoc, He4. reflexivity.
  - intros signIn mail password now shops user userData Hun Hs Hdoc.
    pose proof Hdoc as Hfind. apply find_some in Hfind.
    destruct Hfind as [_ Huid].
    unfold handleSubmit. rewrite (lock_check_passes _ _ _ Hun).
    unfold login. rewrite Hs, Hdoc.
    destruct (negb (orZero (failedLoginAttempts userData) =? 0));
      rewrite getDoc_updateDoc, Hdoc; cbn [option_map];
      repeat match goal with
             | |- context [if ?c then _ else _] => destruct c
             end;
      cbn [fst]; rewrite !getDoc_updateDoc, Hdoc; cbn [option_map];
      (eexists; split; [reflexivity|]);
      unfold patched; rewrite Huid; cbn [fold_left setField uid];
      rewrite Huid; repeat split; reflexivity.
Qed.

Lemma fifth_failed_attempt_locks_by_tracker_witness :
  (let shops5 :=
     fst (handleSubmit Sample.service "ali@shop.pk" "guess" 5000
            (attempts Sample.service "ali@shop.pk" "guess"
                      [1000; 2000; 3000; 4000] [Sample.listed None])) in
   snd (handleSubmit Sample.service "ali@shop.pk" "guess" 5000
          (attempts Sample.service "ali@shop.pk" "guess"
                    [1000; 2000; 3000; 4000] [Sample.listed None]))
     = TooManyAttempts /\
   exists acct',
     firstWhere email (toLowerCase "ali@shop.pk") shops5 = Some acct' /\
     failedLoginAttempts acct' = Some 5 /\
     lockedUntil acct' = Some 5000 /\
     lockDuration acct' = Some 15 /\
     lockExpiry acct' = Some (5000 + 15 * 60000) /\
     accountStatus acct' = accountStatus (Sample.listed None) /\
     (forall signIn' password' t,
         5000 <= t < 5000 + 15 * 60000 ->
         fst (handleSubmit signIn' "ali@shop.pk" password' t shops5) = shops5 /\
         exists timeLeft,
           snd (handleSubmit signIn' "ali@shop.pk" password' t shops5)
             = TemporarilyLocked timeLeft) /\
     (forall t, 5000 + 15 * 60000 <= t -> lockedFor acct' t = None)) /\
  (let shops5 :=
     fst (handleSubmit Sample.service "ali@shop.pk" "guess" 5000
            (attempts Sample.service "ali@shop.pk" "guess"
                      [1000; 2000; 3000; 4000] [Sample.registered None])) in
   snd (handleSubmit Sample.service "ali@shop.pk" "guess" 5000
          (attempts Sample.service "ali@shop.pk" "guess"
                    [1000; 2000; 3000; 4000] [Sample.registered None]))
     = FailedToSignIn accountLockedMessage /\
   (exists acct',
       firstWhere userEmail "ali@shop.pk" shops5 = Some acct' /\
       failedLoginAttempts acct' = Some 5 /\
       accountStatus acct' = Some "locked" /\
       lockedAt acct' = Some 5000 /\
       lockedUntil acct' = lockedUntil (Sample.registered None) /\
       lockDuration acct' = lockDuration (Sample.registered None)) /\
   (forall t, unlocked "ali@shop.pk" t shops5)) /\
  (let shops' :=
     fst (handleSubmit Sample.service "ali@shop.pk" "guess" 5000
                       [Sample.listed_twice (Some 3)]) in
   snd (handleSubmit Sample.service "ali@shop.pk" "guess" 5000
                     [Sample.listed_twice (Some 3)]) = TooManyAttempts /\
   exists acct',
     firstWhere email (toLowerCase "ali@shop.pk") shops' = Some acct' /\
     failedLoginAttempts acct' = Some (4 + 1) /\
     lockedUntil acct' = Some 5000 /\
     lockDuration acct' = Some 15 /\
     lockExpiry acct' = Some (5000 + 15 * 60000) /\
     accountStatus acct' = Some "active" /\
     (forall signIn' password' t,
         5000 <= t < 5000 + 15 * 60000 ->
         fst (handleSubmit signIn' "ali@shop.pk" password' t shops') = shops' /\
         exists timeLeft,
           snd (handleSubmit signIn' "ali@shop.pk" password' t shops')
             = TemporarilyLocked timeLeft) /\
     (forall t, 5000 + 15 * 60000 <= t -> lockedFor acct' t = None)).
Proof.
  split; [|split].
  - apply (proj1 (proj2 (proj2 fifth_failed_attempt_locks_by_tracker))
             Sample.service "ali@shop.pk" "guess"
             "Firebase: Error (auth/wrong-password)."
             [1000; 2000; 3000; 4000] 5000
             [Sample.listed None] (Sample.listed None));
      reflexivity.
  - apply (proj1 (proj2 (proj2 (proj2 fifth_failed_attempt_locks_by_tracker)))
             Sample.service "ali@shop.pk" "guess"
             "Firebase: Error (auth/wrong-password)."
             [1000; 2000; 3000; 4000] 5000
             [Sample.registered None] (Sample.registered None));
      reflexivity.
  - apply (proj1 (proj2 fifth_failed_attempt_locks_by_tracker)
             Sample.service "ali@shop.pk" "guess"
             "Firebase: Error (auth/wrong-password)." 5000
             [Sample.listed_twice (Some 3)]
             (fst (login Sample.service "ali@shop.pk" "guess" 5000
                         [Sample.listed_twice (Some 3)]))
             (mkShop "u1" (Some "ali@shop.pk") (Some "ali@shop.pk") (Some 4)
                     None None (Some "active") None None None (Some 5000)));
      try reflexivity.
    all: try (intros acct H; vm_compute in H; inversion H; subst acct;
              reflexivity).
    all: try (vm_compute; discriminate).
Defined.

End LockoutRule.
